(** * JioMart Tier 2/3 expansion analysis: the data-generation core

    A shallow embedding of [complete_analysis.py]: the generators of
    stores, products, customers, transactions and inventory, the regional
    aggregation with the insights computed from it, the repeat-purchase
    rate, the guard of the margin-risk classifier and the cluster-naming
    rule, with the properties the specification states about them and
    further properties read off the code.

    Numbers.  Python floats are embedded as exact rationals [Q]: every
    finite float is a rational, so every input the script can see is
    covered, and arithmetic is carried out without the binary rounding
    error of IEEE doubles.  [round(x, 2)] is rounding to the nearest
    hundredth, ties to even.  Division is partial: [Py.div] has no value
    for a zero divisor, where Python raises [ZeroDivisionError].

    Randomness.  Each call of [np.random.*] is a function of the value the
    underlying generator hands out: a uniform sample [u] with [0 <= u < 1]
    for [uniform], [choice] and [randint], and the sample itself for
    [lognormal].  The samples of one loop iteration are gathered in a
    record of draws, so that "for every generated row" reads as "for every
    admissible record of draws".  The range of a [uniform] value is stated
    with both ends closed: in binary floating point the sum
    [low + (high - low) * u] may round up to [high] itself.

    Library calls.  A call into the learning library may raise; the
    script catches nothing, so an exception ends the run.  Whether a call
    returns is an input of the model. *)

From stdpp Require Import gmap strings list pretty sorting.
From Stdlib Require Import QArith Qround Qabs Lqa.

Local Open Scope Q_scope.

(** ** Python numbers *)

Module Py.

(** [a / b] on floats; [None] stands for [ZeroDivisionError]. *)
Definition div (a b : Q) : option Q :=
  if Qeq_dec b 0 then None else Some (a / b).

(** Nearest integer, ties to the even neighbour. *)
Definition round_half_even (y : Q) : Z :=
  let f := Qfloor y in
  match Qcompare (y - inject_Z f) (1 # 2) with
  | Lt => f
  | Gt => (f + 1)%Z
  | Eq => if Z.even f then f else (f + 1)%Z
  end.

(** [round(x, 2)]; the result is kept in lowest terms. *)
Definition round2 (x : Q) : Q :=
  Qred (round_half_even (x * 100) # 100).

(** [int(x)]: truncation toward zero. *)
Definition int (x : Q) : Z :=
  if Qlt_le_dec x 0 then Qceiling x else Qfloor x.

End Py.

(** ** The samplers of [np.random] *)

Module Np.

(** [np.random.uniform(low, high)] is [low + (high - low) * u].  With
    floats the result lies in the closed range from [low] to [high]: for
    [u] just below one the sum can round to [high]. *)
Definition uniform (low high u : Q) : Q := low + (high - low) * u.

(** [np.random.randint(low, high)]: an integer of [[low, high)]. *)
Definition randint (low high : Z) (u : Q) : Z :=
  (low + Qfloor (inject_Z (high - low) * u))%Z.

(** Running sums of the weights, [p.cumsum()]. *)
Fixpoint cumsum (acc : Q) (p : list Q) : list Q :=
  match p with
  | [] => []
  | w :: p' => (acc + w) :: cumsum (acc + w) p'
  end.

(** [cdf.searchsorted(u, side='right')] on an increasing [cdf]: the
    number of leading entries that are [<= u]. *)
Fixpoint searchsorted_right (cdf : list Q) (u : Q) : nat :=
  match cdf with
  | [] => O
  | c :: cdf' =>
      if Qlt_le_dec u c then O else S (searchsorted_right cdf' u)
  end.

(** [np.random.choice(a, p=p)]: inverse-CDF sampling.  The weights of
    every call in the script sum to one, so the normalisation
    [cdf /= cdf[-1]] of the library leaves [cdf] unchanged. *)
Definition choice {A : Type} (a : list A) (p : list Q) (u : Q) : option A :=
  a !! searchsorted_right (cumsum 0 p) u.

(** A sample of the unit interval, as [random_sample()] returns it. *)
Definition unit_sample (u : Q) : Prop := 0 <= u /\ u < 1.

End Np.

(** ** Reference data *)

Inductive tier : Set := Metro | Tier2 | Tier3.

Definition tier_name (t : tier) : string :=
  match t with
  | Metro => "Metro"
  | Tier2 => "Tier 2"
  | Tier3 => "Tier 3"
  end.

#[global] Instance tier_eq_dec : EqDecision tier.
Proof. solve_decision. Defined.

(** One entry of the [product_categories] dictionary. *)
Record category_spec : Type := {
  cat_name : string;
  items : list string;
  cost_range : Q * Q;
  margin_range : Q * Q;
  perishable : bool
}.

(** The dictionary is iterated in insertion order, so a list of entries
    carries all that [product_categories.items()] yields. *)
Definition product_categories : list category_spec := [
  {| cat_name := "Groceries";
     items := ["Basmati Rice 5kg"; "Wheat Flour 10kg"; "Sunflower Oil 1L";
               "Sugar 1kg"; "Toor Dal 1kg"; "Spices Mix"]%string;
     cost_range := (40, 250); margin_range := (12, 20);
     perishable := false |};
  {| cat_name := "Fresh Produce";
     items := ["Seasonal Vegetables"; "Fresh Fruits"; "Milk 1L";
               "Eggs Dozen"; "Paneer 200g"; "Fresh Chicken"]%string;
     cost_range := (30, 180); margin_range := (18, 28);
     perishable := true |};
  {| cat_name := "Packaged Foods";
     items := ["Biscuits Assorted"; "Namkeen Mix"; "Instant Noodles";
               "Sauces"; "Beverages"; "Bread"]%string;
     cost_range := (25, 150); margin_range := (15, 25);
     perishable := false |};
  {| cat_name := "Personal Care";
     items := ["Shampoo 200ml"; "Soap Bar"; "Toothpaste"; "Face Wash";
               "Body Lotion"; "Hair Oil"]%string;
     cost_range := (50, 300); margin_range := (20, 35);
     perishable := false |};
  {| cat_name := "Home Care";
     items := ["Detergent 1kg"; "Floor Cleaner"; "Dishwash Liquid";
               "Toilet Cleaner"; "Air Freshener"]%string;
     cost_range := (40, 200); margin_range := (18, 28);
     perishable := false |};
  {| cat_name := "Electronics";
     items := ["Mobile Phones"; "TWS Earbuds"; "Phone Chargers";
               "Power Banks"; "Smart Watches"]%string;
     cost_range := (500, 15000); margin_range := (8, 15);
     perishable := false |};
  {| cat_name := "Fashion";
     items := ["T-Shirts"; "Jeans"; "Footwear"; "Accessories";
               "Kids Wear"]%string;
     cost_range := (200, 2000); margin_range := (25, 45);
     perishable := false |}
].

(** ** Product catalogue *)

(** A row of [products_df].  [product_id] is the counter that the script
    formats as [PRD%04d]. *)
Record product : Type := {
  product_id : nat;
  product_name : string;
  category : string;
  unit_cost : Q;
  list_price : Q;
  target_margin_pct : Q;
  is_perishable : bool;
  avg_shelf_life_days : Z
}.

Module Products.

(** The three samples one product consumes, in the order of the calls. *)
Record draws : Type := {
  u_cost : Q;
  u_margin : Q;
  u_shelf : Q
}.

Definition admissible (d : draws) : Prop :=
  Np.unit_sample (u_cost d) /\ Np.unit_sample (u_margin d) /\
  Np.unit_sample (u_shelf d).

(** The body of the inner loop: one dictionary appended to
    [products_data].  The division is the only step that can raise. *)
Definition make_product (prod_id : nat) (details : category_spec)
    (item : string) (d : draws) : option product :=
  let cost :=
    Np.uniform (fst (cost_range details)) (snd (cost_range details))
      (u_cost d) in
  let margin_pct :=
    Np.uniform (fst (margin_range details)) (snd (margin_range details))
      (u_margin d) in
  list_price ← Py.div cost (1 - margin_pct / 100);
  Some {| product_id := prod_id;
          product_name := item;
          category := cat_name details;
          unit_cost := Py.round2 cost;
          list_price := Py.round2 list_price;
          target_margin_pct := Py.round2 margin_pct;
          is_perishable := perishable details;
          avg_shelf_life_days :=
            if perishable details then Np.randint 1 7 (u_shelf d)
            else Np.randint 180 730 (u_shelf d) |}.

(** The state the two loops thread: the counter [prod_id] and the list
    [products_data]. *)
Definition gen_state : Type := nat * list product.

(** [for item in details['items']: ...; prod_id += 1].  The samples of
    the product numbered [n] are [rng n]. *)
Fixpoint items_loop (rng : nat -> draws) (details : category_spec)
    (its : list string) (st : gen_state) : option gen_state :=
  match its with
  | [] => Some st
  | item :: its' =>
      p ← make_product (fst st) details item (rng (fst st));
      items_loop rng details its' (S (fst st), snd st ++ [p])
  end.

(** [for category, details in product_categories.items(): ...] *)
Fixpoint categories_loop (rng : nat -> draws) (cats : list category_spec)
    (st : gen_state) : option gen_state :=
  match cats with
  | [] => Some st
  | details :: cats' =>
      st' ← items_loop rng details (items details) st;
      categories_loop rng cats' st'
  end.

(** The rows of [products_df]: the loops run from [prod_id = 1] and an
    empty list. *)
Definition products_data (rng : nat -> draws) : option (list product) :=
  snd <$> categories_loop rng product_categories (1%nat, []).

End Products.

(** ** Transactions *)

Module Transactions.

(** The samples one loop iteration consumes after the customer, the store
    and the product were picked: the log-normal sample itself, and one
    unit sample per remaining call. *)
Record draws : Type := {
  d_lognormal : Q;
  d_discount : Q;
  d_delivery_time : Q;
  d_delivery_distance : Q;
  d_payment : Q;
  d_spoilage : Q
}.

Definition admissible (d : draws) : Prop :=
  0 < d_lognormal d /\
  Np.unit_sample (d_discount d) /\
  Np.unit_sample (d_delivery_time d) /\
  Np.unit_sample (d_delivery_distance d) /\
  Np.unit_sample (d_payment d) /\
  Np.unit_sample (d_spoilage d).

Definition payment_methods : list string :=
  ["UPI"; "Card"; "Wallet"; "COD"]%string.

(** The tier-dependent block "Transaction characteristics by tier": the
    values of [qty], [discount], [delivery_time], [delivery_distance] and
    [payment_method] it assigns.  The parameters of [lognormal] fix the
    law of the sample, not the range of its values. *)
Definition characteristics (t : tier) (d : draws)
    : option (Z * Z * Q * Q * string) :=
  match t with
  | Metro =>
      let qty := Py.int (d_lognormal d) in
      discount ← Np.choice [0; 5; 10; 15]%Z [0.6; 0.25; 0.10; 0.05]
                   (d_discount d);
      let delivery_time := Np.uniform 0.5 3 (d_delivery_time d) in
      let delivery_distance := Np.uniform 1 15 (d_delivery_distance d) in
      payment_method ← Np.choice payment_methods [0.4; 0.35; 0.2; 0.05]
                         (d_payment d);
      Some (qty, discount, delivery_time, delivery_distance, payment_method)
  | Tier2 =>
      let qty := Py.int (d_lognormal d) in
      discount ← Np.choice [0; 5; 10; 15; 20]%Z
                   [0.4; 0.3; 0.15; 0.10; 0.05] (d_discount d);
      let delivery_time := Np.uniform 2 8 (d_delivery_time d) in
      let delivery_distance := Np.uniform 3 30 (d_delivery_distance d) in
      payment_method ← Np.choice payment_methods [0.35; 0.20; 0.15; 0.30]
                         (d_payment d);
      Some (qty, discount, delivery_time, delivery_distance, payment_method)
  | Tier3 =>
      let qty := Py.int (d_lognormal d) in
      discount ← Np.choice [0; 5; 10; 15; 20]%Z
                   [0.3; 0.25; 0.20; 0.15; 0.10] (d_discount d);
      let delivery_time := Np.uniform 4 16 (d_delivery_time d) in
      let delivery_distance := Np.uniform 5 60 (d_delivery_distance d) in
      payment_method ← Np.choice payment_methods [0.25; 0.10; 0.10; 0.55]
                         (d_payment d);
      Some (qty, discount, delivery_time, delivery_distance, payment_method)
  end.

(** The local variables of one iteration, before any rounding. *)
Module Raw.
Record locals : Type := {
  qty : Z;
  discount : Z;
  delivery_time : Q;
  delivery_distance : Q;
  payment_method : string;
  unit_price : Q;
  revenue : Q;
  product_cost : Q;
  logistics_cost : Q;
  spoilage_cost : Q;
  total_cost : Q;
  margin : Q;
  margin_pct : Q
}.
End Raw.

(** "Logistics cost increases with distance and tier". *)
Definition logistics (t : tier) (delivery_distance : Q) : Q :=
  match t with
  | Metro => delivery_distance * 2.5 + 15
  | Tier2 => delivery_distance * 3.5 + 25
  | Tier3 => delivery_distance * 4.5 + 35
  end.

(** "Spoilage cost for perishables in lower tiers": the variable starts
    at [0] and is overwritten only under both tests. *)
Definition spoilage (t : tier) (prod : product) (product_cost : Q)
    (d : draws) : Q :=
  if is_perishable prod then
    match t with
    | Tier2 => product_cost * Np.uniform 0 0.08 (d_spoilage d)
    | Tier3 => product_cost * Np.uniform 0 0.15 (d_spoilage d)
    | Metro => 0
    end
  else 0.

(** [(margin / revenue * 100) if revenue > 0 else 0] *)
Definition margin_percent (margin revenue : Q) : option Q :=
  if Qlt_le_dec 0 revenue then
    q ← Py.div margin revenue; Some (q * 100)
  else Some 0.

(** "Pricing and costs": the financial derivation of one iteration. *)
Definition derive (t : tier) (prod : product) (d : draws)
    : option Raw.locals :=
  '(qty, discount, delivery_time, delivery_distance, payment_method) ←
    characteristics t d;
  let qty := Z.max 1 (Z.min qty 10) in
  let unit_price := list_price prod * (1 - inject_Z discount / 100) in
  let revenue := unit_price * inject_Z qty in
  let product_cost := unit_cost prod * inject_Z qty in
  let logistics_cost := logistics t delivery_distance in
  let spoilage_cost := spoilage t prod product_cost d in
  let total_cost := product_cost + logistics_cost + spoilage_cost in
  let margin := revenue - total_cost in
  margin_pct ← margin_percent margin revenue;
  Some {| Raw.qty := qty;
          Raw.discount := discount;
          Raw.delivery_time := delivery_time;
          Raw.delivery_distance := delivery_distance;
          Raw.payment_method := payment_method;
          Raw.unit_price := unit_price;
          Raw.revenue := revenue;
          Raw.product_cost := product_cost;
          Raw.logistics_cost := logistics_cost;
          Raw.spoilage_cost := spoilage_cost;
          Raw.total_cost := total_cost;
          Raw.margin := margin;
          Raw.margin_pct := margin_pct |}.

(** A row of [transactions_df] (the identifiers and the date, which no
    financial field depends on, are left out). *)
Record transaction : Type := {
  region_tier : tier;
  txn_product_id : nat;
  quantity : Z;
  unit_price : Q;
  revenue : Q;
  product_cost : Q;
  logistics_cost : Q;
  spoilage_cost : Q;
  total_cost : Q;
  margin : Q;
  margin_pct : Q;
  discount_pct : Z;
  delivery_time_hours : Q;
  delivery_distance_km : Q;
  payment_method : string;
  txn_is_perishable : bool
}.

(** The dictionary appended to [transactions_data]: every money field is
    rounded on its own, from the unrounded local. *)
Definition store_row (t : tier) (prod : product) (l : Raw.locals)
    : transaction :=
  {| region_tier := t;
     txn_product_id := product_id prod;
     quantity := Raw.qty l;
     unit_price := Py.round2 (Raw.unit_price l);
     revenue := Py.round2 (Raw.revenue l);
     product_cost := Py.round2 (Raw.product_cost l);
     logistics_cost := Py.round2 (Raw.logistics_cost l);
     spoilage_cost := Py.round2 (Raw.spoilage_cost l);
     total_cost := Py.round2 (Raw.total_cost l);
     margin := Py.round2 (Raw.margin l);
     margin_pct := Py.round2 (Raw.margin_pct l);
     discount_pct := Raw.discount l;
     delivery_time_hours := Py.round2 (Raw.delivery_time l);
     delivery_distance_km := Py.round2 (Raw.delivery_distance l);
     payment_method := Raw.payment_method l;
     txn_is_perishable := is_perishable prod |}.

(** One iteration of the transaction loop, from the picked tier and
    product to the stored row. *)
Definition transaction_row (t : tier) (prod : product) (d : draws)
    : option transaction :=
  store_row t prod <$> derive t prod d.

End Transactions.

(** ** Margin-risk classifier: the guarded stage *)

Module RiskClassifier.

(** What the stage does, in the order of the statements: calls into the
    learning library and lines written to the console. *)
Inductive action : Type :=
  | TrainTestSplit
  | FitScaler
  | ScaleTest
  | FitForest
  | Predict
  | PrintReport
  | PrintImportances
  | SavePlot
  | PrintLine (msg : string).

#[global] Instance action_eq_dec : EqDecision action.
Proof. solve_decision. Defined.

(** [(store_perf['margin_pct'] < 10).astype(int)], for one store. *)
Definition high_risk (margin_pct : Q) : Z :=
  if Qlt_le_dec margin_pct 10 then 1%Z else 0%Z.

(** [y.unique()]: the distinct values, in order of first appearance. *)
Fixpoint unique_from (seen : list Z) (y : list Z) : list Z :=
  match y with
  | [] => []
  | v :: y' =>
      if decide (v ∈ seen) then unique_from seen y'
      else v :: unique_from (v :: seen) y'
  end.

Definition unique (y : list Z) : list Z := unique_from [] y.

Definition warning : string :=
  "  ⚠ Insufficient class diversity for training".

(** How the stage ends: it runs to its last statement, or a library call
    raises.  Nothing in the script catches an exception. *)
Inductive outcome : Type :=
  | Completed
  | Raised (a : action).

(** [print] of a line; every other action is a call into a library. *)
Definition is_print (a : action) : bool :=
  match a with
  | PrintLine _ => true
  | _ => false
  end.

(** The statements of a block, one after the other.  [returns a] tells
    whether the library call [a] returns; a call that raises is the last
    one started.  The result is the list of the actions started and the
    way the block ends. *)
Fixpoint run (returns : action -> bool) (block : list action)
    : list action * outcome :=
  match block with
  | [] => ([], Completed)
  | a :: rest =>
      if is_print a || returns a then
        let r := run returns rest in (a :: fst r, snd r)
      else ([a], Raised a)
  end.

(** The statements under [if len(y.unique()) > 1:]. *)
Definition training : list action :=
  [TrainTestSplit; FitScaler; ScaleTest; FitForest; Predict;
   PrintLine "
  Classification Report:"; PrintReport;
   PrintLine "
  Top Feature Importances:"; PrintImportances;
   SavePlot;
   PrintLine "     ✓ Saved: feature_importance_margin_risk.png"].

(** The train/test block [if len(y.unique()) > 1: ... else: ...].  The
    guard only counts the distinct labels: the stratified split that
    follows can still raise, for instance when one of the two classes has
    a single store. *)
Definition stage (returns : action -> bool) (y : list Z)
    : list action * outcome :=
  if decide (1 < length (unique y))%nat then run returns training
  else run returns [PrintLine warning].

(** The stage on the per-store mean margin percentages. *)
Definition margin_risk_stage (returns : action -> bool)
    (store_margin_pct : list Q) : list action * outcome :=
  stage returns (high_risk <$> store_margin_pct).

End RiskClassifier.

(** ** Customer segmentation: naming the clusters *)

Module Segments.

(** A row of [cluster_profiles]; the row of cluster [i] is at position
    [i], as [groupby('cluster')] orders it when no cluster is empty. *)
Record profile : Type := {
  customer_count : Z;
  avg_purchases : Q;
  avg_revenue : Q;
  avg_margin : Q;
  avg_age : Q;
  avg_income_code : Q;
  avg_digital_score : Q
}.

Definition optimal_k : nat := 4.

(** A scan that keeps the first position whose value beats every value
    before it; [i] is the position of the head of [col]. *)
Fixpoint scan (beats : Q -> Q -> bool) (col : list Q) (i best_i : nat)
    (best : Q) : nat :=
  match col with
  | [] => best_i
  | x :: col' =>
      if beats x best then scan beats col' (S i) i x
      else scan beats col' (S i) best_i best
  end.

Definition Qltb (a b : Q) : bool :=
  if Qlt_le_dec a b then true else false.

(** [Series.idxmax()] and [Series.idxmin()]: the label of the first
    occurrence of the extreme value; they raise on an empty column. *)
Definition idxmax (col : list Q) : option nat :=
  match col with
  | [] => None
  | x :: col' => Some (scan (fun a best => Qltb best a) col' 1 0 x)
  end.

Definition idxmin (col : list Q) : option nat :=
  match col with
  | [] => None
  | x :: col' => Some (scan (fun a best => Qltb a best) col' 1 0 x)
  end.

(** The dictionary display with its three entries, stored from left to
    right, so that a later entry replaces an earlier one under the same
    key. *)
Definition named_extremes (hi_rev hi_pur lo_rev : nat) : gmap nat string :=
  <[lo_rev := "Low Engagement"%string]>
    (<[hi_pur := "Frequent Buyers"%string]>
       (<[hi_rev := "High Value"%string]> ∅)).

(** [[i for i in range(optimal_k) if i not in cluster_names.keys()]] *)
Definition remaining (names : gmap nat string) : list nat :=
  filter (fun i => names !! i = None) (seq 0 optimal_k).

(** "Name clusters based on characteristics". *)
Definition cluster_names (cluster_profiles : list profile)
    : option (gmap nat string) :=
  hi_rev ← idxmax (avg_revenue <$> cluster_profiles);
  hi_pur ← idxmax (avg_purchases <$> cluster_profiles);
  lo_rev ← idxmin (avg_revenue <$> cluster_profiles);
  let names := named_extremes hi_rev hi_pur lo_rev in
  Some (match remaining names with
        | [] => names
        | i :: _ => <[i := "Moderate"%string]> names
        end).

(** [cust_features['cluster'].map(cluster_names)] for one customer: the
    name of its cluster, [None] where the mapping yields no name. *)
Definition cluster_name (names : gmap nat string) (cluster : nat)
    : option string :=
  names !! cluster.

End Segments.

(** ** Calendar dates *)

Module Dates.

(** [datetime.date] as the proleptic Gregorian ordinal the standard
    library computes with: day 1 is 0001-01-01. *)
Definition is_leap (year : Z) : bool :=
  ((year mod 4 =? 0) && (negb (year mod 100 =? 0) || (year mod 400 =? 0)))%Z.

Definition days_before_year (year : Z) : Z :=
  let y := (year - 1)%Z in
  (y * 365 + y / 4 - y / 100 + y / 400)%Z.

Definition days_in_month (year month : Z) : Z :=
  if (month =? 2)%Z then (if is_leap year then 29 else 28)%Z
  else if ((month =? 4) || (month =? 6) || (month =? 9) || (month =? 11))%Z
       then 30%Z else 31%Z.

(** Days of the year before the first day of [month]. *)
Definition days_before_month (year month : Z) : Z :=
  foldr Z.add 0%Z
    (days_in_month year <$> seqZ 1 (month - 1)).

(** [datetime(year, month, day)], read as a day number. *)
Definition datetime (year month day : Z) : Z :=
  (days_before_year year + days_before_month year month + day)%Z.

(** [d + timedelta(days=n)], [d - timedelta(days=n)], [(d1 - d2).days]. *)
Definition plus_days (d n : Z) : Z := (d + n)%Z.
Definition minus_days (d n : Z) : Z := (d - n)%Z.
Definition days_between (d1 d2 : Z) : Z := (d1 - d2)%Z.

End Dates.

(** ** City tables *)

Record city_info : Type := {
  city_name : string;
  city_state : string;
  population : Z;
  infra_score : Q
}.

Definition metro_cities : list city_info := [
  {| city_name := "Mumbai"; city_state := "Maharashtra";
     population := 20400000; infra_score := 9.5 |};
  {| city_name := "Delhi"; city_state := "Delhi";
     population := 16750000; infra_score := 9.2 |};
  {| city_name := "Bangalore"; city_state := "Karnataka";
     population := 12330000; infra_score := 9.0 |};
  {| city_name := "Hyderabad"; city_state := "Telangana";
     population := 10000000; infra_score := 8.8 |};
  {| city_name := "Pune"; city_state := "Maharashtra";
     population := 6430000; infra_score := 8.5 |};
  {| city_name := "Chennai"; city_state := "Tamil Nadu";
     population := 10970000; infra_score := 8.7 |}
].

Definition tier2_cities : list city_info := [
  {| city_name := "Jaipur"; city_state := "Rajasthan";
     population := 3050000; infra_score := 7.5 |};
  {| city_name := "Lucknow"; city_state := "Uttar Pradesh";
     population := 2900000; infra_score := 7.2 |};
  {| city_name := "Coimbatore"; city_state := "Tamil Nadu";
     population := 2150000; infra_score := 7.8 |};
  {| city_name := "Indore"; city_state := "Madhya Pradesh";
     population := 2170000; infra_score := 7.4 |};
  {| city_name := "Bhopal"; city_state := "Madhya Pradesh";
     population := 1800000; infra_score := 6.9 |};
  {| city_name := "Nagpur"; city_state := "Maharashtra";
     population := 2400000; infra_score := 7.3 |};
  {| city_name := "Vadodara"; city_state := "Gujarat";
     population := 1670000; infra_score := 7.6 |};
  {| city_name := "Ludhiana"; city_state := "Punjab";
     population := 1620000; infra_score := 7.1 |};
  {| city_name := "Visakhapatnam"; city_state := "Andhra Pradesh";
     population := 1730000; infra_score := 7.0 |}
].

Definition tier3_cities : list city_info := [
  {| city_name := "Raipur"; city_state := "Chhattisgarh";
     population := 1010000; infra_score := 6.2 |};
  {| city_name := "Jamshedpur"; city_state := "Jharkhand";
     population := 630000; infra_score := 6.5 |};
  {| city_name := "Guwahati"; city_state := "Assam";
     population := 960000; infra_score := 6.0 |};
  {| city_name := "Ranchi"; city_state := "Jharkhand";
     population := 1070000; infra_score := 6.3 |};
  {| city_name := "Agra"; city_state := "Uttar Pradesh";
     population := 1590000; infra_score := 5.8 |};
  {| city_name := "Nashik"; city_state := "Maharashtra";
     population := 1480000; infra_score := 6.4 |};
  {| city_name := "Udaipur"; city_state := "Rajasthan";
     population := 475000; infra_score := 6.1 |};
  {| city_name := "Ajmer"; city_state := "Rajasthan";
     population := 550000; infra_score := 5.9 |};
  {| city_name := "Mysore"; city_state := "Karnataka";
     population := 920000; infra_score := 6.7 |}
].

(** ** Stores *)

Module Stores.

(** A row of [stores_df]; [store_id] is the counter formatted as
    [STR%04d], [opening_date] a day number. *)
Record store : Type := {
  store_id : nat;
  store_name : string;
  region_tier : tier;
  city : string;
  state : string;
  city_population : Z;
  infrastructure_score : Q;
  warehouse_distance_km : Q;
  opening_date : Z
}.

(** The two samples one store consumes. *)
Record draws : Type := {
  u_distance : Q;
  u_opening : Q
}.

Definition admissible (d : draws) : Prop :=
  Np.unit_sample (u_distance d) /\ Np.unit_sample (u_opening d).

(** The triples the outer loop runs over. *)
Definition tier_plan : list (list city_info * tier * nat) :=
  [(metro_cities, Metro, 40%nat); (tier2_cities, Tier2, 45%nat);
   (tier3_cities, Tier3, 35%nat)].

(** The body of the inner loop for the slot [i] of a tier:
    [cities[i % len(cities)]] has no value on an empty list. *)
Definition make_store (id : nat) (cities : list city_info)
    (tier_name : tier) (i : nat) (d : draws) : option store :=
  if decide (length cities = 0%nat) then None
  else
    info ← cities !! (i mod length cities)%nat;
    Some {| store_id := id;
            store_name :=
              "JioMart " +:+ city_name info +:+ " Store "
                +:+ pretty ((i mod length cities) + 1)%nat;
            region_tier := tier_name;
            city := city_name info;
            state := city_state info;
            city_population := population info;
            infrastructure_score := infra_score info;
            warehouse_distance_km :=
              if decide (tier_name = Metro)
              then Np.uniform 2 8 (u_distance d)
              else Np.uniform 10 40 (u_distance d);
            opening_date :=
              Dates.plus_days (Dates.datetime 2023 1 1)
                (Np.randint 0 365 (u_opening d)) |}.

(** The counter [store_id] and the list [stores_data]. *)
Definition gen_state : Type := nat * list store.

(** [for i in range(num_stores): ...; store_id += 1], from slot [i] on
    for [todo] more slots.  The samples of the store numbered [n] are
    [rng n]. *)
Fixpoint slots_loop (rng : nat -> draws) (cities : list city_info)
    (tier_name : tier) (i todo : nat) (st : gen_state) : option gen_state :=
  match todo with
  | O => Some st
  | S todo' =>
      s ← make_store (fst st) cities tier_name i (rng (fst st));
      slots_loop rng cities tier_name (S i) todo' (S (fst st), snd st ++ [s])
  end.

(** [for cities, tier_name, num_stores in [...]: ...] *)
Fixpoint tiers_loop (rng : nat -> draws)
    (plan : list (list city_info * tier * nat)) (st : gen_state)
    : option gen_state :=
  match plan with
  | [] => Some st
  | (cities, tier_name, num_stores) :: plan' =>
      st' ← slots_loop rng cities tier_name 0 num_stores st;
      tiers_loop rng plan' st'
  end.

(** The rows of [stores_df]. *)
Definition stores_data (rng : nat -> draws) : option (list store) :=
  snd <$> tiers_loop rng tier_plan (1%nat, []).

End Stores.

(** ** Picking rows of a frame *)

Module Pd.

(** [frame.sample(1).iloc[0]]: one row, every row being equally likely;
    the row at the position the unit sample [u] falls on.  An empty frame
    has no row to give, where pandas raises. *)
Definition sample1 {A : Type} (rows : list A) (u : Q) : option A :=
  rows !! Z.to_nat (Qfloor (inject_Z (Z.of_nat (length rows)) * u)).

(** [frame[mask].iloc[0]]: the first row that passes, if any. *)
Definition first_row {A : Type} (P : A -> Prop) `{!forall x, Decision (P x)}
    (rows : list A) : option A :=
  head (filter P rows).

End Pd.

(** ** Customers *)

Module Customers.

(** A row of [customers_df]; [customer_id] is the loop index formatted as
    [CUST%06d]. *)
Record customer : Type := {
  customer_id : nat;
  primary_store_id : nat;
  region_tier : tier;
  age : Z;
  income_bracket : string;
  digital_literacy_score : Q;
  registration_date : Z
}.

(** The samples one customer consumes: unit samples, and the value
    [np.random.normal] returns. *)
Record draws : Type := {
  u_tier : Q;
  u_store : Q;
  d_normal : Q;
  u_income : Q;
  u_literacy : Q;
  u_registration : Q
}.

Definition admissible (d : draws) : Prop :=
  Np.unit_sample (u_tier d) /\ Np.unit_sample (u_store d) /\
  Np.unit_sample (u_income d) /\ Np.unit_sample (u_literacy d) /\
  Np.unit_sample (u_registration d).

Definition n_customers : nat := Z.to_nat 15000.

(** "Customer demographics vary by tier": the raw age and the income
    bracket. *)
Definition demographics (t : tier) (d : draws) : option (Z * string) :=
  match t with
  | Metro =>
      let age := Py.int (d_normal d) in
      income_bracket ← Np.choice ["25-50K"; "50-75K"; "75K+"]%string
                         [0.3; 0.4; 0.3] (u_income d);
      Some (age, income_bracket)
  | Tier2 =>
      let age := Py.int (d_normal d) in
      income_bracket ← Np.choice ["15-25K"; "25-50K"; "50-75K"]%string
                         [0.4; 0.4; 0.2] (u_income d);
      Some (age, income_bracket)
  | Tier3 =>
      let age := Py.int (d_normal d) in
      income_bracket ← Np.choice ["10-15K"; "15-25K"; "25-50K"]%string
                         [0.5; 0.4; 0.1] (u_income d);
      Some (age, income_bracket)
  end.

(** The body of the customer loop for the index [i]. *)
Definition make_customer (stores : list Stores.store) (i : nat) (d : draws)
    : option customer :=
  t ← Np.choice [Metro; Tier2; Tier3] [0.55; 0.30; 0.15] (u_tier d);
  let tier_stores := filter (fun s => Stores.region_tier s = t) stores in
  primary_store ← Pd.sample1 tier_stores (u_store d);
  '(age, income_bracket) ← demographics t d;
  let age := Z.max 18 (Z.min age 70) in
  Some {| customer_id := i;
          primary_store_id := Stores.store_id primary_store;
          region_tier := t;
          age := age;
          income_bracket := income_bracket;
          digital_literacy_score :=
            if decide (t = Metro) then Np.uniform 4 10 (u_literacy d)
            else Np.uniform 3 8 (u_literacy d);
          registration_date :=
            Dates.plus_days (Dates.datetime 2023 1 1)
              (Np.randint 0 450 (u_registration d)) |}.

(** [for i in range(1, n_customers + 1): ...]; the samples of customer
    [i] are [rng i]. *)
Definition customers_data (stores : list Stores.store) (rng : nat -> draws)
    : option (list customer) :=
  mapM (fun i => make_customer stores i (rng i)) (seq 1 n_customers).

(** The dictionary [income_mapping] of the lifetime-value model. *)
Definition income_mapping : gmap string Z :=
  <["75K+"%string := 5%Z]>
    (<["50-75K"%string := 4%Z]>
       (<["25-50K"%string := 3%Z]>
          (<["15-25K"%string := 2%Z]>
             (<["10-15K"%string := 1%Z]> ∅)))).

(** [income_bracket.map(income_mapping)] for one customer: no value where
    the bracket is not a key. *)
Definition income_code (c : customer) : option Z :=
  income_mapping !! income_bracket c.

(** [(datetime(2024, 9, 30) - registration_date).days] *)
Definition days_since_registration (c : customer) : Z :=
  Dates.days_between (Dates.datetime 2024 9 30) (registration_date c).

End Customers.

(** ** The transaction loop around the financial derivation *)

Module TransactionLoop.

(** The samples of one iteration that pick the customer, the store, the
    product and the date. *)
Record picks : Type := {
  u_customer : Q;
  u_primary : Q;
  u_store : Q;
  u_category : Q;
  u_product : Q;
  u_days_back : Q
}.

Definition admissible (p : picks) : Prop :=
  Np.unit_sample (u_customer p) /\ Np.unit_sample (u_primary p) /\
  Np.unit_sample (u_store p) /\ Np.unit_sample (u_category p) /\
  Np.unit_sample (u_product p) /\ Np.unit_sample (u_days_back p).

(** "Select store (80% primary, 20% nearby)". *)
Definition select_store (stores : list Stores.store)
    (customer : Customers.customer) (p : picks) : option Stores.store :=
  if Qlt_le_dec (u_primary p) 0.8 then
    let store_id := Customers.primary_store_id customer in
    Pd.first_row (fun s => Stores.store_id s = store_id) stores
  else
    Pd.sample1
      (filter (fun s => Stores.region_tier s = Customers.region_tier customer)
         stores)
      (u_store p).

(** [category.isin(['Electronics', 'Fashion'])] *)
Definition discretionary (prod : product) : Prop :=
  category prod ∈ ["Electronics"; "Fashion"]%string.

(** "Select product with tier preferences". *)
Definition select_product (products : list product) (t : tier) (p : picks)
    : option product :=
  match t with
  | Metro => Pd.sample1 products (u_product p)
  | Tier2 =>
      if Qlt_le_dec (u_category p) 0.2 then
        Pd.sample1 (filter discretionary products) (u_product p)
      else
        Pd.sample1 (filter (fun x => ~ discretionary x) products)
          (u_product p)
  | Tier3 =>
      if Qlt_le_dec (u_category p) 0.1 then
        Pd.sample1 (filter discretionary products) (u_product p)
      else
        Pd.sample1 (filter (fun x => ~ discretionary x) products)
          (u_product p)
  end.

(** [np.random.randint(low, high)] with its argument check: the library
    raises when [low >= high]. *)
Definition randint_checked (low high : Z) (u : Q) : option Z :=
  if decide (low < high)%Z then Some (Np.randint low high u) else None.

(** "Transaction date". *)
Definition transaction_date_of (customer : Customers.customer) (p : picks)
    : option Z :=
  let days_since_registration :=
    Dates.days_between (Dates.datetime 2024 9 30)
      (Customers.registration_date customer) in
  days_back ← randint_checked 0 (Z.min days_since_registration 365)
                (u_days_back p);
  Some (Dates.minus_days (Dates.datetime 2024 9 30) days_back).

(** A row of [transactions_df] with the identifiers and the date; the
    remaining columns are those of [Transactions.transaction]. *)
Record record : Type := {
  transaction_id : nat;
  transaction_date : Z;
  customer_id : nat;
  store_id : nat;
  row : Transactions.transaction
}.

(** The body of the loop for the index [i]. *)
Definition iteration (stores : list Stores.store) (products : list product)
    (customers : list Customers.customer) (i : nat) (p : picks)
    (d : Transactions.draws) : option record :=
  customer ← Pd.sample1 customers (u_customer p);
  let t := Customers.region_tier customer in
  store ← select_store stores customer p;
  prod ← select_product products t p;
  r ← Transactions.transaction_row t prod d;
  date ← transaction_date_of customer p;
  Some {| transaction_id := i;
          transaction_date := date;
          customer_id := Customers.customer_id customer;
          store_id := Stores.store_id store;
          row := r |}.

End TransactionLoop.

(** ** Inventory *)

Module Inventory.

(** The id column of [products_df]. *)
Definition product_key (prod : product) : nat := product_id prod.

(** A row of [inventory_df]; [inventory_id] is the counter formatted as
    [INV%06d]. *)
Record inventory_record : Type := {
  inventory_id : nat;
  store_id : nat;
  product_id : nat;
  current_stock : Z;
  reorder_point : Z;
  stockout_days_last_month : Z;
  avg_daily_sales : Q;
  last_restock_date : Z
}.

(** The samples a (store, product) pair can consume. *)
Record draws : Type := {
  u_skip : Q;
  u_stock : Q;
  u_stockout : Q;
  u_restock : Q
}.

Definition admissible (d : draws) : Prop :=
  Np.unit_sample (u_skip d) /\ Np.unit_sample (u_stock d) /\
  Np.unit_sample (u_stockout d) /\ Np.unit_sample (u_restock d).

(** "Not all stores carry all products (especially Tier 3)": the test
    that leads to [continue]. *)
Definition skipped (store : Stores.store) (prod : product) (d : draws)
    : Prop :=
  Stores.region_tier store = Tier3 /\
  TransactionLoop.discretionary prod /\
  u_skip d < 0.6.

#[global] Instance skipped_dec store prod d : Decision (skipped store prod d).
Proof.
  unfold skipped.
  destruct (decide (Stores.region_tier store = Tier3));
    [ | right; tauto ].
  destruct (decide (TransactionLoop.discretionary prod));
    [ | right; tauto ].
  destruct (Qlt_le_dec (u_skip d) 0.6) as [Hlt | Hge];
    [ left; tauto | right ].
  intros (_ & _ & Hlt). exact (Qle_not_lt _ _ Hge Hlt).
Defined.

(** "Stock levels based on tier and product type". *)
Definition stock_and_reorder (t : tier) (d : draws) : Z * Z :=
  match t with
  | Metro =>
      let stock_level := Np.randint 50 300 (u_stock d) in
      (stock_level, Py.int (inject_Z stock_level * 0.3))
  | Tier2 =>
      let stock_level := Np.randint 20 150 (u_stock d) in
      (stock_level, Py.int (inject_Z stock_level * 0.25))
  | Tier3 =>
      let stock_level := Np.randint 10 80 (u_stock d) in
      (stock_level, Py.int (inject_Z stock_level * 0.20))
  end.

(** The dictionary appended for a pair that is kept. *)
Definition make_record (inv_id : nat) (store : Stores.store)
    (prod : product) (d : draws) : inventory_record :=
  let t := Stores.region_tier store in
  let '(stock_level, reorder_point) := stock_and_reorder t d in
  let stockout_days :=
    if decide (t <> Metro) then Np.randint 0 15 (u_stockout d)
    else Np.randint 0 5 (u_stockout d) in
  {| inventory_id := inv_id;
     store_id := Stores.store_id store;
     product_id := product_key prod;
     current_stock := stock_level;
     reorder_point := reorder_point;
     stockout_days_last_month := stockout_days;
     avg_daily_sales := Py.round2 (inject_Z stock_level / 30);
     last_restock_date :=
       Dates.minus_days (Dates.datetime 2024 9 30)
         (Np.randint 1 30 (u_restock d)) |}.

(** The counter [inv_id] and the list [inventory_data]. *)
Definition gen_state : Type := nat * list inventory_record.

(** [for _, product in products_df.iterrows(): ...]; the samples of the
    pair are [rng] at the ids of the store and of the product. *)
Fixpoint products_loop (rng : nat -> nat -> draws) (store : Stores.store)
    (products : list product) (st : gen_state) : gen_state :=
  match products with
  | [] => st
  | prod :: products' =>
      let d := rng (Stores.store_id store) (product_key prod) in
      if decide (skipped store prod d) then
        products_loop rng store products' st
      else
        products_loop rng store products'
          (S (fst st), snd st ++ [make_record (fst st) store prod d])
  end.

(** [for _, store in stores_df.iterrows(): ...] *)
Fixpoint stores_loop (rng : nat -> nat -> draws)
    (stores : list Stores.store) (products : list product) (st : gen_state)
    : gen_state :=
  match stores with
  | [] => st
  | store :: stores' =>
      stores_loop rng stores' products (products_loop rng store products st)
  end.

(** The rows of [inventory_df]. *)
Definition inventory_data (rng : nat -> nat -> draws)
    (stores : list Stores.store) (products : list product)
    : list inventory_record :=
  snd (stores_loop rng stores products (1%nat, [])).

End Inventory.

(** ** Regional aggregation and the insights computed from it *)

Module Analysis.

(** [Series.sum()] and [Series.mean()] of a group. *)
Definition total (xs : list Q) : Q := foldr Qplus 0 xs.

Definition mean (xs : list Q) : Q :=
  total xs / inject_Z (Z.of_nat (length xs)).

(** Division of two [float64] values: a zero divisor gives an infinity or
    a NaN instead of raising, written [None]. *)
Definition float_div (a b : Q) : option Q :=
  if Qeq_dec b 0 then None else Some (a / b).

(** The rows of one group of [transactions_df.groupby('region_tier')]. *)
Definition group (txns : list TransactionLoop.record) (t : tier)
    : list TransactionLoop.record :=
  filter
    (fun r => Transactions.region_tier (TransactionLoop.row r) = t) txns.

(** A row of [regional_perf]. *)
Record regional_row : Type := {
  transactions : nat;
  total_revenue : Q;
  total_margin : Q;
  unique_customers : nat;
  avg_delivery_time : Q;
  avg_delivery_distance : Q;
  avg_logistics_cost : Q;
  avg_spoilage_cost : Q;
  margin_pct : option Q;
  revenue_per_customer : option Q
}.

Definition column (f : Transactions.transaction -> Q)
    (g : list TransactionLoop.record) : list Q :=
  (fun r => f (TransactionLoop.row r)) <$> g.

(** [regional_perf.loc[t]]: the aggregates of the group rounded to two
    decimals and the two derived ratios; no row for a tier without
    transactions, where [.loc] raises. *)
Definition regional_perf (txns : list TransactionLoop.record) (t : tier)
    : option regional_row :=
  let g := group txns t in
  if decide (g = []) then None
  else
    let total_revenue := Py.round2 (total (column Transactions.revenue g)) in
    let total_margin := Py.round2 (total (column Transactions.margin g)) in
    let unique_customers :=
      length (remove_dups (TransactionLoop.customer_id <$> g)) in
    Some {| transactions := length g;
            total_revenue := total_revenue;
            total_margin := total_margin;
            unique_customers := unique_customers;
            avg_delivery_time :=
              Py.round2 (mean (column Transactions.delivery_time_hours g));
            avg_delivery_distance :=
              Py.round2 (mean (column Transactions.delivery_distance_km g));
            avg_logistics_cost :=
              Py.round2 (mean (column Transactions.logistics_cost g));
            avg_spoilage_cost :=
              Py.round2 (mean (column Transactions.spoilage_cost g));
            margin_pct :=
              (fun q => Py.round2 (q * 100))
                <$> float_div total_margin total_revenue;
            revenue_per_customer :=
              Py.round2
                <$> float_div total_revenue
                      (inject_Z (Z.of_nat unique_customers)) |}.

(** "Insight 2: Logistics Cost Impact". *)
Definition logistics_increase (txns : list TransactionLoop.record)
    : option Q :=
  metro ← regional_perf txns Metro;
  tier3 ← regional_perf txns Tier3;
  let metro_logistics := avg_logistics_cost metro in
  let tier3_logistics := avg_logistics_cost tier3 in
  q ← float_div (tier3_logistics - metro_logistics) metro_logistics;
  Some (q * 100).

(** "Insight 4: Delivery Time". *)
Definition time_increase (txns : list TransactionLoop.record) : option Q :=
  metro ← regional_perf txns Metro;
  tier3 ← regional_perf txns Tier3;
  Some (avg_delivery_time tier3 - avg_delivery_time metro).

(** "Insight 5: Spoilage Cost". *)
Definition spoilage_ratio (txns : list TransactionLoop.record) : option Q :=
  tier3 ← regional_perf txns Tier3;
  metro ← regional_perf txns Metro;
  let tier3_spoilage := avg_spoilage_cost tier3 in
  let metro_spoilage := avg_spoilage_cost metro in
  if Qlt_le_dec 0 metro_spoilage
  then float_div tier3_spoilage metro_spoilage
  else Some 0.

End Analysis.

(** ** Customer behaviour and the repeat-purchase rate *)

Module Behavior.

(** A row of [customer_behavior]. *)
Record behavior_row : Type := {
  customer_id : nat;
  region_tier : tier;
  purchase_count : nat;
  total_revenue : Q;
  total_margin : Q
}.

(** The grouping key [(customer_id, region_tier)] of a transaction. *)
Definition key (r : TransactionLoop.record) : nat * tier :=
  (TransactionLoop.customer_id r,
   Transactions.region_tier (TransactionLoop.row r)).

(** The position of a tier name in the order of strings. *)
Definition tier_rank (t : tier) : nat :=
  match t with Metro => 0 | Tier2 => 1 | Tier3 => 2 end.

(** The order [groupby] lists the keys in: by customer id (the ids are
    zero-padded, so their order as strings is that of the numbers), then
    by tier name. *)
Definition key_le (a b : nat * tier) : Prop :=
  (fst a < fst b)%nat \/
  (fst a = fst b /\ (tier_rank (snd a) <= tier_rank (snd b))%nat).

#[global] Instance key_le_dec a b : Decision (key_le a b).
Proof. unfold key_le. apply _. Defined.

Definition group_keys (txns : list TransactionLoop.record)
    : list (nat * tier) :=
  merge_sort key_le (remove_dups (key <$> txns)).

Definition purchases (txns : list TransactionLoop.record) (k : nat * tier)
    : list TransactionLoop.record :=
  filter (fun r => key r = k) txns.

(** [groupby(['customer_id', 'region_tier']).agg(count, sum, sum)
    .reset_index()] *)
Definition customer_behavior (txns : list TransactionLoop.record)
    : list behavior_row :=
  (fun k =>
     let g := purchases txns k in
     {| customer_id := fst k;
        region_tier := snd k;
        purchase_count := length g;
        total_revenue :=
          Analysis.total (Analysis.column Transactions.revenue g);
        total_margin :=
          Analysis.total (Analysis.column Transactions.margin g) |})
    <$> group_keys txns.

(** [frame.groupby('region_tier').size()]: a series over the tiers that
    occur in the frame; [None] for a tier outside its index. *)
Definition size_by_tier (rows : list behavior_row) (t : tier) : option nat :=
  let n := length (filter (fun b => region_tier b = t) rows) in
  if decide (n = 0%nat) then None else Some n.

Definition repeat_customers (txns : list TransactionLoop.record)
    : tier -> option nat :=
  size_by_tier
    (filter (fun b => (3 <= purchase_count b)%nat) (customer_behavior txns)).

Definition total_customers (txns : list TransactionLoop.record)
    : tier -> option nat :=
  size_by_tier (customer_behavior txns).

(** [((a / b) * 100).round(2)] on two series: the index is the union of
    both, and a label missing on either side holds NaN.  The outer
    [None] is a label outside the index, the inner [None] a NaN. *)
Definition percent_series (a b : tier -> option nat) (t : tier)
    : option (option Q) :=
  match a t, b t with
  | None, None => None
  | Some x, Some y =>
      Some ((fun q => Py.round2 (q * 100))
              <$> Analysis.float_div (inject_Z (Z.of_nat x))
                    (inject_Z (Z.of_nat y)))
  | _, _ => Some None
  end.

(** [behavior_summary['Repeat Rate %']] at the tier [t]: the column is
    aligned on the index of [behavior_summary], the tiers that occur in
    [customer_behavior]. *)
Definition repeat_rate (txns : list TransactionLoop.record) (t : tier)
    : option (option Q) :=
  match total_customers txns t with
  | None => None
  | Some _ =>
      Some (match percent_series (repeat_customers txns)
                    (total_customers txns) t with
            | Some v => v
            | None => None
            end)
  end.

(** "Insight 3: Customer Retention": the difference of two cells, NaN as
    soon as one of them is. *)
Definition retention_gap (txns : list TransactionLoop.record)
    : option (option Q) :=
  metro_repeat ← repeat_rate txns Metro;
  tier3_repeat ← repeat_rate txns Tier3;
  Some (match metro_repeat, tier3_repeat with
        | Some a, Some b => Some (a - b)
        | _, _ => None
        end).

End Behavior.

(** ** Predicates used in the statements *)

(** The shape every entry of [product_categories] has: costs from 25
    upward, margin percentages between 8 and 45. *)
Definition well_ranged (details : category_spec) : Prop :=
  25 <= fst (cost_range details) /\
  fst (cost_range details) <= snd (cost_range details) /\
  8 <= fst (margin_range details) /\
  fst (margin_range details) <= snd (margin_range details) /\
  snd (margin_range details) <= 45.

Module TransactionFacts.
Import Transactions.

(** What [derive] assigns to each local, read off a successful run. *)
Record derived (t : tier) (prod : product) (d : draws) (l : Raw.locals)
    : Prop := {
  drv_characteristics :
    exists q dt,
      characteristics t d
        = Some (q, Raw.discount l, dt, Raw.delivery_distance l,
                Raw.payment_method l) /\
      Raw.qty l = Z.max 1 (Z.min q 10) /\ Raw.delivery_time l = dt;
  drv_unit_price :
    Raw.unit_price l
      = list_price prod * (1 - inject_Z (Raw.discount l) / 100);
  drv_revenue : Raw.revenue l = Raw.unit_price l * inject_Z (Raw.qty l);
  drv_product_cost :
    Raw.product_cost l = unit_cost prod * inject_Z (Raw.qty l);
  drv_logistics_cost :
    Raw.logistics_cost l = logistics t (Raw.delivery_distance l);
  drv_spoilage_cost :
    Raw.spoilage_cost l = spoilage t prod (Raw.product_cost l) d;
  drv_total_cost :
    Raw.total_cost l
      = Raw.product_cost l + Raw.logistics_cost l + Raw.spoilage_cost l;
  drv_margin : Raw.margin l = Raw.revenue l - Raw.total_cost l;
  drv_margin_pct :
    margin_percent (Raw.margin l) (Raw.revenue l) = Some (Raw.margin_pct l)
}.

End TransactionFacts.

(** ** Inputs used to exercise the statements *)

Definition sample_product_draws : Products.draws :=
  {| Products.u_cost := 0.5; Products.u_margin := 0.99;
     Products.u_shelf := 0.25 |}.

(** The second entry of [product_categories]. *)
Definition fresh_produce : category_spec :=
  {| cat_name := "Fresh Produce";
     items := ["Seasonal Vegetables"; "Fresh Fruits"; "Milk 1L";
               "Eggs Dozen"; "Paneer 200g"; "Fresh Chicken"]%string;
     cost_range := (30, 180); margin_range := (18, 28);
     perishable := true |}.


Definition sample_product : product :=
  {| product_id := 4; product_name := "Sugar 1kg"; category := "Groceries";
     unit_cost := 40; list_price := 100; target_margin_pct := 60;
     is_perishable := false; avg_shelf_life_days := 365 |}.

Definition sample_draws : Transactions.draws :=
  {| Transactions.d_lognormal := 2.3;
     Transactions.d_discount := 0.9;
     Transactions.d_delivery_time := 0.5;
     Transactions.d_delivery_distance := 9 # 14;
     Transactions.d_payment := 0.1;
     Transactions.d_spoilage := 0.5 |}.

Definition milk : product :=
  {| product_id := 9; product_name := "Milk 1L"; category := "Fresh Produce";
     unit_cost := 40; list_price := 50.07; target_margin_pct := 20.11;
     is_perishable := true; avg_shelf_life_days := 3 |}.

Definition milk_draws : Transactions.draws :=
  {| Transactions.d_lognormal := 1.3;
     Transactions.d_discount := 0.5;
     Transactions.d_delivery_time := 0.5;
     Transactions.d_delivery_distance := 35073 # 945000;
     Transactions.d_payment := 0.1;
     Transactions.d_spoilage := 10073 # 32000 |}.

(** Draws that differ only in the sample handed to the discount choice. *)
Definition draws_with_discount (u : Q) : Transactions.draws :=
  {| Transactions.d_lognormal := 1;
     Transactions.d_discount := u;
     Transactions.d_delivery_time := 0;
     Transactions.d_delivery_distance := 0;
     Transactions.d_payment := 0;
     Transactions.d_spoilage := 0 |}.

(** A discount percentage some admissible draws produce. *)
Definition discount_reachable (t : tier) (prod : product) (v : Z) : Prop :=
  exists d row,
    Transactions.admissible d /\
    Transactions.transaction_row t prod d = Some row /\
    Transactions.discount_pct row = v.



(** [i] is the first position of [col] whose value no other value beats:
    [better a b] reads "[a] is strictly better than [b]". *)
Definition first_best (better : Q -> Q -> Prop) (col : list Q) (i : nat)
    : Prop :=
  exists x,
    col !! i = Some x /\
    (forall j y, col !! j = Some y -> ~ better y x) /\
    (forall j y, col !! j = Some y -> (j < i)%nat -> better x y).

Definition first_max : list Q -> nat -> Prop :=
  first_best (fun a b => b < a).

Definition first_min : list Q -> nat -> Prop :=
  first_best (fun a b => a < b).

(** No two positions of the column hold the same number. *)
Definition pairwise_different (col : list Q) : Prop :=
  forall i j x y,
    col !! i = Some x -> col !! j = Some y -> i <> j -> ~ x == y.

Definition revenue_column (ps : list Segments.profile) : list Q :=
  Segments.avg_revenue <$> ps.

Definition purchases_column (ps : list Segments.profile) : list Q :=
  Segments.avg_purchases <$> ps.

(** The naming rule as the specification words it: the cluster of maximum
    average revenue is "High Value", also when it is the cluster of
    maximum average purchase count, which is "Frequent Buyers"
    otherwise. *)
Definition first_entry_wins (ps : list Segments.profile) : Prop :=
  forall hi_rev hi_pur names,
    Segments.idxmax (revenue_column ps) = Some hi_rev ->
    Segments.idxmax (purchases_column ps) = Some hi_pur ->
    Segments.cluster_names ps = Some names ->
    Segments.cluster_name names hi_rev = Some "High Value"%string /\
    (hi_pur <> hi_rev ->
       Segments.cluster_name names hi_pur = Some "Frequent Buyers"%string).

Definition make_profile (purchases revenue : Q) : Segments.profile :=
  {| Segments.customer_count := 100;
     Segments.avg_purchases := purchases;
     Segments.avg_revenue := revenue;
     Segments.avg_margin := revenue * 0.2;
     Segments.avg_age := 35;
     Segments.avg_income_code := 2;
     Segments.avg_digital_score := 6 |}.

(** Cluster 0 buys most often and spends most. *)
Definition top_cluster_profiles : list Segments.profile :=
  [make_profile 9 500; make_profile 5 300; make_profile 2 100;
   make_profile 3 200].

(** Three different clusters hold the three extremes. *)
Definition spread_profiles : list Segments.profile :=
  [make_profile 5 500; make_profile 9 300; make_profile 2 100;
   make_profile 3 200].

(** ** Predicates and inputs for the generators and the analysis *)

(** The city table the store generator pairs with each tier. *)
Definition cities_of (t : tier) : list city_info :=
  match t with
  | Metro => metro_cities
  | Tier2 => tier2_cities
  | Tier3 => tier3_cities
  end.

(** What the generator writes into a store besides its id and name: the
    data of a city of its tier, a warehouse distance in the closed range
    of the tier, an opening date in 2023. *)
Definition store_well_formed (s : Stores.store) : Prop :=
  (exists info,
     info ∈ cities_of (Stores.region_tier s) /\
     Stores.city s = city_name info /\
     Stores.state s = city_state info /\
     Stores.city_population s = population info /\
     Stores.infrastructure_score s = infra_score info) /\
  (Stores.region_tier s = Metro ->
     2 <= Stores.warehouse_distance_km s /\
     Stores.warehouse_distance_km s <= 8) /\
  (Stores.region_tier s <> Metro ->
     10 <= Stores.warehouse_distance_km s /\
     Stores.warehouse_distance_km s <= 40) /\
  (Dates.datetime 2023 1 1 <= Stores.opening_date s
     <= Dates.datetime 2023 12 31)%Z.

Definition sample_store_draws : Stores.draws :=
  {| Stores.u_distance := 0.5; Stores.u_opening := 0.999 |}.

(** Every tier has a store in the table. *)
Definition tiers_covered (stores : list Stores.store) : Prop :=
  forall t, exists s, s ∈ stores /\ Stores.region_tier s = t.

(** The income brackets the customer generator draws from, by tier. *)
Definition brackets_of (t : tier) : list string :=
  match t with
  | Metro => ["25-50K"; "50-75K"; "75K+"]%string
  | Tier2 => ["15-25K"; "25-50K"; "50-75K"]%string
  | Tier3 => ["10-15K"; "15-25K"; "25-50K"]%string
  end.

Definition income_codes_of (t : tier) : list Z :=
  match t with
  | Metro => [3; 4; 5]%Z
  | Tier2 => [2; 3; 4]%Z
  | Tier3 => [1; 2; 3]%Z
  end.

Definition sample_customer_draws : Customers.draws :=
  {| Customers.u_tier := 0.7; Customers.u_store := 0.5;
     Customers.d_normal := 95.4; Customers.u_income := 0.45;
     Customers.u_literacy := 0.5; Customers.u_registration := 0.999 |}.

(** One store per tier. *)
Definition sample_stores : list Stores.store :=
  [ {| Stores.store_id := 1; Stores.store_name := "JioMart Mumbai Store 1";
       Stores.region_tier := Metro; Stores.city := "Mumbai";
       Stores.state := "Maharashtra"; Stores.city_population := 20400000;
       Stores.infrastructure_score := 9.5;
       Stores.warehouse_distance_km := 5; Stores.opening_date := 738600 |};
    {| Stores.store_id := 41; Stores.store_name := "JioMart Jaipur Store 1";
       Stores.region_tier := Tier2; Stores.city := "Jaipur";
       Stores.state := "Rajasthan"; Stores.city_population := 3050000;
       Stores.infrastructure_score := 7.5;
       Stores.warehouse_distance_km := 25; Stores.opening_date := 738700 |};
    {| Stores.store_id := 86; Stores.store_name := "JioMart Raipur Store 1";
       Stores.region_tier := Tier3; Stores.city := "Raipur";
       Stores.state := "Chhattisgarh"; Stores.city_population := 1010000;
       Stores.infrastructure_score := 6.2;
       Stores.warehouse_distance_km := 30; Stores.opening_date := 738800 |} ].

(** What the transaction loop needs of the three tables it reads. *)
Record tables_consistent (stores : list Stores.store)
    (products : list product) (customers : list Customers.customer)
    : Prop := {
  tc_tiers : tiers_covered stores;
  tc_ids : NoDup (Stores.store_id <$> stores);
  tc_customers : customers <> [];
  tc_primary :
    forall c, c ∈ customers ->
      exists s, s ∈ stores /\
                Stores.store_id s = Customers.primary_store_id c /\
                Stores.region_tier s = Customers.region_tier c;
  tc_registered :
    forall c, c ∈ customers ->
      (0 < Customers.days_since_registration c)%Z;
  tc_discretionary :
    exists x, x ∈ products /\ TransactionLoop.discretionary x;
  tc_essential :
    exists x, x ∈ products /\ ~ TransactionLoop.discretionary x
}.

Definition cutoff : Z := Dates.datetime 2024 9 30.

(** A customer registered on 2024-03-25, the last day the generator can
    assign. *)
Definition sample_customer : Customers.customer :=
  {| Customers.customer_id := 7; Customers.primary_store_id := 41;
     Customers.region_tier := Tier2; Customers.age := 70;
     Customers.income_bracket := "25-50K";
     Customers.digital_literacy_score := 5.5;
     Customers.registration_date := 738970 |}.

Definition sample_picks : TransactionLoop.picks :=
  {| TransactionLoop.u_customer := 0.3; TransactionLoop.u_primary := 0.85;
     TransactionLoop.u_store := 0.5; TransactionLoop.u_category := 0.15;
     TransactionLoop.u_product := 0.5;
     TransactionLoop.u_days_back := 0.999 |}.

Definition sample_txn_draws : Transactions.draws :=
  {| Transactions.d_lognormal := 2.3;
     Transactions.d_discount := 0.9;
     Transactions.d_delivery_time := 0.5;
     Transactions.d_delivery_distance := 0.5;
     Transactions.d_payment := 0.1;
     Transactions.d_spoilage := 0.5 |}.

(** The products a store keeps, and the (store, product) pairs that get
    an inventory record, in the order of the two loops. *)
Definition kept_products (rng : nat -> nat -> Inventory.draws)
    (store : Stores.store) (products : list product) : list product :=
  filter
    (fun x => ~ Inventory.skipped store x
                  (rng (Stores.store_id store) (Inventory.product_key x)))
    products.

Definition kept_pairs (rng : nat -> nat -> Inventory.draws)
    (stores : list Stores.store) (products : list product)
    : list (Stores.store * product) :=
  stores ≫= fun s => pair s <$> kept_products rng s products.

(** What the generator writes into an inventory record of a store of
    tier [t]. *)
Definition stocked_for (t : tier) (r : Inventory.inventory_record) : Prop :=
  match t with
  | Metro => (50 <= Inventory.current_stock r < 300)%Z /\
             (0 <= Inventory.stockout_days_last_month r < 5)%Z
  | Tier2 => (20 <= Inventory.current_stock r < 150)%Z /\
             (0 <= Inventory.stockout_days_last_month r < 15)%Z
  | Tier3 => (10 <= Inventory.current_stock r < 80)%Z /\
             (0 <= Inventory.stockout_days_last_month r < 15)%Z
  end.

Definition inventory_record_sound (stores : list Stores.store)
    (r : Inventory.inventory_record) : Prop :=
  (exists s, s ∈ stores /\ Inventory.store_id r = Stores.store_id s /\
             stocked_for (Stores.region_tier s) r) /\
  (0 < Inventory.reorder_point r < Inventory.current_stock r)%Z /\
  0 < Inventory.avg_daily_sales r /\
  (cutoff - 29 <= Inventory.last_restock_date r <= cutoff - 1)%Z.

Definition sample_inventory_draws : Inventory.draws :=
  {| Inventory.u_skip := 0.7; Inventory.u_stock := 0.5;
     Inventory.u_stockout := 0.5; Inventory.u_restock := 0.5 |}.

(** A row the transaction generator can store. *)
Definition generated_record (r : TransactionLoop.record) : Prop :=
  exists t prod d,
    Transactions.admissible d /\
    Transactions.transaction_row t prod d = Some (TransactionLoop.row r).

(** Two rows of the transaction table, one Metro and one Tier 3, as the
    generator stores them for [sample_txn_draws]. *)
Definition sample_metro_record : TransactionLoop.record :=
  {| TransactionLoop.transaction_id := 1;
     TransactionLoop.transaction_date := 739000;
     TransactionLoop.customer_id := 12;
     TransactionLoop.store_id := 3;
     TransactionLoop.row :=
       {| Transactions.region_tier := Metro;
          Transactions.txn_product_id := 4;
          Transactions.quantity := 2;
          Transactions.unit_price := 90;
          Transactions.revenue := 180;
          Transactions.product_cost := 80;
          Transactions.logistics_cost := 35;
          Transactions.spoilage_cost := 0;
          Transactions.total_cost := 115;
          Transactions.margin := 65;
          Transactions.margin_pct := 36.11;
          Transactions.discount_pct := 10;
          Transactions.delivery_time_hours := 7 # 4;
          Transactions.delivery_distance_km := 8;
          Transactions.payment_method := "UPI";
          Transactions.txn_is_perishable := false |} |}.

Definition sample_tier3_record : TransactionLoop.record :=
  {| TransactionLoop.transaction_id := 2;
     TransactionLoop.transaction_date := 739100;
     TransactionLoop.customer_id := 40;
     TransactionLoop.store_id := 90;
     TransactionLoop.row :=
       {| Transactions.region_tier := Tier3;
          Transactions.txn_product_id := 9;
          Transactions.quantity := 2;
          Transactions.unit_price := 2003 # 50;
          Transactions.revenue := 80.11;
          Transactions.product_cost := 80;
          Transactions.logistics_cost := 725 # 4;
          Transactions.spoilage_cost := 6;
          Transactions.total_cost := 1069 # 4;
          Transactions.margin := -9357 # 50;
          Transactions.margin_pct := -1168 # 5;
          Transactions.discount_pct := 20;
          Transactions.delivery_time_hours := 10;
          Transactions.delivery_distance_km := 65 # 2;
          Transactions.payment_method := "UPI";
          Transactions.txn_is_perishable := true |} |}.

Definition sample_transactions : list TransactionLoop.record :=
  [sample_metro_record; sample_tier3_record].

(** The dictionary [cluster_names] once the remaining cluster, if any,
    has been added. *)
Definition final_names (hi_rev hi_pur lo_rev : nat) : gmap nat string :=
  match Segments.remaining (Segments.named_extremes hi_rev hi_pur lo_rev) with
  | [] => Segments.named_extremes hi_rev hi_pur lo_rev
  | i :: _ =>
      <[i := "Moderate"%string]>
        (Segments.named_extremes hi_rev hi_pur lo_rev)
  end.

(** Every cluster label of [range(optimal_k)] has a name, and nothing
    else has. *)
Definition names_cover (names : gmap nat string) : Prop :=
  Forall (fun c => is_Some (names !! c)) (seq 0 Segments.optimal_k).

Definition names_in_range (names : gmap nat string) : Prop :=
  map_Forall (fun c _ => (c < Segments.optimal_k)%nat) names.

(** * Properties *)

(** ** Rounding to hundredths *)

Section Rounding.

Lemma Qmake_cents (n : Z) : n # 100 == inject_Z n / 100.
Proof. unfold Qeq, Qdiv, Qmult, Qinv, inject_Z; simpl. lia. Qed.

Lemma round_half_even_close (y : Q) :
  y - (1 # 2) <= inject_Z (Py.round_half_even y) /\
  inject_Z (Py.round_half_even y) <= y + (1 # 2).
Proof.
  unfold Py.round_half_even.
  pose proof (Qfloor_le y) as Hlo.
  pose proof (Qlt_floor y) as Hhi.
  rewrite inject_Z_plus in Hhi. change (inject_Z 1) with 1 in Hhi.
  destruct (Qcompare_spec (y - inject_Z (Qfloor y)) (1 # 2)) as [He | Hl | Hg].
  - destruct (Z.even (Qfloor y)); rewrite ?inject_Z_plus;
      change (inject_Z 1) with 1; split; lra.
  - split; lra.
  - rewrite inject_Z_plus. change (inject_Z 1) with 1. split; lra.
Qed.

Lemma round2_cents (x : Q) :
  Py.round2 x == inject_Z (Py.round_half_even (x * 100)) / 100.
Proof. unfold Py.round2. rewrite Qred_correct. apply Qmake_cents. Qed.

Lemma round2_close (x : Q) :
  x - (1 # 200) <= Py.round2 x /\ Py.round2 x <= x + (1 # 200).
Proof.
  rewrite round2_cents.
  destruct (round_half_even_close (x * 100)) as [Hlo Hhi].
  split.
  - apply Qle_shift_div_l; lra.
  - apply Qle_shift_div_r; lra.
Qed.

Lemma round2_zero : Py.round2 0 = 0.
Proof. reflexivity. Qed.

Lemma round_half_even_comp (x y : Q) :
  x == y -> Py.round_half_even x = Py.round_half_even y.
Proof.
  intros E. unfold Py.round_half_even.
  rewrite (Qfloor_comp _ _ E).
  assert (E' : x - inject_Z (Qfloor y) == y - inject_Z (Qfloor y))
    by (rewrite E; reflexivity).
  rewrite (Qcompare_comp _ _ E' (1 # 2) (1 # 2) (Qeq_refl _)).
  reflexivity.
Qed.

Lemma round2_comp (x y : Q) : x == y -> Py.round2 x = Py.round2 y.
Proof.
  intros E. unfold Py.round2.
  rewrite (round_half_even_comp (x * 100) (y * 100)) by (rewrite E; reflexivity).
  reflexivity.
Qed.





End Rounding.

(** ** Sampling *)

Section Sampling.

Lemma searchsorted_right_le (cdf : list Q) (u : Q) (i : nat) (c : Q) :
  cdf !! i = Some c -> u < c -> (Np.searchsorted_right cdf u <= i)%nat.
Proof.
  revert i. induction cdf as [| c0 cdf IH]; intros i Hi Hu; simpl.
  - lia.
  - destruct (Qlt_le_dec u c0) as [_ | Hge]; [ lia | ].
    destruct i as [| i]; simpl in Hi.
    + injection Hi as ->. lra.
    + specialize (IH i Hi Hu). lia.
Qed.

Lemma choice_elem {A : Type} (a : list A) (p : list Q) (u : Q) (x : A) :
  Np.choice a p u = Some x -> x ∈ a.
Proof. unfold Np.choice. intros H. apply list_elem_of_lookup. eauto. Qed.

Lemma choice_total {A : Type} (a : list A) (p : list Q) (u : Q) (i : nat)
    (c : Q) :
  Np.cumsum 0 p !! i = Some c -> 1 <= c -> (i < length a)%nat ->
  u < 1 -> exists x, Np.choice a p u = Some x /\ x ∈ a.
Proof.
  intros Hi Hc Hlen Hu.
  assert (Hidx : (Np.searchsorted_right (Np.cumsum 0 p) u <= i)%nat).
  { apply (searchsorted_right_le _ _ _ c Hi). lra. }
  destruct (lookup_lt_is_Some_2 a (Np.searchsorted_right (Np.cumsum 0 p) u))
    as [x Hx]; [ lia | ].
  exists x. split; [ exact Hx | ]. apply (choice_elem a p u). exact Hx.
Qed.

End Sampling.

(** ** The product generator *)

Section ProductGenerator.

Import Products.

Lemma product_categories_well_ranged :
  Forall well_ranged product_categories.
Proof.
  unfold product_categories.
  repeat (apply Forall_cons; split;
          [ unfold well_ranged; simpl; repeat split; unfold Qle; simpl; lia | ]).
  apply Forall_nil_2.
Qed.

Lemma uniform_bounds (low high u : Q) :
  low <= high -> Np.unit_sample u ->
  low <= Np.uniform low high u /\ Np.uniform low high u <= high.
Proof.
  intros Hr [H0 H1]. unfold Np.uniform. split; nra.
Qed.

Lemma div_positive (a b : Q) : 0 < b -> Py.div a b = Some (a / b).
Proof.
  intros Hb. unfold Py.div.
  destruct (Qeq_dec b 0) as [E | _]; [ rewrite E in Hb; lra | reflexivity ].
Qed.

Lemma markup_gap (cost den : Q) :
  25 <= cost -> 0 < den -> den <= 92 # 100 -> cost + 2 <= cost / den.
Proof.
  intros Hc Hd Hd'.
  assert (E : (cost / den) * den == cost) by (field; lra).
  assert (0 < cost / den) by (apply Qlt_shift_div_l; lra).
  nra.
Qed.

Lemma make_product_spec (n : nat) (details : category_spec) (item : string)
    (d : draws) :
  well_ranged details ->
  Np.unit_sample (u_cost d) -> Np.unit_sample (u_margin d) ->
  exists p, make_product n details item d = Some p /\
            unit_cost p < list_price p.
Proof.
  intros (Hc & Hcr & Hm & Hmr & Hm') Hu Hv.
  unfold make_product.
  destruct (uniform_bounds _ _ _ Hcr Hu) as [Hc1 _].
  destruct (uniform_bounds _ _ _ Hmr Hv) as [Hm1 Hm2].
  set (cost := Np.uniform _ _ (u_cost d)) in *.
  set (margin_pct := Np.uniform _ _ (u_margin d)) in *.
  assert (Hden : 0 < 1 - margin_pct / 100 /\ 1 - margin_pct / 100 <= 92 # 100).
  { assert (E : margin_pct / 100 == margin_pct * (1 # 100)) by (field).
    rewrite E. split; lra. }
  destruct Hden as [Hd1 Hd2].
  rewrite (div_positive _ _ Hd1). simpl.
  eexists; split; [ reflexivity | simpl ].
  pose proof (markup_gap cost _ ltac:(lra) Hd1 Hd2) as Hgap.
  destruct (round2_close cost) as [_ Hup].
  destruct (round2_close (cost / (1 - margin_pct / 100))) as [Hlo _].
  lra.
Qed.

Lemma make_product_name (n : nat) (details : category_spec) (item : string)
    (d : draws) (p : product) :
  make_product n details item d = Some p ->
  product_name p = item /\ product_id p = n /\ category p = cat_name details.
Proof.
  unfold make_product. intros H.
  destruct (Py.div _ _) as [lp |]; simpl in H; [ | discriminate ].
  injection H as <-. auto.
Qed.

Lemma items_loop_spec (rng : nat -> draws) (details : category_spec) :
  well_ranged details -> (forall n, admissible (rng n)) ->
  forall (its : list string) (st : gen_state),
  exists ps,
    items_loop rng details its st
      = Some ((fst st + length its)%nat, snd st ++ ps) /\
    product_name <$> ps = its /\
    Forall (fun p => unit_cost p < list_price p) ps.
Proof.
  intros Hwr Hrng its.
  induction its as [| item its IH]; intros [n acc]; simpl.
  - exists []. rewrite Nat.add_0_r, app_nil_r. auto.
  - destruct (Hrng n) as (Hu & Hv & _).
    destruct (make_product_spec n details item (rng n) Hwr Hu Hv)
      as (p & Hp & Hlt).
    rewrite Hp. simpl.
    destruct (IH (S n, acc ++ [p])) as (ps & Hps & Hnames & Hall).
    exists (p :: ps). simpl in Hps. rewrite Hps. split; [ | split ].
    + f_equal. f_equal; [ lia | ]. rewrite <- app_assoc. reflexivity.
    + rewrite fmap_cons. f_equal; [ | exact Hnames ].
      apply (make_product_name _ _ _ _ _ Hp).
    + constructor; assumption.
Qed.

Lemma categories_loop_spec (rng : nat -> draws) :
  (forall n, admissible (rng n)) ->
  forall (cats : list category_spec) (st : gen_state),
  Forall well_ranged cats ->
  exists ps,
    categories_loop rng cats st = Some ((fst st + length ps)%nat, snd st ++ ps) /\
    product_name <$> ps = concat (items <$> cats) /\
    Forall (fun p => unit_cost p < list_price p) ps.
Proof.
  intros Hrng cats.
  induction cats as [| details cats IH]; intros st Hwr; simpl.
  - exists []. rewrite Nat.add_0_r, app_nil_r. destruct st; auto.
  - apply Forall_cons in Hwr as [Hd Hwr].
    destruct (items_loop_spec rng details Hd Hrng (items details) st)
      as (ps1 & H1 & Hn1 & Ha1).
    rewrite H1. simpl.
    destruct (IH ((fst st + length (items details))%nat, snd st ++ ps1) Hwr)
      as (ps2 & H2 & Hn2 & Ha2).
    exists (ps1 ++ ps2). simpl in H2. rewrite H2. split; [ | split ].
    + f_equal. f_equal.
      * rewrite length_app, <- Hn1, length_fmap. lia.
      * rewrite <- app_assoc. reflexivity.
    + rewrite fmap_app, Hn1, Hn2. reflexivity.
    + apply Forall_app; auto.
Qed.

End ProductGenerator.

(** ** Products: the list-price division *)

Section ProductClaims.
Import Products.

(** The division itself carries no test: a margin of one hundred percent
    makes the row fail. *)
Lemma make_product_unguarded (prod_id : nat) (details : category_spec)
    (item : string) (d : draws) :
  Np.uniform (fst (margin_range details)) (snd (margin_range details))
    (u_margin d) == 100 ->
  make_product prod_id details item d = None.
Proof.
  intros H. unfold make_product, Py.div.
  destruct (Qeq_dec _ 0) as [_ | Hne]; [ reflexivity | ].
  exfalso. apply Hne. rewrite H. reflexivity.
Qed.

(** C7: the list-price division [cost / (1 - margin_pct/100)] is safe by
    the reference data alone.  For every entry of [product_categories]
    and every unit sample, the margin percentage drawn is below 50, the
    denominator is positive, the division has a value and the row is
    produced.  [make_product] tests nothing before it divides: a draw of
    one hundred percent, which no entry allows, would make it fail. *)
Theorem list_price_division_safe (prod_id : nat) (details : category_spec)
    (item : string) (d : draws) :
  details ∈ product_categories -> Np.unit_sample (u_margin d) ->
  let cost :=
    Np.uniform (fst (cost_range details)) (snd (cost_range details))
      (u_cost d) in
  let margin_pct :=
    Np.uniform (fst (margin_range details)) (snd (margin_range details))
      (u_margin d) in
  margin_pct < 50 /\ 0 < 1 - margin_pct / 100 /\
  Py.div cost (1 - margin_pct / 100) = Some (cost / (1 - margin_pct / 100)) /\
  is_Some (make_product prod_id details item d) /\
  (forall n details' item' d',
     Np.uniform (fst (margin_range details')) (snd (margin_range details'))
       (u_margin d') == 100 ->
     make_product n details' item' d' = None).
Proof.
  intros Hin Hu cost margin_pct.
  pose proof product_categories_well_ranged as Hall.
  rewrite Forall_forall in Hall.
  destruct (Hall details Hin) as (_ & _ & Hm & Hmr & Hm').
  destruct (uniform_bounds _ _ _ Hmr Hu) as [Hm1 Hm2].
  fold margin_pct in Hm1, Hm2.
  assert (E : margin_pct / 100 == margin_pct * (1 # 100)) by field.
  assert (Hden : 0 < 1 - margin_pct / 100) by (rewrite E; lra).
  split; [ lra | split; [ exact Hden | ] ].
  split; [ exact (div_positive _ _ Hden) | ].
  split; [ | exact make_product_unguarded ].
  unfold make_product. fold cost margin_pct.
  rewrite (div_positive _ _ Hden). simpl. eauto.
Qed.

Lemma list_price_division_safe_witness :
  let cost := Np.uniform 30 180 0.5 in
  let margin_pct := Np.uniform 18 28 0.99 in
  margin_pct < 50 /\ 0 < 1 - margin_pct / 100 /\
  Py.div cost (1 - margin_pct / 100) = Some (cost / (1 - margin_pct / 100)) /\
  is_Some (make_product 9 fresh_produce "Milk 1L" sample_product_draws) /\
  (forall n details item d,
     Np.uniform (fst (margin_range details)) (snd (margin_range details))
       (u_margin d) == 100 ->
     make_product n details item d = None).
Proof.
  apply (list_price_division_safe 9 fresh_produce "Milk 1L"
           sample_product_draws).
  - unfold product_categories, fresh_produce. rewrite !elem_of_cons. tauto.
  - split; unfold Qle, Qlt; simpl; lia.
Defined.

(** C8: the generator returns 39 products, one per item name of the seven
    category lists (6+6+6+6+5+5+5) and in their order, and every stored
    list price is strictly above the stored unit cost. *)
Theorem products_count_and_markup (rng : nat -> draws) :
  (forall n, admissible (rng n)) ->
  exists ps,
    products_data rng = Some ps /\
    length ps = 39%nat /\
    product_name <$> ps = concat (items <$> product_categories) /\
    length <$> (items <$> product_categories) = [6; 6; 6; 6; 5; 5; 5]%nat /\
    (forall p, p ∈ ps -> unit_cost p < list_price p).
Proof.
  intros Hrng.
  destruct (categories_loop_spec rng Hrng product_categories (1%nat, [])
              product_categories_well_ranged) as (ps & Hrun & Hnames & Hall).
  exists ps. unfold products_data. rewrite Hrun. simpl.
  repeat split; try reflexivity.
  - rewrite <- (length_fmap product_name), Hnames. reflexivity.
  - exact Hnames.
  - intros p Hp. rewrite Forall_forall in Hall. auto.
Qed.

Lemma products_count_and_markup_witness :
  exists ps,
    products_data (fun _ => sample_product_draws) = Some ps /\
    length ps = 39%nat /\
    product_name <$> ps = concat (items <$> product_categories) /\
    length <$> (items <$> product_categories) = [6; 6; 6; 6; 5; 5; 5]%nat /\
    (forall p, p ∈ ps -> unit_cost p < list_price p).
Proof.
  apply (products_count_and_markup (fun _ => sample_product_draws)).
  intros _. unfold admissible, Np.unit_sample. simpl.
  repeat split; unfold Qle, Qlt; simpl; lia.
Defined.

End ProductClaims.

(** ** The body of the transaction loop *)

Section TransactionBody.

Import Transactions TransactionFacts.

Ltac weights_to_one i :=
  eapply (choice_total _ _ _ i);
  [ reflexivity | unfold Qle; simpl; lia | simpl; lia | assumption ].

Lemma characteristics_total (t : tier) (d : draws) :
  d_discount d < 1 -> d_payment d < 1 ->
  exists disc dt dd pm,
    characteristics t d = Some (Py.int (d_lognormal d), disc, dt, dd, pm).
Proof.
  intros Hd Hp. unfold characteristics.
  destruct t.
  - assert (H1 : exists x, Np.choice [0; 5; 10; 15]%Z [0.6; 0.25; 0.10; 0.05]
                             (d_discount d) = Some x /\ x ∈ [0; 5; 10; 15]%Z)
      by weights_to_one 3%nat.
    assert (H2 : exists x, Np.choice payment_methods [0.4; 0.35; 0.2; 0.05]
                             (d_payment d) = Some x /\ x ∈ payment_methods)
      by weights_to_one 3%nat.
    destruct H1 as (x & -> & _), H2 as (y & -> & _). simpl. eauto 6.
  - assert (H1 : exists x, Np.choice [0; 5; 10; 15; 20]%Z
                             [0.4; 0.3; 0.15; 0.10; 0.05]
                             (d_discount d) = Some x /\ x ∈ [0; 5; 10; 15; 20]%Z)
      by weights_to_one 4%nat.
    assert (H2 : exists x, Np.choice payment_methods [0.35; 0.20; 0.15; 0.30]
                             (d_payment d) = Some x /\ x ∈ payment_methods)
      by weights_to_one 3%nat.
    destruct H1 as (x & -> & _), H2 as (y & -> & _). simpl. eauto 6.
  - assert (H1 : exists x, Np.choice [0; 5; 10; 15; 20]%Z
                             [0.3; 0.25; 0.20; 0.15; 0.10]
                             (d_discount d) = Some x /\ x ∈ [0; 5; 10; 15; 20]%Z)
      by weights_to_one 4%nat.
    assert (H2 : exists x, Np.choice payment_methods [0.25; 0.10; 0.10; 0.55]
                             (d_payment d) = Some x /\ x ∈ payment_methods)
      by weights_to_one 3%nat.
    destruct H1 as (x & -> & _), H2 as (y & -> & _). simpl. eauto 6.
Qed.

Lemma characteristics_discount (t : tier) (d : draws) (q disc : Z)
    (dt dd : Q) (pm : string) :
  characteristics t d = Some (q, disc, dt, dd, pm) ->
  disc ∈ (if decide (t = Metro) then [0; 5; 10; 15] else [0; 5; 10; 15; 20])%Z.
Proof.
  unfold characteristics. destruct t; simpl;
    (destruct (Np.choice _ _ (d_discount d)) as [x |] eqn:Hx;
       simpl; [ | discriminate ]);
    (destruct (Np.choice _ _ (d_payment d)) as [y |];
       simpl; [ | discriminate ]);
    intros H; injection H as <- <- <- <- <-;
    apply (choice_elem _ _ _ _ Hx).
Qed.

Lemma margin_percent_total (margin revenue : Q) :
  exists m, margin_percent margin revenue = Some m /\
    (0 < revenue -> m = margin / revenue * 100) /\
    (revenue <= 0 -> m = 0).
Proof.
  unfold margin_percent, Py.div.
  destruct (Qlt_le_dec 0 revenue) as [Hpos | Hle].
  - destruct (Qeq_dec revenue 0) as [E | _]; [ rewrite E in Hpos; lra | ].
    simpl. eexists; split; [ reflexivity | ]. split; [ reflexivity | lra ].
  - eexists; split; [ reflexivity | ]. split; [ lra | reflexivity ].
Qed.

Lemma derive_inv (t : tier) (prod : product) (d : draws) (l : Raw.locals) :
  derive t prod d = Some l -> derived t prod d l.
Proof.
  unfold derive. intros H.
  destruct (characteristics t d) as [[[[[q disc] dt] dd] pm] |] eqn:Hc;
    simpl in H; [ | discriminate ].
  destruct (margin_percent _ _) as [m |] eqn:Hm; simpl in H; [ | discriminate ].
  injection H as <-. constructor; simpl; try reflexivity.
  - exists q, dt. auto.
  - exact Hm.
Qed.

Lemma derive_total (t : tier) (prod : product) (d : draws) :
  d_discount d < 1 -> d_payment d < 1 ->
  exists l, derive t prod d = Some l.
Proof.
  intros Hd Hp.
  destruct (characteristics_total t d Hd Hp) as (disc & dt & dd & pm & Hc).
  unfold derive. rewrite Hc. simpl.
  match goal with
  | |- context [margin_percent ?m ?r] =>
      destruct (margin_percent_total m r) as (mp & -> & _)
  end.
  simpl. eauto.
Qed.

End TransactionBody.

Section TransactionClaims.

Import Transactions TransactionFacts.

Lemma transaction_row_inv (t : tier) (prod : product) (d : draws)
    (row : transaction) :
  transaction_row t prod d = Some row ->
  exists l, derive t prod d = Some l /\ row = store_row t prod l.
Proof.
  unfold transaction_row. intros H.
  destruct (derive t prod d) as [l |]; simpl in H; [ | discriminate ].
  injection H as <-. eauto.
Qed.

Lemma transaction_row_total (t : tier) (prod : product) (d : draws) :
  d_discount d < 1 -> d_payment d < 1 ->
  exists l, derive t prod d = Some l /\
            transaction_row t prod d = Some (store_row t prod l).
Proof.
  intros Hd Hp. destruct (derive_total t prod d Hd Hp) as [l Hl].
  exists l. split; [ exact Hl | ]. unfold transaction_row. rewrite Hl.
  reflexivity.
Qed.

(** C6: whatever the tier and whatever the log-normal sample, an
    iteration stores a row with [1 <= quantity <= 10] and a
    [discount_pct] among 0, 5, 10, 15 and 20.  Only the two samples fed
    to [choice] are constrained, as samples of the unit interval. *)
Theorem quantity_and_discount_ranges (t : tier) (prod : product) (d : draws) :
  d_discount d < 1 -> d_payment d < 1 ->
  exists row,
    transaction_row t prod d = Some row /\
    (1 <= quantity row <= 10)%Z /\
    discount_pct row ∈ [0; 5; 10; 15; 20]%Z.
Proof.
  intros Hd Hp.
  destruct (transaction_row_total t prod d Hd Hp) as (l & Hl & Hrow).
  exists (store_row t prod l). split; [ exact Hrow | ].
  destruct (derive_inv _ _ _ _ Hl) as [(q & dt & Hc & Hq & _) _ _ _ _ _ _ _ _].
  simpl. split; [ lia | ].
  pose proof (characteristics_discount _ _ _ _ _ _ _ Hc) as Hin.
  destruct (decide (t = Metro)); [ | exact Hin ].
  revert Hin. rewrite !elem_of_cons. tauto.
Qed.

Lemma quantity_and_discount_ranges_witness :
  exists row,
    transaction_row Metro sample_product sample_draws = Some row /\
    (1 <= quantity row <= 10)%Z /\
    discount_pct row ∈ [0; 5; 10; 15; 20]%Z.
Proof.
  apply (quantity_and_discount_ranges Metro sample_product sample_draws);
    unfold Qlt; simpl; lia.
Defined.

Lemma discount_reached (t : tier) (prod : product) (u : Q) (v : Z) :
  Np.unit_sample u ->
  (exists q dt dd pm,
     characteristics t (draws_with_discount u) = Some (q, v, dt, dd, pm)) ->
  discount_reachable t prod v.
Proof.
  intros [Hu0 Hu1] (q & dt & dd & pm & Hc).
  destruct (transaction_row_total t prod (draws_with_discount u))
    as (l & Hl & Hrow); [ exact Hu1 | reflexivity | ].
  exists (draws_with_discount u), (store_row t prod l).
  split; [ | split; [ exact Hrow | ] ].
  - unfold admissible, Np.unit_sample; simpl.
    repeat split; try exact Hu0; try exact Hu1; unfold Qle, Qlt; simpl; lia.
  - destruct (derive_inv _ _ _ _ Hl) as [(q' & dt' & Hc' & _) _ _ _ _ _ _ _ _].
    simpl. rewrite Hc in Hc'. congruence.
Qed.

Lemma discount_reachable_inv (t : tier) (prod : product) (v : Z) :
  discount_reachable t prod v ->
  v ∈ (if decide (t = Metro) then [0; 5; 10; 15] else [0; 5; 10; 15; 20])%Z.
Proof.
  intros (d & row & _ & Hrow & <-).
  destruct (transaction_row_inv _ _ _ _ Hrow) as (l & Hl & ->).
  destruct (derive_inv _ _ _ _ Hl) as [(q & dt & Hc & _) _ _ _ _ _ _ _ _].
  simpl. exact (characteristics_discount _ _ _ _ _ _ _ Hc).
Qed.

Ltac reach_with u :=
  apply (discount_reached _ _ u);
  [ split; unfold Qle, Qlt; simpl; lia
  | vm_compute; do 4 eexists; reflexivity ].

(** C10: the discount percentages a Metro transaction can carry are
    exactly 0, 5, 10 and 15, so 20 is never stored for Metro, while for
    Tier 2 and for Tier 3 they are exactly 0, 5, 10, 15 and 20. *)
Theorem metro_never_discounts_twenty (prod : product) :
  (forall v, discount_reachable Metro prod v <-> v ∈ [0; 5; 10; 15]%Z) /\
  ~ discount_reachable Metro prod 20 /\
  (forall t v, t <> Metro ->
     discount_reachable t prod v <-> v ∈ [0; 5; 10; 15; 20]%Z).
Proof.
  split; [ | split ].
  - intros v. split.
    + apply (discount_reachable_inv Metro).
    + rewrite !elem_of_cons, elem_of_nil.
      intros [-> | [-> | [-> | [-> | []]]]].
      * reach_with 0.
      * reach_with 0.6.
      * reach_with 0.85.
      * reach_with 0.95.
  - intros H. apply (discount_reachable_inv Metro) in H.
    revert H. simpl. rewrite !elem_of_cons, elem_of_nil. lia.
  - intros t v Ht. split.
    + intros H. apply discount_reachable_inv in H.
      destruct (decide (t = Metro)); [ contradiction | exact H ].
    + rewrite !elem_of_cons, elem_of_nil.
      destruct t; [ contradiction | | ];
        intros [-> | [-> | [-> | [-> | [-> | []]]]]].
      * reach_with 0.
      * reach_with 0.4.
      * reach_with 0.7.
      * reach_with 0.85.
      * reach_with 0.95.
      * reach_with 0.
      * reach_with 0.3.
      * reach_with 0.55.
      * reach_with 0.75.
      * reach_with 0.9.
Qed.

(** C5: a stored spoilage cost other than zero implies a perishable
    product in Tier 2 or Tier 3; the spoilage cost is zero for Metro and
    for non-perishable products, and otherwise it is the product cost
    times a uniform sample of [0, 0.08] for Tier 2 and of [0, 0.15] for
    Tier 3. *)
Theorem spoilage_only_for_perishables_in_lower_tiers (t : tier)
    (prod : product) (d : draws) :
  d_discount d < 1 -> d_payment d < 1 -> Np.unit_sample (d_spoilage d) ->
  exists l row,
    derive t prod d = Some l /\ transaction_row t prod d = Some row /\
    spoilage_cost row = Py.round2 (Raw.spoilage_cost l) /\
    (~ spoilage_cost row == 0 ->
       is_perishable prod = true /\ (t = Tier2 \/ t = Tier3)) /\
    (t = Metro \/ is_perishable prod = false ->
       Raw.spoilage_cost l = 0 /\ spoilage_cost row = 0) /\
    (is_perishable prod = true -> t = Tier2 ->
       Raw.spoilage_cost l
         = Raw.product_cost l * Np.uniform 0 0.08 (d_spoilage d) /\
       0 <= Np.uniform 0 0.08 (d_spoilage d) <= 0.08) /\
    (is_perishable prod = true -> t = Tier3 ->
       Raw.spoilage_cost l
         = Raw.product_cost l * Np.uniform 0 0.15 (d_spoilage d) /\
       0 <= Np.uniform 0 0.15 (d_spoilage d) <= 0.15).
Proof.
  intros Hd Hp Hs.
  destruct (transaction_row_total t prod d Hd Hp) as (l & Hl & Hrow).
  exists l, (store_row t prod l).
  split; [ exact Hl | split; [ exact Hrow | ] ].
  destruct (derive_inv _ _ _ _ Hl) as [_ _ _ _ _ Hsp _ _ _].
  simpl. rewrite Hsp. unfold spoilage.
  split; [ reflexivity | ].
  split; [ | split; [ | split ] ].
  - destruct (is_perishable prod), t; rewrite ?round2_zero; intros H;
      try (exfalso; apply H; reflexivity); auto.
  - intros [-> | ->]; [ destruct (is_perishable prod) | ]; auto.
  - intros -> ->. split; [ reflexivity | ].
    apply uniform_bounds; [ unfold Qle; simpl; lia | exact Hs ].
  - intros -> ->. split; [ reflexivity | ].
    apply uniform_bounds; [ unfold Qle; simpl; lia | exact Hs ].
Qed.

Lemma spoilage_only_for_perishables_in_lower_tiers_witness :
  exists l row,
    derive Tier2 milk milk_draws = Some l /\
    transaction_row Tier2 milk milk_draws = Some row /\
    spoilage_cost row = Py.round2 (Raw.spoilage_cost l) /\
    (~ spoilage_cost row == 0 ->
       is_perishable milk = true /\ (Tier2 = Tier2 \/ Tier2 = Tier3)) /\
    (Tier2 = Metro \/ is_perishable milk = false ->
       Raw.spoilage_cost l = 0 /\ spoilage_cost row = 0) /\
    (is_perishable milk = true -> Tier2 = Tier2 ->
       Raw.spoilage_cost l
         = Raw.product_cost l * Np.uniform 0 0.08 (d_spoilage milk_draws) /\
       0 <= Np.uniform 0 0.08 (d_spoilage milk_draws) <= 0.08) /\
    (is_perishable milk = true -> Tier2 = Tier3 ->
       Raw.spoilage_cost l
         = Raw.product_cost l * Np.uniform 0 0.15 (d_spoilage milk_draws) /\
       0 <= Np.uniform 0 0.15 (d_spoilage milk_draws) <= 0.15).
Proof.
  apply (spoilage_only_for_perishables_in_lower_tiers Tier2 milk milk_draws);
    try split; unfold Qle, Qlt; simpl; lia.
Defined.

(** C4: the margin percentage is [margin / revenue * 100] when the
    revenue is positive and [0] otherwise, so the division never fails,
    whatever the product; the generator itself ensures a quantity of at
    least 1 and a discount of at most 20, and with a positive list price
    the revenue is positive, so the zero branch is not taken. *)
Theorem margin_pct_division_guarded (t : tier) (prod : product) (d : draws) :
  d_discount d < 1 -> d_payment d < 1 ->
  exists l row,
    derive t prod d = Some l /\ transaction_row t prod d = Some row /\
    margin_pct row = Py.round2 (Raw.margin_pct l) /\
    (0 < Raw.revenue l ->
       Raw.margin_pct l = Raw.margin l / Raw.revenue l * 100) /\
    (Raw.revenue l <= 0 -> Raw.margin_pct l = 0) /\
    (1 <= Raw.qty l)%Z /\ (0 <= Raw.discount l <= 20)%Z /\
    (0 < list_price prod -> 0 < Raw.revenue l).
Proof.
  intros Hd Hp.
  destruct (transaction_row_total t prod d Hd Hp) as (l & Hl & Hrow).
  exists l, (store_row t prod l).
  split; [ exact Hl | split; [ exact Hrow | ] ].
  destruct (derive_inv _ _ _ _ Hl)
    as [(q & dt & Hc & Hq & _) Hup Hrev _ _ _ _ _ Hmp].
  split; [ reflexivity | ].
  destruct (margin_percent_total (Raw.margin l) (Raw.revenue l))
    as (m & Hm & Hpos & Hzero).
  rewrite Hmp in Hm. injection Hm as <-.
  split; [ exact Hpos | split; [ exact Hzero | ] ].
  assert (Hdisc : (0 <= Raw.discount l <= 20)%Z).
  { pose proof (characteristics_discount _ _ _ _ _ _ _ Hc) as Hin.
    destruct (decide (t = Metro)); revert Hin;
      rewrite !elem_of_cons, elem_of_nil; lia. }
  split; [ lia | split; [ exact Hdisc | ] ].
  intros Hlp. rewrite Hrev, Hup.
  assert (Hq1 : 1 <= inject_Z (Raw.qty l)).
  { change 1 with (inject_Z 1). rewrite <- Zle_Qle. lia. }
  assert (Hd20 : inject_Z (Raw.discount l) <= 20).
  { change 20 with (inject_Z 20). rewrite <- Zle_Qle. lia. }
  assert (E : inject_Z (Raw.discount l) / 100
              == inject_Z (Raw.discount l) * (1 # 100)) by field.
  rewrite E.
  apply Qmult_lt_0_compat; [ apply Qmult_lt_0_compat | ]; lra.
Qed.

Lemma margin_pct_division_guarded_witness :
  exists l row,
    derive Metro sample_product sample_draws = Some l /\
    transaction_row Metro sample_product sample_draws = Some row /\
    margin_pct row = Py.round2 (Raw.margin_pct l) /\
    (0 < Raw.revenue l ->
       Raw.margin_pct l = Raw.margin l / Raw.revenue l * 100) /\
    (Raw.revenue l <= 0 -> Raw.margin_pct l = 0) /\
    (1 <= Raw.qty l)%Z /\ (0 <= Raw.discount l <= 20)%Z /\
    (0 < list_price sample_product -> 0 < Raw.revenue l).
Proof.
  apply (margin_pct_division_guarded Metro sample_product sample_draws);
    unfold Qlt; simpl; lia.
Defined.

(** C3: the end-to-end scenario.  With a list price of 100, a unit cost
    of 40, a non-perishable product, and Metro characteristics of
    quantity 2, discount 10 and delivery distance 10, the stored row has
    unit price 90, revenue 180, product cost 80, logistics cost 40,
    spoilage cost 0, total cost 120, margin 60 and margin percentage
    33.33. *)
Theorem end_to_end_scenario (prod : product) (d : draws) (dt dd : Q)
    (pm : string) :
  list_price prod == 100 -> unit_cost prod == 40 ->
  is_perishable prod = false ->
  characteristics Metro d = Some (2%Z, 10%Z, dt, dd, pm) -> dd == 10 ->
  exists row,
    transaction_row Metro prod d = Some row /\
    quantity row = 2%Z /\ discount_pct row = 10%Z /\
    unit_price row = 90 /\ revenue row = 180 /\ product_cost row = 80 /\
    logistics_cost row = 40 /\ spoilage_cost row = 0 /\
    total_cost row = 120 /\ margin row = 60 /\ margin_pct row = 33.33.
Proof.
  intros Hlp Huc Hnp Hc Hdd.
  unfold transaction_row, derive. rewrite Hc. simpl.
  change (Z.max 1 (Z.min 2 10)) with 2%Z.
  unfold spoilage, logistics. rewrite Hnp.
  set (revenue := list_price prod * (1 - inject_Z 10 / 100) * inject_Z 2).
  set (total := unit_cost prod * inject_Z 2 + (dd * 2.5 + 15) + 0).
  assert (Hrev : revenue == 180) by (unfold revenue; rewrite Hlp; reflexivity).
  assert (Htot : total == 120) by (unfold total; rewrite Huc, Hdd; reflexivity).
  unfold margin_percent.
  destruct (Qlt_le_dec 0 revenue) as [Hpos | Hneg]; [ | lra ].
  rewrite (div_positive _ _ Hpos). simpl.
  eexists; split; [ reflexivity | simpl ].
  split; [ reflexivity | split; [ reflexivity | ] ].
  repeat split.
  - rewrite (round2_comp _ 90); [ reflexivity | rewrite Hlp; reflexivity ].
  - rewrite (round2_comp _ 180 Hrev); reflexivity.
  - rewrite (round2_comp _ 80); [ reflexivity | rewrite Huc; reflexivity ].
  - rewrite (round2_comp _ 40); [ reflexivity | rewrite Hdd; reflexivity ].
  - rewrite (round2_comp _ 120 Htot); reflexivity.
  - rewrite (round2_comp _ 60); [ reflexivity | rewrite Hrev, Htot; reflexivity ].
  - rewrite (round2_comp _ (100 # 3)); [ reflexivity | ].
    rewrite Hrev, Htot. reflexivity.
Qed.

Lemma end_to_end_scenario_witness :
  exists row,
    transaction_row Metro sample_product sample_draws = Some row /\
    quantity row = 2%Z /\ discount_pct row = 10%Z /\
    unit_price row = 90 /\ revenue row = 180 /\ product_cost row = 80 /\
    logistics_cost row = 40 /\ spoilage_cost row = 0 /\
    total_cost row = 120 /\ margin row = 60 /\ margin_pct row = 33.33.
Proof.
  apply (end_to_end_scenario sample_product sample_draws 1.750 (140 # 14)
           "UPI"); reflexivity.
Defined.




End TransactionClaims.

(** ** The classifier guard *)

Section ClassifierGuard.
Import RiskClassifier.

Lemma unique_from_elem (y seen : list Z) (v : Z) :
  v ∈ unique_from seen y <-> v ∈ y /\ v ∉ seen.
Proof.
  revert seen. induction y as [| w y IH]; intros seen; simpl.
  - rewrite elem_of_nil. tauto.
  - destruct (decide (w ∈ seen)) as [Hin | Hout].
    + rewrite IH, elem_of_cons. split; [ tauto | ].
      intros [[-> | H] Hn]; [ contradiction | tauto ].
    + rewrite !elem_of_cons, IH, elem_of_cons.
      destruct (decide (v = w)) as [-> | Hne]; tauto.
Qed.

Lemma unique_from_NoDup (y seen : list Z) : NoDup (unique_from seen y).
Proof.
  revert seen. induction y as [| w y IH]; intros seen; simpl.
  - constructor.
  - destruct (decide (w ∈ seen)); [ apply IH | ].
    constructor; [ | apply IH ].
    rewrite unique_from_elem, elem_of_cons. tauto.
Qed.

Lemma unique_elem (y : list Z) (v : Z) : v ∈ unique y <-> v ∈ y.
Proof. unfold unique. rewrite unique_from_elem, elem_of_nil. tauto. Qed.

Lemma high_risk_binary (m : Q) : high_risk m = 0%Z \/ high_risk m = 1%Z.
Proof. unfold high_risk. destruct (Qlt_le_dec m 10); auto. Qed.

Lemma two_classes (y : list Z) :
  (forall v, v ∈ y -> v = 0%Z \/ v = 1%Z) ->
  (1 < length (unique y))%nat <-> 0%Z ∈ y /\ 1%Z ∈ y.
Proof.
  intros Hbin.
  pose proof (unique_from_NoDup y []) as Hnd. fold (unique y) in Hnd.
  split.
  - intros Hlen.
    destruct (unique y) as [| a [| b rest]] eqn:E; simpl in Hlen; try lia.
    assert (Ha : a ∈ y) by (apply unique_elem; rewrite E; left).
    assert (Hb : b ∈ y) by (apply unique_elem; rewrite E; right; left).
    apply NoDup_cons in Hnd as [Hab _].
    rewrite elem_of_cons in Hab.
    destruct (Hbin a Ha) as [-> | ->], (Hbin b Hb) as [-> | ->];
      tauto.
  - intros [H0 H1].
    apply unique_elem in H0, H1.
    assert (Hsub : [0%Z; 1%Z] ⊆+ unique y).
    { apply NoDup_submseteq.
      - repeat constructor; rewrite ?elem_of_cons, ?elem_of_nil; lia.
      - intros x. rewrite !elem_of_cons, elem_of_nil.
        intros [-> | [-> | []]]; assumption. }
    apply submseteq_length in Hsub. simpl in Hsub. lia.
Qed.

(** The actions started are among the statements of the block, in
    particular none of another block. *)
Lemma run_started (returns : action -> bool) (block : list action)
    (a : action) :
  a ∈ fst (run returns block) -> a ∈ block.
Proof.
  induction block as [| b rest IH]; cbn [run].
  - intros H. exact H.
  - destruct (is_print b || returns b); cbn [fst].
    + rewrite !elem_of_cons. intros [-> | H]; [ left | right ]; auto.
    + rewrite elem_of_cons, elem_of_nil. intros [-> | []]. left.
Qed.

(** The first statement of a block is always started. *)
Lemma run_first (returns : action -> bool) (a : action)
    (rest : list action) :
  a ∈ fst (run returns (a :: rest)).
Proof.
  cbn [run]. destruct (is_print a || returns a); cbn [fst]; left.
Qed.

(** When every library call returns, the whole block runs. *)
Lemma run_all (returns : action -> bool) (block : list action) :
  (forall a, a ∈ block -> returns a = true) ->
  run returns block = (block, Completed).
Proof.
  induction block as [| b rest IH]; intros Hret; cbn [run].
  - reflexivity.
  - rewrite (Hret b) by left. rewrite orb_true_r.
    rewrite IH by (intros a Ha; apply Hret; right; exact Ha).
    reflexivity.
Qed.

(** C9: the classifier stage is guarded.  With fewer than two distinct
    values in the high-risk column the stage prints the warning and
    ends normally, whatever the library would do; two distinct values
    means that both classes are present; the split is started exactly
    when both classes are present, and every training step (split,
    scaling, fit, prediction, report) is started only when both classes
    are present.  With both classes present the steps run to the end when
    every library call returns, and the stage stops at the split when the
    split raises.  The warning is printed exactly when the two classes
    are not both present. *)
Theorem classifier_stage_guarded (returns : action -> bool)
    (store_margin_pct : list Q) :
  let y := high_risk <$> store_margin_pct in
  let r := margin_risk_stage returns store_margin_pct in
  ((length (unique y) < 2)%nat -> r = ([PrintLine warning], Completed)) /\
  ((1 < length (unique y))%nat <-> 0%Z ∈ y /\ 1%Z ∈ y) /\
  (TrainTestSplit ∈ fst r <-> 0%Z ∈ y /\ 1%Z ∈ y) /\
  (forall a,
     a ∈ [TrainTestSplit; FitScaler; ScaleTest; FitForest; Predict;
          PrintReport] ->
     a ∈ fst r -> 0%Z ∈ y /\ 1%Z ∈ y) /\
  (0%Z ∈ y /\ 1%Z ∈ y -> (forall a, a ∈ training -> returns a = true) ->
     r = (training, Completed)) /\
  (0%Z ∈ y /\ 1%Z ∈ y -> returns TrainTestSplit = false ->
     r = ([TrainTestSplit], Raised TrainTestSplit)) /\
  (PrintLine warning ∈ fst r <-> ~ (0%Z ∈ y /\ 1%Z ∈ y)).
Proof.
  intros y r.
  assert (Hbin : forall v, v ∈ y -> v = 0%Z \/ v = 1%Z).
  { intros v Hv. unfold y in Hv. apply list_elem_of_fmap in Hv as (m & -> & _).
    apply high_risk_binary. }
  pose proof (two_classes y Hbin) as Htwo.
  assert (Hskip : ~ (1 < length (unique y))%nat ->
                  r = ([PrintLine warning], Completed)).
  { intros Hle. unfold r, margin_risk_stage, stage. fold y.
    destruct (decide (1 < length (unique y))%nat); [ contradiction | ].
    reflexivity. }
  assert (Htrain : (1 < length (unique y))%nat -> r = run returns training).
  { intros Hgt. unfold r, margin_risk_stage, stage. fold y.
    destruct (decide (1 < length (unique y))%nat); [ | contradiction ].
    reflexivity. }
  assert (Hno : forall a, a ∈ training -> a <> PrintLine warning).
  { intros a. unfold training. rewrite !elem_of_cons, elem_of_nil.
    intros H; decompose [or] H; subst; try discriminate; contradiction. }
  split; [ | split; [ exact Htwo | ] ].
  { intros Hlt. apply Hskip. lia. }
  destruct (decide (1 < length (unique y))%nat) as [Hgt | Hle].
  - assert (Hboth : 0%Z ∈ y /\ 1%Z ∈ y) by (apply Htwo; exact Hgt).
    rewrite (Htrain Hgt).
    split; [ split; [ intros _; exact Hboth | intros _; apply run_first ] | ].
    split; [ intros a _ _; exact Hboth | ].
    split; [ intros _ Hret; apply run_all; exact Hret | ].
    split.
    + intros _ Hret. unfold training. cbn [run is_print orb].
      rewrite Hret. reflexivity.
    + split; [ | intros Hn; contradiction ].
      intros Hin. apply run_started in Hin.
      destruct (Hno _ Hin eq_refl).
  - assert (Hnot : ~ (0%Z ∈ y /\ 1%Z ∈ y)).
    { intros Hboth. apply Hle, Htwo, Hboth. }
    rewrite (Hskip Hle). cbn [fst].
    split.
    { split; [ | intros; contradiction ].
      rewrite elem_of_cons, elem_of_nil. intros [H | []]. discriminate H. }
    split.
    { intros a Ha. revert Ha. rewrite !elem_of_cons, !elem_of_nil.
      intros [-> | [-> | [-> | [-> | [-> | [-> | []]]]]]];
        intros [H | []]; discriminate H. }
    split; [ intros; contradiction | ].
    split; [ intros; contradiction | ].
    split; [ intros _; exact Hnot | intros _; left ].
Qed.

End ClassifierGuard.

(** ** Cluster naming *)

Section Scan.

Variable better : Q -> Q -> Prop.
Variable beats : Q -> Q -> bool.
Hypothesis beats_spec : forall a b, beats a b = true <-> better a b.
Hypothesis better_asym : forall a b, better a b -> ~ better b a.
Hypothesis better_chain :
  forall a b c, better a b -> ~ better c b -> better a c.

Lemma scan_first_best (col pre : list Q) (best_i : nat) (best : Q) :
  pre !! best_i = Some best ->
  (forall j y, pre !! j = Some y -> ~ better y best) ->
  (forall j y, pre !! j = Some y -> (j < best_i)%nat -> better best y) ->
  first_best better (pre ++ col)
    (Segments.scan beats col (length pre) best_i best).
Proof.
  revert pre best_i best.
  induction col as [| x col IH]; intros pre best_i best Hbest Hall Hbefore.
  - simpl. rewrite app_nil_r. exists best. auto.
  - simpl. replace (pre ++ x :: col) with ((pre ++ [x]) ++ col)
      by (rewrite <- app_assoc; reflexivity).
    replace (S (length pre)) with (length (pre ++ [x]))
      by (rewrite length_app; simpl; lia).
    destruct (beats x best) eqn:Hb.
    + apply beats_spec in Hb. apply IH.
      * rewrite lookup_app_r, Nat.sub_diag by lia. reflexivity.
      * intros j y Hj. apply lookup_app_Some in Hj as [Hj | [_ Hj]].
        -- apply better_asym. apply (better_chain _ best); eauto.
        -- apply list_lookup_singleton_Some in Hj as [_ <-].
           intros H. exact (better_asym _ _ H H).
      * intros j y Hj Hlt. apply lookup_app_Some in Hj as [Hj | [Hge _]].
        -- apply (better_chain _ best); eauto.
        -- lia.
    + assert (Hnb : ~ better x best).
      { intros H. apply beats_spec in H. congruence. }
      apply IH.
      * apply lookup_app_l_Some. exact Hbest.
      * intros j y Hj. apply lookup_app_Some in Hj as [Hj | [_ Hj]].
        -- eauto.
        -- apply list_lookup_singleton_Some in Hj as [_ <-]. exact Hnb.
      * intros j y Hj Hlt. apply lookup_app_Some in Hj as [Hj | [Hge _]].
        -- eauto.
        -- apply lookup_lt_Some in Hbest. lia.
Qed.

Lemma scan_from_head (x : Q) (col : list Q) :
  first_best better (x :: col) (Segments.scan beats col 1 0 x).
Proof.
  apply (scan_first_best col [x] 0 x).
  - reflexivity.
  - intros j y Hj. apply list_lookup_singleton_Some in Hj as [_ <-].
    intros H. exact (better_asym _ _ H H).
  - intros j y _ Hlt. lia.
Qed.

End Scan.

Section ClusterNaming.
Import Segments.

Lemma Qltb_spec (a b : Q) : Qltb a b = true <-> a < b.
Proof.
  unfold Qltb. destruct (Qlt_le_dec a b) as [Hlt | Hge].
  - tauto.
  - split; [ discriminate | lra ].
Qed.

Lemma idxmax_first_max (col : list Q) :
  col <> [] -> exists i, idxmax col = Some i /\ first_max col i.
Proof.
  destruct col as [| x col]; [ congruence | intros _ ].
  eexists; split; [ reflexivity | ].
  apply scan_from_head.
  - intros a b. apply Qltb_spec.
  - intros a b. lra.
  - intros a b c. lra.
Qed.

Lemma idxmin_first_min (col : list Q) :
  col <> [] -> exists i, idxmin col = Some i /\ first_min col i.
Proof.
  destruct col as [| x col]; [ congruence | intros _ ].
  eexists; split; [ reflexivity | ].
  apply scan_from_head.
  - intros a b. apply Qltb_spec.
  - intros a b. lra.
  - intros a b c. lra.
Qed.

Lemma moderate_keeps_names (names : gmap nat string) (k : nat) (v : string) :
  names !! k = Some v ->
  match remaining names with
  | [] => names
  | i :: _ => <[i := "Moderate"%string]> names
  end !! k = Some v.
Proof.
  intros Hk. destruct (remaining names) as [| i rest] eqn:E; [ exact Hk | ].
  assert (Hi : i ∈ remaining names) by (rewrite E; left).
  unfold remaining in Hi. apply list_elem_of_filter in Hi as [Hnone _].
  rewrite lookup_insert_ne; [ exact Hk | congruence ].
Qed.

(** A column of two or more pairwise different values has its maximum
    and its minimum at different positions. *)
Lemma extremes_differ (col : list Q) (i : nat) :
  (2 <= length col)%nat -> pairwise_different col ->
  first_max col i -> first_min col i -> False.
Proof.
  intros Hlen Hdiff (x & Hx & Hmax & _) (x' & Hx' & Hmin & _).
  rewrite Hx in Hx'. injection Hx' as <-.
  set (j := match i with O => 1%nat | S _ => 0%nat end).
  assert (Hj : (j < length col)%nat) by (destruct i; simpl; lia).
  destruct (lookup_lt_is_Some_2 col j Hj) as [y Hy].
  assert (Hij : i <> j) by (destruct i; simpl; lia).
  apply (Hdiff i j x y Hx Hy Hij).
  specialize (Hmax j y Hy). specialize (Hmin j y Hy). simpl in Hmax, Hmin.
  lra.
Qed.

(** C1, as amended: for four cluster profiles, the first cluster of
    minimum average revenue is named "Low Engagement"; the first cluster
    of maximum average purchase count is named "Frequent Buyers" unless
    it is that minimum-revenue cluster; the first cluster of maximum
    average revenue is named "High Value" when it is neither of the two.
    When one cluster has both maxima the later dictionary entry replaces
    the earlier one, so that cluster is not named "High Value".  With
    pairwise different average revenues the maximum-revenue and the
    minimum-revenue cluster differ. *)
Theorem cluster_naming_last_entry_wins (cluster_profiles : list profile) :
  length cluster_profiles = optimal_k ->
  exists hi_rev hi_pur lo_rev names,
    idxmax (revenue_column cluster_profiles) = Some hi_rev /\
    first_max (revenue_column cluster_profiles) hi_rev /\
    idxmax (purchases_column cluster_profiles) = Some hi_pur /\
    first_max (purchases_column cluster_profiles) hi_pur /\
    idxmin (revenue_column cluster_profiles) = Some lo_rev /\
    first_min (revenue_column cluster_profiles) lo_rev /\
    cluster_names cluster_profiles = Some names /\
    cluster_name names lo_rev = Some "Low Engagement"%string /\
    (hi_pur <> lo_rev ->
       cluster_name names hi_pur = Some "Frequent Buyers"%string) /\
    (hi_rev <> hi_pur -> hi_rev <> lo_rev ->
       cluster_name names hi_rev = Some "High Value"%string) /\
    (hi_rev = hi_pur ->
       cluster_name names hi_rev <> Some "High Value"%string) /\
    (pairwise_different (revenue_column cluster_profiles) ->
       hi_rev <> lo_rev).
Proof.
  intros Hlen.
  assert (Hne : forall f : profile -> Q, f <$> cluster_profiles <> []).
  { intros f E. apply (f_equal length) in E. rewrite length_fmap in E.
    rewrite Hlen in E. discriminate E. }
  destruct (idxmax_first_max _ (Hne avg_revenue)) as (hi_rev & Hhr & Mhr).
  destruct (idxmax_first_max _ (Hne avg_purchases)) as (hi_pur & Hhp & Mhp).
  destruct (idxmin_first_min _ (Hne avg_revenue)) as (lo_rev & Hlr & Mlr).
  exists hi_rev, hi_pur, lo_rev.
  eexists. unfold revenue_column, purchases_column.
  do 6 (split; [ eassumption | ]).
  unfold cluster_names. rewrite Hhr, Hhp, Hlr. simpl.
  split; [ reflexivity | ].
  unfold cluster_name.
  split; [ | split; [ | split; [ | split ] ] ].
  - apply moderate_keeps_names. unfold named_extremes.
    apply lookup_insert_eq.
  - intros H1. apply moderate_keeps_names. unfold named_extremes.
    rewrite lookup_insert_ne by congruence. apply lookup_insert_eq.
  - intros H1 H2. apply moderate_keeps_names. unfold named_extremes.
    rewrite !lookup_insert_ne by congruence. apply lookup_insert_eq.
  - intros ->. destruct (decide (hi_pur = lo_rev)) as [-> | Hd].
    + erewrite moderate_keeps_names; [ | apply lookup_insert_eq ].
      discriminate.
    + erewrite moderate_keeps_names;
        [ | unfold named_extremes; rewrite lookup_insert_ne by congruence;
            apply lookup_insert_eq ].
      discriminate.
  - intros Hdiff ->.
    apply (extremes_differ (avg_revenue <$> cluster_profiles) lo_rev);
      try assumption.
    rewrite length_fmap, Hlen. unfold optimal_k. lia.
Qed.

Lemma cluster_naming_last_entry_wins_witness :
  exists hi_rev hi_pur lo_rev names,
    idxmax (revenue_column spread_profiles) = Some hi_rev /\
    first_max (revenue_column spread_profiles) hi_rev /\
    idxmax (purchases_column spread_profiles) = Some hi_pur /\
    first_max (purchases_column spread_profiles) hi_pur /\
    idxmin (revenue_column spread_profiles) = Some lo_rev /\
    first_min (revenue_column spread_profiles) lo_rev /\
    cluster_names spread_profiles = Some names /\
    cluster_name names lo_rev = Some "Low Engagement"%string /\
    (hi_pur <> lo_rev ->
       cluster_name names hi_pur = Some "Frequent Buyers"%string) /\
    (hi_rev <> hi_pur -> hi_rev <> lo_rev ->
       cluster_name names hi_rev = Some "High Value"%string) /\
    (hi_rev = hi_pur ->
       cluster_name names hi_rev <> Some "High Value"%string) /\
    (pairwise_different (revenue_column spread_profiles) ->
       hi_rev <> lo_rev).
Proof.
  apply (cluster_naming_last_entry_wins spread_profiles). reflexivity.
Defined.

(** C1, as stated, fails: in [top_cluster_profiles] cluster 0 has both
    the maximum average revenue and the maximum average purchase count,
    and its name is "Frequent Buyers", not "High Value". *)
Lemma high_value_overwritten :
  length top_cluster_profiles = optimal_k /\
  idxmax (revenue_column top_cluster_profiles) = Some 0%nat /\
  idxmax (purchases_column top_cluster_profiles) = Some 0%nat /\
  (exists names,
     cluster_names top_cluster_profiles = Some names /\
     cluster_name names 0 = Some "Frequent Buyers"%string) /\
  ~ first_entry_wins top_cluster_profiles.
Proof.
  split; [ reflexivity | ].
  split; [ reflexivity | ].
  split; [ reflexivity | ].
  split.
  - eexists. split; [ reflexivity | ]. vm_compute. reflexivity.
  - intros H.
    destruct (H 0%nat 0%nat _ eq_refl eq_refl eq_refl) as [Hv _].
    vm_compute in Hv. discriminate Hv.
Qed.

End ClusterNaming.

(** ** The store generator *)

Section StoreGenerator.
Import Stores.

Lemma randint_bounds (low high : Z) (u : Q) :
  (low < high)%Z -> Np.unit_sample u ->
  (low <= Np.randint low high u < high)%Z.
Proof.
  intros Hlh [Hu0 Hu1]. unfold Np.randint.
  set (w := inject_Z (high - low)).
  assert (Hw : 0 < w).
  { unfold w. change 0 with (inject_Z 0). rewrite <- Zlt_Qlt. lia. }
  assert (H0 : (0 <= Qfloor (w * u))%Z).
  { change 0%Z with (Qfloor 0). apply Qfloor_resp_le. nra. }
  assert (H1 : (Qfloor (w * u) < high - low)%Z).
  { rewrite Zlt_Qlt. fold w.
    apply Qle_lt_trans with (w * u); [ apply Qfloor_le | nra ]. }
  lia.
Qed.

Lemma make_store_some (id : nat) (cities : list city_info) (t : tier)
    (i : nat) (d : draws) :
  cities <> [] -> is_Some (make_store id cities t i d).
Proof.
  intros Hne. unfold make_store.
  assert (Hlen : (0 < length cities)%nat)
    by (destruct cities; [ congruence | simpl; lia ]).
  destruct (decide (length cities = 0%nat)) as [E | _]; [ lia | ].
  destruct (lookup_lt_is_Some_2 cities (i mod length cities)) as [info ->].
  - apply Nat.mod_upper_bound. lia.
  - simpl. eauto.
Qed.

Lemma slots_loop_spec (rng : nat -> draws) (cities : list city_info)
    (t : tier) :
  cities <> [] ->
  forall (todo i : nat) (st : gen_state),
  exists ss,
    slots_loop rng cities t i todo st
      = Some ((fst st + todo)%nat, snd st ++ ss) /\
    length ss = todo /\
    (forall k s, ss !! k = Some s ->
       make_store (fst st + k) cities t (i + k) (rng (fst st + k)%nat)
         = Some s).
Proof.
  intros Hne todo.
  induction todo as [| todo IH]; intros i [n acc]; simpl.
  - exists []. rewrite Nat.add_0_r, app_nil_r.
    repeat split. intros k s Hk. rewrite lookup_nil in Hk. discriminate.
  - destruct (make_store_some n cities t i (rng n) Hne) as [s Hs].
    rewrite Hs. simpl.
    destruct (IH (S i) (S n, acc ++ [s])) as (ss & Hrun & Hlen & Hat).
    exists (s :: ss). simpl in Hrun. rewrite Hrun.
    split; [ | split ].
    + f_equal. f_equal; [ lia | ]. rewrite <- app_assoc. reflexivity.
    + simpl. lia.
    + intros [| k] s' Hk; simpl in Hk.
      * injection Hk as <-. rewrite !Nat.add_0_r. exact Hs.
      * specialize (Hat k s' Hk). simpl in Hat.
        replace (n + S k)%nat with (S (n + k)) by lia.
        replace (i + S k)%nat with (S (i + k)) by lia. exact Hat.
Qed.

(** A plan of three tiers yields three blocks, each laid out slot by
    slot. *)
Lemma tiers_loop_three (rng : nat -> draws)
    (c1 c2 c3 : list city_info) (t1 t2 t3 : tier) (n1 n2 n3 base : nat) :
  c1 <> [] -> c2 <> [] -> c3 <> [] ->
  exists b1 b2 b3,
    tiers_loop rng [(c1, t1, n1); (c2, t2, n2); (c3, t3, n3)] (base, [])
      = Some ((base + n1 + n2 + n3)%nat, b1 ++ b2 ++ b3) /\
    length b1 = n1 /\ length b2 = n2 /\ length b3 = n3 /\
    (forall k s, b1 !! k = Some s ->
       make_store (base + k) c1 t1 k (rng (base + k)%nat) = Some s) /\
    (forall k s, b2 !! k = Some s ->
       make_store (base + n1 + k) c2 t2 k (rng (base + n1 + k)%nat)
         = Some s) /\
    (forall k s, b3 !! k = Some s ->
       make_store (base + n1 + n2 + k) c3 t3 k
         (rng (base + n1 + n2 + k)%nat) = Some s).
Proof.
  intros H1 H2 H3. cbn [tiers_loop].
  destruct (slots_loop_spec rng c1 t1 H1 n1 0 (base, []))
    as (b1 & R1 & L1 & A1).
  rewrite R1. cbn [mbind option_bind fst snd app].
  destruct (slots_loop_spec rng c2 t2 H2 n2 0 ((base + n1)%nat, b1))
    as (b2 & R2 & L2 & A2).
  rewrite R2. cbn [mbind option_bind fst snd].
  destruct (slots_loop_spec rng c3 t3 H3 n3 0
              ((base + n1 + n2)%nat, b1 ++ b2)) as (b3 & R3 & L3 & A3).
  rewrite R3. cbn [mbind option_bind fst snd].
  exists b1, b2, b3. cbn [fst snd] in *.
  split; [ rewrite <- app_assoc; reflexivity | ].
  do 3 (split; [ assumption | ]).
  split; [ exact A1 | split; [ exact A2 | exact A3 ] ].
Qed.

(** The three blocks of [stores_df]. *)
Lemma stores_data_blocks (rng : nat -> draws) :
  exists metro tier2 tier3,
    stores_data rng = Some (metro ++ tier2 ++ tier3) /\
    length metro = 40%nat /\ length tier2 = 45%nat /\
    length tier3 = 35%nat /\
    (forall k s, metro !! k = Some s ->
       make_store (1 + k) metro_cities Metro k (rng (1 + k)%nat) = Some s) /\
    (forall k s, tier2 !! k = Some s ->
       make_store (1 + 40 + k) tier2_cities Tier2 k (rng (1 + 40 + k)%nat)
         = Some s) /\
    (forall k s, tier3 !! k = Some s ->
       make_store (1 + 40 + 45 + k) tier3_cities Tier3 k
         (rng (1 + 40 + 45 + k)%nat) = Some s).
Proof.
  assert (H1 : metro_cities <> []) by discriminate.
  assert (H2 : tier2_cities <> []) by discriminate.
  assert (H3 : tier3_cities <> []) by discriminate.
  destruct (tiers_loop_three rng metro_cities tier2_cities tier3_cities
              Metro Tier2 Tier3 40 45 35 1 H1 H2 H3)
    as (b1 & b2 & b3 & Hrun & Hrest).
  exists b1, b2, b3. split; [ | exact Hrest ].
  unfold stores_data, tier_plan. rewrite Hrun. reflexivity.
Qed.

Lemma make_store_inv (id : nat) (cities : list city_info) (t : tier)
    (i : nat) (d : draws) (s : store) :
  make_store id cities t i d = Some s ->
  exists info,
    cities !! (i mod length cities)%nat = Some info /\
    s = {| store_id := id;
           store_name :=
             "JioMart " +:+ city_name info +:+ " Store "
               +:+ pretty ((i mod length cities) + 1)%nat;
           region_tier := t;
           city := city_name info;
           state := city_state info;
           city_population := population info;
           infrastructure_score := infra_score info;
           warehouse_distance_km :=
             if decide (t = Metro)
             then Np.uniform 2 8 (u_distance d)
             else Np.uniform 10 40 (u_distance d);
           opening_date :=
             Dates.plus_days (Dates.datetime 2023 1 1)
               (Np.randint 0 365 (u_opening d)) |}.
Proof.
  unfold make_store. intros H.
  destruct (decide (length cities = 0%nat)); [ discriminate | ].
  destruct (cities !! (i mod length cities)%nat) as [info |];
    [ | discriminate ].
  cbn [mbind option_bind] in H. injection H as <-. eauto.
Qed.

(** A block laid out slot by slot carries consecutive ids and one tier. *)
Lemma block_ids (rng : nat -> draws) (cities : list city_info) (t : tier)
    (base n : nat) (b : list store) :
  length b = n ->
  (forall k s, b !! k = Some s ->
     make_store (base + k) cities t k (rng (base + k)%nat) = Some s) ->
  store_id <$> b = seq base n /\ region_tier <$> b = replicate n t.
Proof.
  intros Hlen Hat. split; apply list_eq; intros k.
  - rewrite list_lookup_fmap.
    destruct (b !! k) as [s |] eqn:Hk; simpl.
    + destruct (make_store_inv _ _ _ _ _ _ (Hat k s Hk)) as (info & _ & ->).
      simpl. symmetry. apply lookup_seq. split; [ reflexivity | ].
      apply lookup_lt_Some in Hk. lia.
    + symmetry. apply lookup_ge_None. rewrite length_seq.
      apply lookup_ge_None in Hk. lia.
  - rewrite list_lookup_fmap.
    destruct (b !! k) as [s |] eqn:Hk; simpl.
    + destruct (make_store_inv _ _ _ _ _ _ (Hat k s Hk)) as (info & _ & ->).
      simpl. symmetry. apply lookup_replicate. split; [ reflexivity | ].
      apply lookup_lt_Some in Hk. lia.
    + symmetry. apply lookup_ge_None. rewrite length_replicate.
      apply lookup_ge_None in Hk. lia.
Qed.

(** X1: whatever the samples, the store generator returns 120 stores
    numbered 1 to 120 in order: 40 Metro stores, then 45 Tier 2 stores,
    then 35 Tier 3 stores. *)
Theorem stores_layout (rng : nat -> draws) :
  exists sts,
    stores_data rng = Some sts /\
    length sts = 120%nat /\
    store_id <$> sts = seq 1 120 /\
    region_tier <$> sts
      = replicate 40 Metro ++ replicate 45 Tier2 ++ replicate 35 Tier3.
Proof.
  destruct (stores_data_blocks rng)
    as (b1 & b2 & b3 & Hrun & L1 & L2 & L3 & A1 & A2 & A3).
  destruct (block_ids rng _ _ _ _ _ L1 A1) as [I1 T1].
  destruct (block_ids rng _ _ _ _ _ L2 A2) as [I2 T2].
  destruct (block_ids rng _ _ _ _ _ L3 A3) as [I3 T3].
  exists (b1 ++ b2 ++ b3). split; [ exact Hrun | ].
  split; [ rewrite !length_app; lia | ].
  rewrite !fmap_app, I1, I2, I3, T1, T2, T3.
  split; reflexivity.
Qed.

(** The closed range of a uniform value. *)
Lemma uniform_range (low high u : Q) :
  low < high -> Np.unit_sample u ->
  low <= Np.uniform low high u /\ Np.uniform low high u <= high.
Proof. intros Hr [H0 H1]. unfold Np.uniform. split; nra. Qed.

Lemma make_store_well_formed (id : nat) (t : tier) (i : nat) (d : draws)
    (s : store) :
  admissible d ->
  make_store id (cities_of t) t i d = Some s -> store_well_formed s.
Proof.
  intros [Hd Ho] H.
  destruct (make_store_inv _ _ _ _ _ _ H) as (info & Hinfo & ->).
  unfold store_well_formed. cbn [region_tier city state city_population
    infrastructure_score warehouse_distance_km opening_date].
  split; [ | split; [ | split ] ].
  - exists info. split; [ | auto ].
    apply list_elem_of_lookup. eauto.
  - intros ->. destruct (decide (Metro = Metro)); [ | congruence ].
    apply uniform_range; [ reflexivity | exact Hd ].
  - intros Hne. destruct (decide (t = Metro)); [ contradiction | ].
    apply uniform_range; [ reflexivity | exact Hd ].
  - pose proof (randint_bounds 0 365 (u_opening d) ltac:(lia) Ho) as Hr.
    unfold Dates.plus_days.
    change (Dates.datetime 2023 1 1) with 738521%Z.
    change (Dates.datetime 2023 12 31) with 738885%Z. lia.
Qed.

(** X2: every generated store carries the name, state, population and
    infrastructure score of one city of its own tier, a warehouse distance
    from 2 to 8 for Metro and from 10 to 40 otherwise, both ends included,
    and an opening date in 2023. *)
Theorem stores_well_formed (rng : nat -> draws) :
  (forall n, admissible (rng n)) ->
  exists sts,
    stores_data rng = Some sts /\
    forall s, s ∈ sts -> store_well_formed s.
Proof.
  intros Hrng.
  destruct (stores_data_blocks rng)
    as (b1 & b2 & b3 & Hrun & _ & _ & _ & A1 & A2 & A3).
  exists (b1 ++ b2 ++ b3). split; [ exact Hrun | ].
  intros s. rewrite !elem_of_app.
  intros [Hs | [Hs | Hs]]; apply list_elem_of_lookup in Hs as [k Hk].
  - exact (make_store_well_formed _ Metro _ _ _ (Hrng _) (A1 k s Hk)).
  - exact (make_store_well_formed _ Tier2 _ _ _ (Hrng _) (A2 k s Hk)).
  - exact (make_store_well_formed _ Tier3 _ _ _ (Hrng _) (A3 k s Hk)).
Qed.

Lemma stores_well_formed_witness :
  exists sts,
    stores_data (fun _ => sample_store_draws) = Some sts /\
    forall s, s ∈ sts -> store_well_formed s.
Proof.
  apply (stores_well_formed (fun _ => sample_store_draws)).
  intros _. unfold admissible, Np.unit_sample. simpl.
  repeat split; unfold Qle, Qlt; simpl; lia.
Defined.

(** In a block that cycles at least twice through its cities, every
    store has a namesake. *)
Lemma block_namesake (rng : nat -> draws) (cities : list city_info)
    (t : tier) (base n : nat) (b : list store) :
  length b = n -> (0 < length cities)%nat -> (2 * length cities <= n)%nat ->
  (forall k s, b !! k = Some s ->
     make_store (base + k) cities t k (rng (base + k)%nat) = Some s) ->
  forall s, s ∈ b ->
  exists s', s' ∈ b /\ store_id s' <> store_id s /\
             store_name s' = store_name s /\ city s' = city s.
Proof.
  intros Hlen Hpos Hn Hat s Hs.
  apply list_elem_of_lookup in Hs as [k Hk].
  pose proof (lookup_lt_Some _ _ _ Hk) as Hk_lt.
  set (L := length cities) in *.
  set (k' := if decide (k + L < n)%nat then (k + L)%nat else (k - L)%nat).
  assert (Hk' : (k' < n)%nat /\ k' <> k /\ (k' mod L = k mod L)%nat).
  { unfold k'. destruct (decide (k + L < n)%nat).
    - split; [ lia | split; [ lia | ] ].
      replace (k + L)%nat with (k + 1 * L)%nat by lia.
      apply Nat.Div0.mod_add.
    - split; [ lia | split; [ lia | ] ].
      replace k with ((k - L) + 1 * L)%nat at 2 by lia.
      symmetry. apply Nat.Div0.mod_add. }
  destruct Hk' as (Hlt & Hne & Hmod).
  destruct (lookup_lt_is_Some_2 b k') as [s' Hs']; [ lia | ].
  exists s'. split; [ apply list_elem_of_lookup; eauto | ].
  destruct (make_store_inv _ _ _ _ _ _ (Hat k s Hk)) as (info & Hi & ->).
  destruct (make_store_inv _ _ _ _ _ _ (Hat k' s' Hs')) as (info' & Hi' & ->).
  fold L in Hi, Hi'. rewrite Hmod in Hi'. rewrite Hi in Hi'.
  injection Hi' as <-. cbn [store_id store_name city]. fold L.
  rewrite Hmod. split; [ lia | auto ].
Qed.

(** X3: store ids are pairwise different, but store names are not: the
    number in a store name is the position of the city in its tier's
    list, so every generated store has a namesake, another store with the
    same name and city and a different id. *)
Theorem store_names_are_shared (rng : nat -> draws) :
  exists sts,
    stores_data rng = Some sts /\
    NoDup (store_id <$> sts) /\
    forall s, s ∈ sts ->
      exists s', s' ∈ sts /\ store_id s' <> store_id s /\
                 store_name s' = store_name s /\ city s' = city s.
Proof.
  destruct (stores_data_blocks rng)
    as (b1 & b2 & b3 & Hrun & L1 & L2 & L3 & A1 & A2 & A3).
  destruct (block_ids rng _ _ _ _ _ L1 A1) as [I1 _].
  destruct (block_ids rng _ _ _ _ _ L2 A2) as [I2 _].
  destruct (block_ids rng _ _ _ _ _ L3 A3) as [I3 _].
  exists (b1 ++ b2 ++ b3). split; [ exact Hrun | split ].
  - rewrite !fmap_app, I1, I2, I3.
    change (seq 1 40 ++ seq (1 + 40) 45 ++ seq (1 + 40 + 45) 35)
      with (seq 1 120).
    apply NoDup_seq.
  - intros s. rewrite !elem_of_app. intros [Hs | [Hs | Hs]].
    + destruct (block_namesake rng metro_cities Metro 1 40 b1 L1
                  ltac:(simpl; lia) ltac:(simpl; lia) A1 s Hs)
        as (s' & Hin & Hrest).
      exists s'. rewrite !elem_of_app. auto.
    + destruct (block_namesake rng tier2_cities Tier2 (1 + 40) 45 b2 L2
                  ltac:(simpl; lia) ltac:(simpl; lia) A2 s Hs)
        as (s' & Hin & Hrest).
      exists s'. rewrite !elem_of_app. auto.
    + destruct (block_namesake rng tier3_cities Tier3 (1 + 40 + 45) 35 b3 L3
                  ltac:(simpl; lia) ltac:(simpl; lia) A3 s Hs)
        as (s' & Hin & Hrest).
      exists s'. rewrite !elem_of_app. auto.
Qed.

End StoreGenerator.

(** ** The customer generator *)

Section CustomerGenerator.
Import Customers.

Lemma sample1_elem {A : Type} (rows : list A) (u : Q) (x : A) :
  Pd.sample1 rows u = Some x -> x ∈ rows.
Proof. unfold Pd.sample1. intros H. apply list_elem_of_lookup. eauto. Qed.

Lemma sample1_total {A : Type} (rows : list A) (u : Q) :
  rows <> [] -> Np.unit_sample u ->
  exists x, Pd.sample1 rows u = Some x /\ x ∈ rows.
Proof.
  intros Hne [Hu0 Hu1]. unfold Pd.sample1.
  set (n := Z.of_nat (length rows)).
  assert (Hn : (0 < n)%Z).
  { unfold n. destruct rows; [ congruence | simpl; lia ]. }
  assert (Hw : 0 < inject_Z n).
  { change 0 with (inject_Z 0). rewrite <- Zlt_Qlt. exact Hn. }
  assert (H0 : (0 <= Qfloor (inject_Z n * u))%Z).
  { change 0%Z with (Qfloor 0). apply Qfloor_resp_le. nra. }
  assert (H1 : (Qfloor (inject_Z n * u) < n)%Z).
  { rewrite Zlt_Qlt.
    apply Qle_lt_trans with (inject_Z n * u); [ apply Qfloor_le | nra ]. }
  destruct (lookup_lt_is_Some_2 rows (Z.to_nat (Qfloor (inject_Z n * u))))
    as [x Hx]; [ subst n; lia | ].
  exists x. split; [ exact Hx | ]. apply list_elem_of_lookup. eauto.
Qed.

Ltac weights_sum_to_one i :=
  eapply (choice_total _ _ _ i);
  [ reflexivity | unfold Qle; simpl; lia | simpl; lia | assumption ].

Lemma tier_choice_total (u : Q) :
  u < 1 ->
  exists t, Np.choice [Metro; Tier2; Tier3] [0.55; 0.30; 0.15] u = Some t.
Proof.
  intros Hu.
  assert (H : exists t, Np.choice [Metro; Tier2; Tier3] [0.55; 0.30; 0.15] u
                        = Some t /\ t ∈ [Metro; Tier2; Tier3])
    by weights_sum_to_one 2%nat.
  destruct H as (t & Ht & _). eauto.
Qed.

Lemma demographics_total (t : tier) (d : draws) :
  u_income d < 1 ->
  exists bracket,
    demographics t d = Some (Py.int (d_normal d), bracket) /\
    bracket ∈ brackets_of t.
Proof.
  intros Hu. unfold demographics, brackets_of. destruct t.
  - assert (H : exists x, Np.choice ["25-50K"; "50-75K"; "75K+"]%string
                            [0.3; 0.4; 0.3] (u_income d) = Some x /\
                          x ∈ ["25-50K"; "50-75K"; "75K+"]%string)
      by weights_sum_to_one 2%nat.
    destruct H as (x & -> & Hx). simpl. eauto.
  - assert (H : exists x, Np.choice ["15-25K"; "25-50K"; "50-75K"]%string
                            [0.4; 0.4; 0.2] (u_income d) = Some x /\
                          x ∈ ["15-25K"; "25-50K"; "50-75K"]%string)
      by weights_sum_to_one 2%nat.
    destruct H as (x & -> & Hx). simpl. eauto.
  - assert (H : exists x, Np.choice ["10-15K"; "15-25K"; "25-50K"]%string
                            [0.5; 0.4; 0.1] (u_income d) = Some x /\
                          x ∈ ["10-15K"; "15-25K"; "25-50K"]%string)
      by weights_sum_to_one 2%nat.
    destruct H as (x & -> & Hx). simpl. eauto.
Qed.

Lemma demographics_bracket (t : tier) (d : draws) (a : Z) (bracket : string) :
  demographics t d = Some (a, bracket) -> bracket ∈ brackets_of t.
Proof.
  unfold demographics, brackets_of. destruct t;
    (destruct (Np.choice _ _ (u_income d)) as [x |] eqn:Hx;
       simpl; [ | discriminate ]);
    intros H; injection H as _ <-; apply (choice_elem _ _ _ _ Hx).
Qed.

(** What a successful run of the loop body assigned. *)
Lemma make_customer_inv (stores : list Stores.store) (i : nat) (d : draws)
    (c : customer) :
  make_customer stores i d = Some c ->
  exists s a,
    Np.choice [Metro; Tier2; Tier3] [0.55; 0.30; 0.15] (u_tier d)
      = Some (region_tier c) /\
    s ∈ stores /\ Stores.region_tier s = region_tier c /\
    primary_store_id c = Stores.store_id s /\
    demographics (region_tier c) d = Some (a, income_bracket c) /\
    customer_id c = i /\
    age c = Z.max 18 (Z.min a 70) /\
    digital_literacy_score c
      = (if decide (region_tier c = Metro)
         then Np.uniform 4 10 (u_literacy d)
         else Np.uniform 3 8 (u_literacy d)) /\
    registration_date c
      = Dates.plus_days (Dates.datetime 2023 1 1)
          (Np.randint 0 450 (u_registration d)).
Proof.
  unfold make_customer. intros H.
  destruct (Np.choice _ _ (u_tier d)) as [t |] eqn:Ht;
    cbn [mbind option_bind] in H; [ | discriminate ].
  destruct (Pd.sample1 _ (u_store d)) as [s |] eqn:Hs;
    cbn [mbind option_bind] in H; [ | discriminate ].
  destruct (demographics t d) as [[a bracket] |] eqn:Hd;
    cbn [mbind option_bind] in H; [ | discriminate ].
  injection H as <-. cbn [region_tier primary_store_id income_bracket
    customer_id age digital_literacy_score registration_date].
  apply sample1_elem in Hs. apply list_elem_of_filter in Hs as [Hst Hin].
  exists s, a. auto 10.
Qed.

Lemma make_customer_total (stores : list Stores.store) (i : nat) (d : draws) :
  tiers_covered stores -> admissible d ->
  exists c, make_customer stores i d = Some c.
Proof.
  intros Hcov (Ht & Hs & Hi & _ & _).
  destruct (tier_choice_total (u_tier d) (proj2 Ht)) as [t Hch].
  assert (Hne : filter (fun s => Stores.region_tier s = t) stores <> []).
  { destruct (Hcov t) as (s & Hin & Hst).
    intros E. assert (Hs' : s ∈ filter (fun s => Stores.region_tier s = t) stores)
      by (apply list_elem_of_filter; auto).
    rewrite E in Hs'. apply elem_of_nil in Hs'. exact Hs'. }
  destruct (sample1_total _ (u_store d) Hne Hs) as (s & Hsam & _).
  destruct (demographics_total t d (proj2 Hi)) as (bracket & Hdem & _).
  unfold make_customer. rewrite Hch. cbn [mbind option_bind].
  rewrite Hsam. cbn [mbind option_bind]. rewrite Hdem.
  cbn [mbind option_bind]. eauto.
Qed.

Lemma sample_stores_covered : tiers_covered sample_stores.
Proof.
  intros t. unfold sample_stores. destruct t; eexists.
  - split; [ left | reflexivity ].
  - split; [ right; left | reflexivity ].
  - split; [ right; right; left | reflexivity ].
Qed.

Lemma sample_customer_draws_admissible : admissible sample_customer_draws.
Proof.
  unfold admissible, Np.unit_sample. simpl.
  repeat split; unfold Qle, Qlt; simpl; lia.
Qed.

(** X4: when every tier has a store, the customer loop body succeeds
    for admissible samples, whatever the normal sample is, and the
    customer has the loop index as id, an age between 18 and 70, a
    digital-literacy score from 4 to 10 for Metro and from 3 to 8
    otherwise, both ends included, and a registration date from 2023-01-01 to 2024-03-25, that is 189 to
    638 days before the cutoff of 2024-09-30. *)
Theorem customer_profile (stores : list Stores.store) (i : nat) (d : draws) :
  tiers_covered stores -> admissible d ->
  exists c,
    make_customer stores i d = Some c /\
    customer_id c = i /\
    (18 <= age c <= 70)%Z /\
    (region_tier c = Metro ->
       4 <= digital_literacy_score c /\ digital_literacy_score c <= 10) /\
    (region_tier c <> Metro ->
       3 <= digital_literacy_score c /\ digital_literacy_score c <= 8) /\
    (Dates.datetime 2023 1 1 <= registration_date c
       <= Dates.datetime 2024 3 25)%Z /\
    (189 <= days_since_registration c <= 638)%Z.
Proof.
  intros Hcov Hadm.
  destruct (make_customer_total stores i d Hcov Hadm) as [c Hc].
  exists c. split; [ exact Hc | ].
  destruct (make_customer_inv _ _ _ _ Hc)
    as (s & a & _ & _ & _ & _ & _ & Hid & Hage & Hlit & Hreg).
  destruct Hadm as (_ & _ & _ & Hl & Hr).
  pose proof (randint_bounds 0 450 (u_registration d) ltac:(lia) Hr) as Hb.
  unfold days_since_registration, Dates.days_between.
  rewrite Hreg, Hlit, Hage. unfold Dates.plus_days.
  change (Dates.datetime 2023 1 1) with 738521%Z.
  change (Dates.datetime 2024 3 25) with 738970%Z.
  change (Dates.datetime 2024 9 30) with 739159%Z.
  split; [ exact Hid | split; [ lia | ] ].
  split; [ | split; [ | lia ] ].
  - intros E. destruct (decide (region_tier c = Metro)); [ | contradiction ].
    apply uniform_range; [ reflexivity | exact Hl ].
  - intros E. destruct (decide (region_tier c = Metro)); [ contradiction | ].
    apply uniform_range; [ reflexivity | exact Hl ].
Qed.

Lemma customer_profile_witness :
  exists c,
    make_customer sample_stores 7 sample_customer_draws = Some c /\
    customer_id c = 7%nat /\
    (18 <= age c <= 70)%Z /\
    (region_tier c = Metro ->
       4 <= digital_literacy_score c /\ digital_literacy_score c <= 10) /\
    (region_tier c <> Metro ->
       3 <= digital_literacy_score c /\ digital_literacy_score c <= 8) /\
    (Dates.datetime 2023 1 1 <= registration_date c
       <= Dates.datetime 2024 3 25)%Z /\
    (189 <= days_since_registration c <= 638)%Z.
Proof.
  apply (customer_profile sample_stores 7 sample_customer_draws).
  - exact sample_stores_covered.
  - exact sample_customer_draws_admissible.
Defined.

Lemma income_mapping_codes (t : tier) (bracket : string) :
  bracket ∈ brackets_of t ->
  exists code, income_mapping !! bracket = Some code /\
               code ∈ income_codes_of t.
Proof.
  unfold brackets_of, income_codes_of. destruct t;
    rewrite !elem_of_cons, elem_of_nil;
    intros [-> | [-> | [-> | []]]];
    eexists; (split; [ vm_compute; reflexivity | ]);
    rewrite !elem_of_cons; auto.
Qed.

(** X6: the income bracket of a generated customer is one of the three
    brackets of its tier, and [income_mapping] has a code for it, so the
    income code of the lifetime-value model is never missing: 3 to 5 for
    Metro, 2 to 4 for Tier 2, 1 to 3 for Tier 3. *)
Theorem income_code_defined (stores : list Stores.store) (i : nat)
    (d : draws) :
  tiers_covered stores -> admissible d ->
  exists c code,
    make_customer stores i d = Some c /\
    income_bracket c ∈ brackets_of (region_tier c) /\
    income_code c = Some code /\
    code ∈ income_codes_of (region_tier c) /\
    (1 <= code <= 5)%Z.
Proof.
  intros Hcov Hadm.
  destruct (make_customer_total stores i d Hcov Hadm) as [c Hc].
  destruct (make_customer_inv _ _ _ _ Hc)
    as (s & a & _ & _ & _ & _ & Hdem & _).
  pose proof (demographics_bracket _ _ _ _ Hdem) as Hin.
  destruct (income_mapping_codes _ _ Hin) as (code & Hcode & Hset).
  exists c, code. split; [ exact Hc | split; [ exact Hin | ] ].
  split; [ exact Hcode | split; [ exact Hset | ] ].
  revert Hset. unfold income_codes_of.
  destruct (region_tier c); rewrite !elem_of_cons, elem_of_nil; lia.
Qed.

Lemma income_code_defined_witness :
  exists c code,
    make_customer sample_stores 7 sample_customer_draws = Some c /\
    income_bracket c ∈ brackets_of (region_tier c) /\
    income_code c = Some code /\
    code ∈ income_codes_of (region_tier c) /\
    (1 <= code <= 5)%Z.
Proof.
  apply (income_code_defined sample_stores 7 sample_customer_draws).
  - exact sample_stores_covered.
  - exact sample_customer_draws_admissible.
Defined.

Lemma generated_stores_covered (rng : nat -> Stores.draws)
    (stores : list Stores.store) :
  Stores.stores_data rng = Some stores -> tiers_covered stores.
Proof.
  intros Hrun.
  destruct (stores_data_blocks rng)
    as (b1 & b2 & b3 & Hrun' & L1 & L2 & L3 & A1 & A2 & A3).
  rewrite Hrun in Hrun'. injection Hrun' as ->.
  intros t. destruct t.
  - destruct (lookup_lt_is_Some_2 b1 0) as [s Hs]; [ lia | ].
    exists s. split; [ rewrite !elem_of_app; left;
                       apply list_elem_of_lookup; eauto | ].
    destruct (make_store_inv _ _ _ _ _ _ (A1 0%nat s Hs)) as (? & _ & ->).
    reflexivity.
  - destruct (lookup_lt_is_Some_2 b2 0) as [s Hs]; [ lia | ].
    exists s. split; [ rewrite !elem_of_app; right; left;
                       apply list_elem_of_lookup; eauto | ].
    destruct (make_store_inv _ _ _ _ _ _ (A2 0%nat s Hs)) as (? & _ & ->).
    reflexivity.
  - destruct (lookup_lt_is_Some_2 b3 0) as [s Hs]; [ lia | ].
    exists s. split; [ rewrite !elem_of_app; right; right;
                       apply list_elem_of_lookup; eauto | ].
    destruct (make_store_inv _ _ _ _ _ _ (A3 0%nat s Hs)) as (? & _ & ->).
    reflexivity.
Qed.

Lemma mapM_elem {A B : Type} (f : A -> option B) (xs : list A)
    (ys : list B) (y : B) :
  mapM f xs = Some ys -> y ∈ ys -> exists x, x ∈ xs /\ f x = Some y.
Proof.
  intros H Hy. apply mapM_Some_1 in H.
  induction H as [| x y' xs ys Hxy _ IH].
  - apply elem_of_nil in Hy. contradiction.
  - apply elem_of_cons in Hy as [-> | Hy].
    + exists x. split; [ left | exact Hxy ].
    + destruct (IH Hy) as (x' & Hx' & Hf). exists x'. split; [ right | ]; auto.
Qed.

Lemma customers_data_total (stores : list Stores.store)
    (rng : nat -> draws) :
  tiers_covered stores -> (forall n, admissible (rng n)) ->
  exists customers,
    customers_data stores rng = Some customers /\
    customer_id <$> customers = seq 1 n_customers.
Proof.
  intros Hcov Hrng. unfold customers_data.
  destruct (mapM_is_Some_2 (fun i => make_customer stores i (rng i))
              (seq 1 n_customers)) as [customers Hrun].
  { apply Forall_forall. intros i _. unfold compose.
    destruct (make_customer_total stores i (rng i) Hcov (Hrng i)) as [c ->].
    eauto. }
  exists customers. split; [ exact Hrun | ].
  apply (mapM_fmap_Some_inv _ _ _ _ Hrun).
  intros i c Hc.
  destruct (make_customer_inv _ _ _ _ Hc) as (? & ? & _ & _ & _ & _ & _ & E & _).
  exact E.
Qed.

(** X5: over the generated stores the customer generator never fails;
    it returns 15000 customers numbered 1 to 15000, and the primary store
    of every customer is a store of the table that lies in the customer's
    own tier. *)
Theorem customers_reference_stores (rs : nat -> Stores.draws)
    (rc : nat -> draws) :
  (forall n, admissible (rc n)) ->
  exists stores customers,
    Stores.stores_data rs = Some stores /\
    customers_data stores rc = Some customers /\
    length customers = n_customers /\
    customer_id <$> customers = seq 1 n_customers /\
    forall c, c ∈ customers ->
      exists s, s ∈ stores /\
                Stores.store_id s = primary_store_id c /\
                Stores.region_tier s = region_tier c.
Proof.
  intros Hrc.
  destruct (stores_data_blocks rs) as (b1 & b2 & b3 & Hstores & _).
  pose proof (generated_stores_covered rs _ Hstores) as Hcov.
  destruct (customers_data_total _ rc Hcov Hrc) as (customers & Hrun & Hids).
  exists (b1 ++ b2 ++ b3), customers.
  split; [ exact Hstores | split; [ exact Hrun | ] ].
  split; [ | split; [ exact Hids | ] ].
  - rewrite <- (length_fmap customer_id), Hids. apply length_seq.
  - intros c Hc.
    destruct (mapM_elem _ _ _ _ Hrun Hc) as (i & _ & Hmk).
    destruct (make_customer_inv _ _ _ _ Hmk)
      as (s & a & _ & Hin & Hst & Hid & _).
    exists s. auto.
Qed.

Lemma customers_reference_stores_witness :
  exists stores customers,
    Stores.stores_data (fun _ => sample_store_draws) = Some stores /\
    customers_data stores (fun _ => sample_customer_draws) = Some customers /\
    length customers = n_customers /\
    customer_id <$> customers = seq 1 n_customers /\
    forall c, c ∈ customers ->
      exists s, s ∈ stores /\
                Stores.store_id s = primary_store_id c /\
                Stores.region_tier s = region_tier c.
Proof.
  apply (customers_reference_stores (fun _ => sample_store_draws)
           (fun _ => sample_customer_draws)).
  intros _. exact sample_customer_draws_admissible.
Defined.

End CustomerGenerator.

(** ** The transaction loop *)

Section TransactionLoopFacts.
Import TransactionLoop.

Lemma first_row_elem {A : Type} (P : A -> Prop)
    `{!forall x, Decision (P x)} (rows : list A) (x : A) :
  Pd.first_row P rows = Some x -> x ∈ rows /\ P x.
Proof.
  unfold Pd.first_row. intros Hrow.
  assert (Hin : x ∈ filter P rows).
  { destruct (filter P rows) as [| y l]; [ discriminate | ].
    injection Hrow as ->. left. }
  apply list_elem_of_filter in Hin. tauto.
Qed.

Lemma first_row_total {A : Type} (P : A -> Prop)
    `{!forall x, Decision (P x)} (rows : list A) (x : A) :
  x ∈ rows -> P x -> exists y, Pd.first_row P rows = Some y.
Proof.
  intros Hin HP. unfold Pd.first_row.
  assert (Hf : x ∈ filter P rows) by (apply list_elem_of_filter; auto).
  destruct (filter P rows) as [| y l]; [ | simpl; eauto ].
  apply elem_of_nil in Hf. contradiction.
Qed.

Lemma filter_nonempty {A : Type} (P : A -> Prop)
    `{!forall x, Decision (P x)} (rows : list A) (x : A) :
  x ∈ rows -> P x -> filter P rows <> [].
Proof.
  intros Hin HP E.
  assert (Hf : x ∈ filter P rows) by (apply list_elem_of_filter; auto).
  rewrite E in Hf. apply elem_of_nil in Hf. exact Hf.
Qed.

Lemma select_store_spec (stores : list Stores.store)
    (customer : Customers.customer) (p : picks) :
  (exists s, s ∈ stores /\
             Stores.store_id s = Customers.primary_store_id customer /\
             Stores.region_tier s = Customers.region_tier customer) ->
  Np.unit_sample (u_store p) ->
  exists s, select_store stores customer p = Some s /\ s ∈ stores /\
            (Stores.store_id s = Customers.primary_store_id customer \/
             Stores.region_tier s = Customers.region_tier customer).
Proof.
  intros (s0 & Hin & Hid & Hst) Hu. unfold select_store.
  destruct (Qlt_le_dec (u_primary p) 0.8).
  - destruct (first_row_total
                (fun s => Stores.store_id s
                          = Customers.primary_store_id customer)
                stores s0 Hin Hid) as [s Hs].
    exists s. split; [ exact Hs | ].
    apply first_row_elem in Hs. tauto.
  - destruct (sample1_total
                (filter (fun s => Stores.region_tier s
                                  = Customers.region_tier customer) stores)
                (u_store p)) as (s & Hs & Hf); [ | exact Hu | ].
    + exact (filter_nonempty _ _ s0 Hin Hst).
    + exists s. split; [ exact Hs | ].
      apply list_elem_of_filter in Hf. tauto.
Qed.

Lemma select_product_spec (products : list product) (t : tier) (p : picks) :
  (exists x, x ∈ products /\ discretionary x) ->
  (exists x, x ∈ products /\ ~ discretionary x) ->
  Np.unit_sample (u_product p) ->
  exists x,
    select_product products t p = Some x /\ x ∈ products /\
    (t = Tier2 -> (discretionary x <-> u_category p < 0.2)) /\
    (t = Tier3 -> (discretionary x <-> u_category p < 0.1)).
Proof.
  intros (xd & Hxd & Hd) (xe & Hxe & He) Hu. unfold select_product.
  pose proof (filter_nonempty discretionary products xd Hxd Hd) as Nd.
  pose proof (filter_nonempty (fun x => ~ discretionary x) products xe Hxe He)
    as Ne.
  destruct t.
  - destruct (sample1_total products (u_product p)) as (x & Hx & Hin);
      [ intros E; rewrite E in Hxd; apply elem_of_nil in Hxd; exact Hxd
      | exact Hu | ].
    exists x. split; [ exact Hx | split; [ exact Hin | ] ].
    split; discriminate.
  - destruct (Qlt_le_dec (u_category p) 0.2) as [Hlt | Hge].
    + destruct (sample1_total _ (u_product p) Nd Hu) as (x & Hx & Hin).
      apply list_elem_of_filter in Hin as [HP Hin].
      exists x. split; [ exact Hx | split; [ exact Hin | ] ].
      split; [ tauto | discriminate ].
    + destruct (sample1_total _ (u_product p) Ne Hu) as (x & Hx & Hin).
      apply list_elem_of_filter in Hin as [HP Hin].
      exists x. split; [ exact Hx | split; [ exact Hin | ] ].
      split; [ | discriminate ].
      intros _. split; [ contradiction | lra ].
  - destruct (Qlt_le_dec (u_category p) 0.1) as [Hlt | Hge].
    + destruct (sample1_total _ (u_product p) Nd Hu) as (x & Hx & Hin).
      apply list_elem_of_filter in Hin as [HP Hin].
      exists x. split; [ exact Hx | split; [ exact Hin | ] ].
      split; [ discriminate | tauto ].
    + destruct (sample1_total _ (u_product p) Ne Hu) as (x & Hx & Hin).
      apply list_elem_of_filter in Hin as [HP Hin].
      exists x. split; [ exact Hx | split; [ exact Hin | ] ].
      split; [ discriminate | ].
      intros _. split; [ contradiction | lra ].
Qed.

Lemma transaction_date_spec (customer : Customers.customer) (p : picks) :
  Np.unit_sample (u_days_back p) ->
  (0 < Customers.days_since_registration customer)%Z ->
  exists date,
    transaction_date_of customer p = Some date /\
    (Customers.registration_date customer < date <= cutoff)%Z /\
    (cutoff - 365 < date)%Z.
Proof.
  intros Hu Hpos. unfold transaction_date_of, randint_checked.
  unfold Customers.days_since_registration, Dates.days_between in *.
  fold cutoff in *.
  set (hi := Z.min (cutoff - Customers.registration_date customer) 365).
  assert (Hmin : (hi <= 365 /\
                  hi <= cutoff - Customers.registration_date customer /\
                  0 < hi)%Z) by (unfold hi; lia).
  clearbody hi.
  destruct (decide (0 < hi)%Z) as [Hhi | Hhi]; [ | lia ].
  pose proof (randint_bounds 0 hi (u_days_back p) Hhi Hu) as Hb.
  cbn [mbind option_bind]. eexists; split; [ reflexivity | ].
  unfold Dates.minus_days. fold cutoff. lia.
Qed.

(** X7: for a customer registered before the cutoff the transaction
    date is defined, lies strictly after the registration date, not
    after the cutoff, and less than 365 days before it; for a customer
    registered on the cutoff day or later [randint] gets an empty range
    and the iteration fails. *)
Theorem transaction_date_window (customer : Customers.customer)
    (p : picks) :
  Np.unit_sample (u_days_back p) ->
  ((0 < Customers.days_since_registration customer)%Z ->
     exists date,
       transaction_date_of customer p = Some date /\
       (Customers.registration_date customer < date <= cutoff)%Z /\
       (cutoff - 365 < date)%Z) /\
  ((Customers.days_since_registration customer <= 0)%Z ->
     transaction_date_of customer p = None).
Proof.
  intros Hu. split.
  - apply transaction_date_spec. exact Hu.
  - intros Hle. unfold transaction_date_of, randint_checked.
    unfold Customers.days_since_registration in Hle.
    destruct (decide _) as [Hlt | _]; [ lia | reflexivity ].
Qed.

Lemma transaction_date_window_witness :
  ((0 < Customers.days_since_registration sample_customer)%Z ->
     exists date,
       transaction_date_of sample_customer sample_picks = Some date /\
       (Customers.registration_date sample_customer < date <= cutoff)%Z /\
       (cutoff - 365 < date)%Z) /\
  ((Customers.days_since_registration sample_customer <= 0)%Z ->
     transaction_date_of sample_customer sample_picks = None).
Proof.
  apply (transaction_date_window sample_customer sample_picks).
  split; unfold Qle, Qlt; simpl; lia.
Defined.

Lemma items_loop_categories (rng : nat -> Products.draws)
    (details : category_spec) (its : list string)
    (st st' : Products.gen_state) :
  Products.items_loop rng details its st = Some st' ->
  exists ps,
    snd st' = snd st ++ ps /\ length ps = length its /\
    Forall (fun x => category x = cat_name details) ps.
Proof.
  revert st. induction its as [| item its IH]; intros [n acc]; simpl.
  - intros E. injection E as <-. exists []. rewrite app_nil_r. auto.
  - destruct (Products.make_product n details item (rng n)) as [x |] eqn:Hx;
      cbn [mbind option_bind]; [ | discriminate ].
    intros Hrun. destruct (IH _ Hrun) as (ps & Hsnd & Hlen & Hall).
    exists (x :: ps). simpl in *. split; [ | split ].
    + rewrite Hsnd, <- app_assoc. reflexivity.
    + lia.
    + constructor; [ | exact Hall ].
      apply (make_product_name _ _ _ _ _ Hx).
Qed.

Lemma categories_loop_categories (rng : nat -> Products.draws)
    (cats : list category_spec) (st st' : Products.gen_state) :
  Products.categories_loop rng cats st = Some st' ->
  exists ps,
    snd st' = snd st ++ ps /\
    (forall details, details ∈ cats -> items details <> [] ->
       exists x, x ∈ ps /\ category x = cat_name details).
Proof.
  revert st. induction cats as [| details cats IH]; intros st; simpl.
  - intros E. injection E as <-. exists []. rewrite app_nil_r.
    split; [ reflexivity | ]. intros d Hd. apply elem_of_nil in Hd.
    contradiction.
  - destruct (Products.items_loop rng details (items details) st)
      as [st1 |] eqn:H1; cbn [mbind option_bind]; [ | discriminate ].
    intros Hrun.
    destruct (items_loop_categories _ _ _ _ _ H1) as (ps1 & S1 & L1 & A1).
    destruct (IH _ Hrun) as (ps2 & S2 & A2).
    exists (ps1 ++ ps2). split.
    + rewrite S2, S1, <- app_assoc. reflexivity.
    + intros d Hd Hne. apply elem_of_cons in Hd as [-> | Hd].
      * destruct ps1 as [| x ps1'].
        -- destruct (items details); [ congruence | discriminate ].
        -- exists x. split; [ left | ].
           apply Forall_cons in A1 as [E _]. exact E.
      * destruct (A2 d Hd Hne) as (x & Hx & E).
        exists x. split; [ apply elem_of_app; auto | exact E ].
Qed.

Lemma catalogue_has_both_kinds (rng : nat -> Products.draws)
    (products : list product) :
  Products.products_data rng = Some products ->
  (exists x, x ∈ products /\ discretionary x) /\
  (exists x, x ∈ products /\ ~ discretionary x).
Proof.
  unfold Products.products_data. intros H.
  destruct (Products.categories_loop rng product_categories (1%nat, []))
    as [st' |] eqn:Hrun; [ | discriminate ].
  injection H as <-.
  destruct (categories_loop_categories _ _ _ _ Hrun) as (ps & Hsnd & Hcat).
  rewrite Hsnd. cbn [snd app]. split.
  - destruct (Hcat
      {| cat_name := "Electronics";
         items := ["Mobile Phones"; "TWS Earbuds"; "Phone Chargers";
                   "Power Banks"; "Smart Watches"]%string;
         cost_range := (500, 15000); margin_range := (8, 15);
         perishable := false |}) as (x & Hx & E).
    + unfold product_categories. do 5 right. left.
    + discriminate.
    + exists x. split; [ exact Hx | ]. unfold discretionary. rewrite E.
      left.
  - destruct (Hcat
      {| cat_name := "Groceries";
         items := ["Basmati Rice 5kg"; "Wheat Flour 10kg"; "Sunflower Oil 1L";
                   "Sugar 1kg"; "Toor Dal 1kg"; "Spices Mix"]%string;
         cost_range := (40, 250); margin_range := (12, 20);
         perishable := false |}) as (x & Hx & E).
    + unfold product_categories. left.
    + discriminate.
    + exists x. split; [ exact Hx | ]. unfold discretionary. rewrite E.
      rewrite !elem_of_cons, elem_of_nil. intros [H | [H | []]];
        discriminate H.
Qed.

Lemma products_data_total (rng : nat -> Products.draws) :
  (forall n, Products.admissible (rng n)) ->
  exists products, Products.products_data rng = Some products.
Proof.
  intros Hrng.
  destruct (categories_loop_spec rng Hrng product_categories (1%nat, [])
              product_categories_well_ranged) as (ps & Hrun & _).
  unfold Products.products_data. rewrite Hrun. simpl. eauto.
Qed.

(** X9: on the generated catalogue the product selection never fails
    and returns a product of the catalogue; for Tier 2 it is an
    Electronics or Fashion product exactly when the category sample is
    below 0.2, for Tier 3 exactly when it is below 0.1. *)
Theorem product_selection_follows_tier (rp : nat -> Products.draws)
    (t : tier) (p : picks) :
  (forall n, Products.admissible (rp n)) -> Np.unit_sample (u_product p) ->
  exists products x,
    Products.products_data rp = Some products /\
    select_product products t p = Some x /\ x ∈ products /\
    (t = Tier2 -> (discretionary x <-> u_category p < 0.2)) /\
    (t = Tier3 -> (discretionary x <-> u_category p < 0.1)).
Proof.
  intros Hrp Hu.
  destruct (products_data_total rp Hrp) as [products Hp].
  destruct (catalogue_has_both_kinds rp products Hp) as [Hd He].
  destruct (select_product_spec products t p Hd He Hu) as (x & Hx).
  exists products, x. tauto.
Qed.

Lemma product_selection_follows_tier_witness :
  exists products x,
    Products.products_data (fun _ => sample_product_draws) = Some products /\
    select_product products Tier2 sample_picks = Some x /\ x ∈ products /\
    (Tier2 = Tier2 -> (discretionary x <-> u_category sample_picks < 0.2)) /\
    (Tier2 = Tier3 -> (discretionary x <-> u_category sample_picks < 0.1)).
Proof.
  apply (product_selection_follows_tier (fun _ => sample_product_draws)
           Tier2 sample_picks).
  - intros _. unfold Products.admissible, Np.unit_sample. simpl.
    repeat split; unfold Qle, Qlt; simpl; lia.
  - split; unfold Qle, Qlt; simpl; lia.
Defined.

Lemma NoDup_fmap_eq {A B : Type} (f : A -> B) (l : list A) (x y : A) :
  NoDup (f <$> l) -> x ∈ l -> y ∈ l -> f x = f y -> x = y.
Proof.
  induction l as [| z l IH]; intros Hnd Hx Hy E.
  - apply elem_of_nil in Hx. contradiction.
  - rewrite fmap_cons in Hnd. apply NoDup_cons in Hnd as [Hz Hnd].
    apply elem_of_cons in Hx as [-> | Hx];
      apply elem_of_cons in Hy as [-> | Hy].
    + reflexivity.
    + exfalso. apply Hz. rewrite E. apply list_elem_of_fmap. eauto.
    + exfalso. apply Hz. rewrite <- E. apply list_elem_of_fmap. eauto.
    + auto.
Qed.

Lemma generated_tables_consistent (rs : nat -> Stores.draws)
    (rp : nat -> Products.draws) (rc : nat -> Customers.draws)
    (stores : list Stores.store) (products : list product)
    (customers : list Customers.customer) :
  (forall n, Customers.admissible (rc n)) ->
  Stores.stores_data rs = Some stores ->
  Products.products_data rp = Some products ->
  Customers.customers_data stores rc = Some customers ->
  tables_consistent stores products customers.
Proof.
  intros Hrc Hs Hp Hc.
  pose proof (generated_stores_covered rs stores Hs) as Hcov.
  destruct (catalogue_has_both_kinds rp products Hp) as [Hd He].
  destruct (customers_data_total stores rc Hcov Hrc) as (cs & Hcs & Hids).
  rewrite Hc in Hcs. injection Hcs as <-.
  constructor; try assumption.
  - destruct (stores_data_blocks rs)
      as (b1 & b2 & b3 & Hrun & L1 & L2 & L3 & A1 & A2 & A3).
    rewrite Hs in Hrun. injection Hrun as ->.
    destruct (block_ids rs _ _ _ _ _ L1 A1) as [I1 _].
    destruct (block_ids rs _ _ _ _ _ L2 A2) as [I2 _].
    destruct (block_ids rs _ _ _ _ _ L3 A3) as [I3 _].
    rewrite !fmap_app, I1, I2, I3.
    change (seq 1 40 ++ seq (1 + 40) 45 ++ seq (1 + 40 + 45) 35)
      with (seq 1 120).
    apply NoDup_seq.
  - intros E.
    assert (Hl : length customers = Customers.n_customers).
    { rewrite <- (length_fmap Customers.customer_id), Hids.
      apply length_seq. }
    rewrite E in Hl. cbn [length] in Hl.
    unfold Customers.n_customers in Hl. lia.
  - intros c Hin.
    destruct (mapM_elem _ _ _ _ Hc Hin) as (i & _ & Hmk).
    destruct (make_customer_inv _ _ _ _ Hmk)
      as (s & a & _ & Hs' & Hst & Hid & _).
    exists s. auto.
  - intros c Hin.
    destruct (mapM_elem _ _ _ _ Hc Hin) as (i & _ & Hmk).
    destruct (make_customer_inv _ _ _ _ Hmk)
      as (s & a & _ & _ & _ & _ & _ & _ & _ & _ & Hreg).
    destruct (Hrc i) as (_ & _ & _ & _ & Hr).
    pose proof (randint_bounds 0 450 _ ltac:(lia) Hr) as Hb.
    unfold Customers.days_since_registration, Dates.days_between.
    rewrite Hreg. unfold Dates.plus_days.
    change (Dates.datetime 2023 1 1) with 738521%Z.
    change (Dates.datetime 2024 9 30) with 739159%Z. lia.
Qed.

(** One iteration over consistent tables. *)
Lemma iteration_spec (stores : list Stores.store) (products : list product)
    (customers : list Customers.customer) (i : nat) (p : picks)
    (d : Transactions.draws) :
  tables_consistent stores products customers -> admissible p ->
  Transactions.d_discount d < 1 -> Transactions.d_payment d < 1 ->
  exists r,
    iteration stores products customers i p d = Some r /\
    transaction_id r = i /\
    (exists c, c ∈ customers /\
       Customers.customer_id c = customer_id r /\
       Customers.region_tier c = Transactions.region_tier (row r) /\
       (Customers.registration_date c < transaction_date r <= cutoff)%Z) /\
    (exists s, s ∈ stores /\
       Stores.store_id s = store_id r /\
       Stores.region_tier s = Transactions.region_tier (row r)) /\
    (exists x, x ∈ products /\
       product_id x = Transactions.txn_product_id (row r) /\
       is_perishable x = Transactions.txn_is_perishable (row r)).
Proof.
  intros [Hcov Hnd Hne Hprim Hreg Hd He] (Hc & _ & Hs & _ & Hp & Hb) Hdd Hdp.
  destruct (sample1_total customers (u_customer p) Hne Hc) as (c & Hsc & Hin).
  destruct (select_store_spec stores c p (Hprim c Hin) Hs)
    as (s & Hss & Hsin & Hsor).
  destruct (select_product_spec products (Customers.region_tier c) p Hd He Hp)
    as (x & Hsx & Hxin & _).
  destruct (transaction_row_total (Customers.region_tier c) x d Hdd Hdp)
    as (l & _ & Hrow).
  destruct (transaction_date_spec c p Hb (Hreg c Hin)) as (date & Hdate & Hw & _).
  unfold iteration. rewrite Hsc. cbn [mbind option_bind].
  rewrite Hss. cbn [mbind option_bind]. rewrite Hsx. cbn [mbind option_bind].
  rewrite Hrow. cbn [mbind option_bind]. rewrite Hdate.
  cbn [mbind option_bind].
  eexists. split; [ reflexivity | ].
  cbn [transaction_id customer_id store_id row transaction_date
       Transactions.store_row Transactions.region_tier
       Transactions.txn_product_id Transactions.txn_is_perishable].
  split; [ reflexivity | split; [ | split ] ].
  - exists c. auto.
  - exists s. split; [ exact Hsin | split; [ reflexivity | ] ].
    destruct Hsor as [Hid | Hst]; [ | exact Hst ].
    destruct (Hprim c Hin) as (s0 & Hs0 & Hid0 & Hst0).
    assert (s = s0) as ->; [ | exact Hst0 ].
    apply (NoDup_fmap_eq Stores.store_id stores); auto. congruence.
  - exists x. auto.
Qed.

(** X8: over generated stores, products and customers one iteration of
    the transaction loop never fails, and the row it stores refers to a
    customer of the table whose tier is the row's tier and who registered
    before the transaction date, to a store of the table in that same
    tier, and to a product of the catalogue whose perishable flag it
    copies. *)
Theorem iteration_on_generated_tables (rs : nat -> Stores.draws)
    (rp : nat -> Products.draws) (rc : nat -> Customers.draws) (i : nat)
    (p : picks) (d : Transactions.draws) :
  (forall n, Products.admissible (rp n)) ->
  (forall n, Customers.admissible (rc n)) ->
  admissible p ->
  Transactions.d_discount d < 1 -> Transactions.d_payment d < 1 ->
  exists stores products customers r,
    Stores.stores_data rs = Some stores /\
    Products.products_data rp = Some products /\
    Customers.customers_data stores rc = Some customers /\
    iteration stores products customers i p d = Some r /\
    transaction_id r = i /\
    (exists c, c ∈ customers /\
       Customers.customer_id c = customer_id r /\
       Customers.region_tier c = Transactions.region_tier (row r) /\
       (Customers.registration_date c < transaction_date r <= cutoff)%Z) /\
    (exists s, s ∈ stores /\
       Stores.store_id s = store_id r /\
       Stores.region_tier s = Transactions.region_tier (row r)) /\
    (exists x, x ∈ products /\
       product_id x = Transactions.txn_product_id (row r) /\
       is_perishable x = Transactions.txn_is_perishable (row r)).
Proof.
  intros Hrp Hrc Hp Hdd Hdp.
  destruct (stores_data_blocks rs) as (b1 & b2 & b3 & Hs & _).
  destruct (products_data_total rp Hrp) as [products Hprod].
  destruct (customers_data_total (b1 ++ b2 ++ b3) rc
              (generated_stores_covered rs _ Hs) Hrc) as (customers & Hc & _).
  pose proof (generated_tables_consistent rs rp rc _ _ _ Hrc Hs Hprod Hc)
    as Hcons.
  destruct (iteration_spec _ _ _ i p d Hcons Hp Hdd Hdp) as (r & Hr).
  exists (b1 ++ b2 ++ b3), products, customers, r. tauto.
Qed.

Lemma iteration_on_generated_tables_witness :
  exists stores products customers r,
    Stores.stores_data (fun _ => sample_store_draws) = Some stores /\
    Products.products_data (fun _ => sample_product_draws) = Some products /\
    Customers.customers_data stores (fun _ => sample_customer_draws)
      = Some customers /\
    iteration stores products customers 1 sample_picks sample_txn_draws
      = Some r /\
    transaction_id r = 1%nat /\
    (exists c, c ∈ customers /\
       Customers.customer_id c = customer_id r /\
       Customers.region_tier c = Transactions.region_tier (row r) /\
       (Customers.registration_date c < transaction_date r <= cutoff)%Z) /\
    (exists s, s ∈ stores /\
       Stores.store_id s = store_id r /\
       Stores.region_tier s = Transactions.region_tier (row r)) /\
    (exists x, x ∈ products /\
       product_id x = Transactions.txn_product_id (row r) /\
       is_perishable x = Transactions.txn_is_perishable (row r)).
Proof.
  apply (iteration_on_generated_tables (fun _ => sample_store_draws)
           (fun _ => sample_product_draws) (fun _ => sample_customer_draws)
           1 sample_picks sample_txn_draws).
  - intros _. unfold Products.admissible, Np.unit_sample. simpl.
    repeat split; unfold Qle, Qlt; simpl; lia.
  - intros _. exact sample_customer_draws_admissible.
  - unfold admissible, Np.unit_sample. simpl.
    repeat split; unfold Qle, Qlt; simpl; lia.
  - unfold Qlt; simpl; lia.
  - unfold Qlt; simpl; lia.
Defined.

End TransactionLoopFacts.

(** ** The inventory generator *)

Section InventoryGenerator.
Import Inventory.

Lemma products_loop_closed (rng : nat -> nat -> draws) (store : Stores.store)
    (products : list product) (n : nat) (acc : list inventory_record) :
  products_loop rng store products (n, acc)
  = ((n + length (kept_products rng store products))%nat,
     acc ++ imap (fun k x =>
                    make_record (n + k) store x
                      (rng (Stores.store_id store) (product_key x)))
              (kept_products rng store products)).
Proof.
  revert n acc. induction products as [| x products IH]; intros n acc.
  - simpl. rewrite Nat.add_0_r, app_nil_r. reflexivity.
  - cbn [products_loop]. unfold kept_products. rewrite filter_cons.
    fold (kept_products rng store products).
    destruct (decide (skipped store x _)) as [Hs | Hs].
    + destruct (decide (~ skipped store x _)) as [Hn | _];
        [ contradiction | ].
      apply IH.
    + destruct (decide (~ skipped store x _)) as [_ | Hn];
        [ | contradiction ].
      cbn [fst snd]. rewrite IH. cbn [length]. rewrite imap_cons.
      f_equal; [ lia | ].
      rewrite <- app_assoc. cbn [app]. rewrite Nat.add_0_r.
      do 2 f_equal. apply imap_ext. intros k y _. unfold compose.
      replace (S n + k)%nat with (n + S k)%nat by lia. reflexivity.
Qed.

Lemma stores_loop_closed (rng : nat -> nat -> draws)
    (stores : list Stores.store) (products : list product) (n : nat)
    (acc : list inventory_record) :
  stores_loop rng stores products (n, acc)
  = ((n + length (kept_pairs rng stores products))%nat,
     acc ++ imap (fun k sx =>
                    make_record (n + k) (fst sx) (snd sx)
                      (rng (Stores.store_id (fst sx)) (product_key (snd sx))))
              (kept_pairs rng stores products)).
Proof.
  revert n acc. induction stores as [| s stores IH]; intros n acc.
  - simpl. rewrite Nat.add_0_r, app_nil_r. reflexivity.
  - cbn [stores_loop]. rewrite products_loop_closed, IH.
    unfold kept_pairs. rewrite bind_cons.
    fold (kept_pairs rng stores products).
    rewrite length_app, length_fmap, imap_app, imap_fmap, length_fmap.
    f_equal; [ lia | ].
    rewrite <- app_assoc. do 2 f_equal.
    apply imap_ext. intros k sx _.
    replace (n + length (kept_products rng s products) + k)%nat
      with (n + (length (kept_products rng s products) + k))%nat by lia.
    reflexivity.
Qed.

Lemma inventory_data_closed (rng : nat -> nat -> draws)
    (stores : list Stores.store) (products : list product) :
  inventory_data rng stores products
  = imap (fun k sx =>
            make_record (1 + k) (fst sx) (snd sx)
              (rng (Stores.store_id (fst sx)) (product_key (snd sx))))
      (kept_pairs rng stores products).
Proof. unfold inventory_data. rewrite stores_loop_closed. reflexivity. Qed.

Lemma kept_pairs_elem (rng : nat -> nat -> draws)
    (stores : list Stores.store) (products : list product)
    (s : Stores.store) (x : product) :
  (s, x) ∈ kept_pairs rng stores products <->
  s ∈ stores /\ x ∈ products /\
  ~ skipped s x (rng (Stores.store_id s) (product_key x)).
Proof.
  unfold kept_pairs, kept_products. rewrite list_elem_of_bind. split.
  - intros (s' & Hin & Hs').
    apply list_elem_of_fmap in Hin as (x' & E & Hx').
    injection E as -> ->.
    apply list_elem_of_filter in Hx'. tauto.
  - intros (Hs & Hx & Hk). exists s. split; [ | exact Hs ].
    apply list_elem_of_fmap. exists x. split; [ reflexivity | ].
    apply list_elem_of_filter. tauto.
Qed.

Lemma kept_pairs_length (rng : nat -> nat -> draws)
    (stores : list Stores.store) (products : list product) :
  (length (kept_pairs rng stores products)
   <= length stores * length products)%nat.
Proof.
  unfold kept_pairs. induction stores as [| s stores IH].
  - simpl. lia.
  - rewrite bind_cons, length_app, length_fmap. cbn [length Nat.mul].
    assert (Hf : (length (kept_products rng s products)
                  <= length products)%nat)
      by (unfold kept_products; apply length_filter).
    lia.
Qed.

Lemma make_record_ids (n : nat) (s : Stores.store) (x : product)
    (d : draws) :
  inventory_id (make_record n s x d) = n /\
  store_id (make_record n s x d) = Stores.store_id s /\
  product_id (make_record n s x d) = product_key x.
Proof.
  unfold make_record. destruct (stock_and_reorder _ d). auto.
Qed.

(** X10: the inventory ids are 1, 2, ... without gaps, whatever pairs
    are skipped; there are at most stores times products records; every
    record belongs to a (store, product) pair of the tables that was not
    skipped, every pair that was not skipped has a record, and a pair is
    never skipped unless the store is Tier 3 and the product Electronics
    or Fashion. *)
Theorem inventory_ids_and_coverage (rng : nat -> nat -> draws)
    (stores : list Stores.store) (products : list product) :
  let inv := inventory_data rng stores products in
  inventory_id <$> inv = seq 1 (length inv) /\
  (length inv <= length stores * length products)%nat /\
  (forall r, r ∈ inv ->
     exists s x, s ∈ stores /\ x ∈ products /\
       store_id r = Stores.store_id s /\ product_id r = product_key x /\
       ~ skipped s x (rng (Stores.store_id s) (product_key x))) /\
  (forall s x, s ∈ stores -> x ∈ products ->
     ~ skipped s x (rng (Stores.store_id s) (product_key x)) ->
     exists r, r ∈ inv /\
       store_id r = Stores.store_id s /\ product_id r = product_key x) /\
  (forall s x, s ∈ stores -> x ∈ products ->
     Stores.region_tier s <> Tier3 \/ ~ TransactionLoop.discretionary x ->
     exists r, r ∈ inv /\
       store_id r = Stores.store_id s /\ product_id r = product_key x).
Proof.
  intros inv. unfold inv. rewrite inventory_data_closed.
  set (f := fun (k : nat) (sx : Stores.store * product) =>
              make_record (1 + k) (fst sx) (snd sx)
                (rng (Stores.store_id (fst sx)) (product_key (snd sx)))).
  set (P := kept_pairs rng stores products).
  assert (Hcover : forall s x, s ∈ stores -> x ∈ products ->
            ~ skipped s x (rng (Stores.store_id s) (product_key x)) ->
            exists r, r ∈ imap f P /\
              store_id r = Stores.store_id s /\ product_id r = product_key x).
  { intros s x Hs Hx Hk.
    assert (Hin : (s, x) ∈ P) by (apply kept_pairs_elem; auto).
    apply list_elem_of_lookup in Hin as [k Hk'].
    exists (f k (s, x)). split; [ apply elem_of_lookup_imap_2; exact Hk' | ].
    unfold f. cbn [fst snd]. apply make_record_ids. }
  split; [ | split; [ | split; [ | split ] ] ].
  - rewrite length_imap. apply list_eq. intros k.
    rewrite list_lookup_fmap, list_lookup_imap.
    destruct (P !! k) as [[s x] |] eqn:Hk; simpl.
    + unfold f. cbn [fst snd].
      destruct (make_record_ids (1 + k) s x
                  (rng (Stores.store_id s) (product_key x))) as [-> _].
      symmetry. apply lookup_seq. split; [ reflexivity | ].
      apply lookup_lt_Some in Hk. exact Hk.
    + symmetry. apply lookup_ge_None. rewrite length_seq.
      apply lookup_ge_None in Hk. exact Hk.
  - rewrite length_imap. apply kept_pairs_length.
  - intros r Hr. apply elem_of_lookup_imap_1 in Hr as (k & [s x] & -> & Hk).
    assert (Hin : (s, x) ∈ P) by (apply list_elem_of_lookup; eauto).
    apply kept_pairs_elem in Hin as (Hs & Hx & Hkept).
    exists s, x. unfold f. cbn [fst snd].
    destruct (make_record_ids (1 + k) s x
                (rng (Stores.store_id s) (product_key x))) as (_ & E1 & E2).
    auto 6.
  - exact Hcover.
  - intros s x Hs Hx Hor. apply Hcover; [ exact Hs | exact Hx | ].
    unfold skipped. tauto.
Qed.

Lemma int_of_scaled_stock (stock : Z) (rate : Q) (lo : Z) :
  (0 < stock)%Z -> 0 < rate -> rate < 1 ->
  inject_Z lo <= inject_Z stock * rate -> (0 < lo)%Z ->
  (lo <= Py.int (inject_Z stock * rate) < stock)%Z.
Proof.
  intros Hs Hr0 Hr1 Hlo Hpos.
  assert (Hq : 0 < inject_Z stock).
  { change 0 with (inject_Z 0). rewrite <- Zlt_Qlt. exact Hs. }
  unfold Py.int.
  destruct (Qlt_le_dec (inject_Z stock * rate) 0) as [Hneg | _]; [ nra | ].
  split.
  - rewrite <- (Qfloor_Z lo). apply Qfloor_resp_le. exact Hlo.
  - rewrite Zlt_Qlt.
    apply Qle_lt_trans with (inject_Z stock * rate); [ apply Qfloor_le | nra ].
Qed.

Lemma stock_and_reorder_sound (t : tier) (d : draws) :
  Np.unit_sample (u_stock d) ->
  let '(stock, reorder) := stock_and_reorder t d in
  (match t with
   | Metro => 50 <= stock < 300
   | Tier2 => 20 <= stock < 150
   | Tier3 => 10 <= stock < 80
   end)%Z /\ (0 < reorder < stock)%Z.
Proof.
  intros Hu. unfold stock_and_reorder. destruct t.
  - pose proof (randint_bounds 50 300 _ ltac:(lia) Hu) as Hb.
    set (stock := Np.randint 50 300 (u_stock d)) in *.
    split; [ exact Hb | ].
    assert (H50 : inject_Z 50 <= inject_Z stock)
      by (rewrite <- Zle_Qle; lia).
    pose proof (int_of_scaled_stock stock 0.3 15 ltac:(lia) ltac:(reflexivity)
                  ltac:(reflexivity)) as Hi.
    change (inject_Z 50) with 50 in H50. change (inject_Z 15) with 15 in Hi.
    specialize (Hi ltac:(lra) ltac:(lia)). lia.
  - pose proof (randint_bounds 20 150 _ ltac:(lia) Hu) as Hb.
    set (stock := Np.randint 20 150 (u_stock d)) in *.
    split; [ exact Hb | ].
    assert (H20 : inject_Z 20 <= inject_Z stock)
      by (rewrite <- Zle_Qle; lia).
    pose proof (int_of_scaled_stock stock 0.25 5 ltac:(lia) ltac:(reflexivity)
                  ltac:(reflexivity)) as Hi.
    change (inject_Z 20) with 20 in H20. change (inject_Z 5) with 5 in Hi.
    specialize (Hi ltac:(lra) ltac:(lia)). lia.
  - pose proof (randint_bounds 10 80 _ ltac:(lia) Hu) as Hb.
    set (stock := Np.randint 10 80 (u_stock d)) in *.
    split; [ exact Hb | ].
    assert (H10 : inject_Z 10 <= inject_Z stock)
      by (rewrite <- Zle_Qle; lia).
    pose proof (int_of_scaled_stock stock 0.20 2 ltac:(lia) ltac:(reflexivity)
                  ltac:(reflexivity)) as Hi.
    change (inject_Z 10) with 10 in H10. change (inject_Z 2) with 2 in Hi.
    specialize (Hi ltac:(lra) ltac:(lia)). lia.
Qed.

Lemma make_record_sound (n : nat) (s : Stores.store) (x : product)
    (d : draws) :
  admissible d ->
  let r := make_record n s x d in
  stocked_for (Stores.region_tier s) r /\
  (0 < reorder_point r < current_stock r)%Z /\
  0 < avg_daily_sales r /\
  (cutoff - 29 <= last_restock_date r <= cutoff - 1)%Z.
Proof.
  intros (_ & Hst & Hso & Hre). unfold make_record.
  pose proof (stock_and_reorder_sound (Stores.region_tier s) d Hst) as Hsr.
  destruct (stock_and_reorder (Stores.region_tier s) d) as [stock reorder].
  destruct Hsr as [Hrange Hreorder].
  cbn [current_stock reorder_point stockout_days_last_month avg_daily_sales
       last_restock_date].
  pose proof (randint_bounds 0 15 _ ltac:(lia) Hso) as H15.
  pose proof (randint_bounds 0 5 _ ltac:(lia) Hso) as H5.
  pose proof (randint_bounds 1 30 _ ltac:(lia) Hre) as H30.
  split; [ | split; [ exact Hreorder | split ] ].
  - unfold stocked_for.
    destruct (Stores.region_tier s);
      cbn [current_stock stockout_days_last_month];
      (destruct (decide _) as [Hd | Hd]; [ | ]); try congruence;
      try (exfalso; apply Hd; discriminate); split; assumption.
  - destruct (round2_close (inject_Z stock / 30)) as [Hlo _].
    assert (H10 : 10 <= inject_Z stock).
    { change 10 with (inject_Z 10). rewrite <- Zle_Qle.
      destruct (Stores.region_tier s); lia. }
    assert (E : inject_Z stock / 30 == inject_Z stock * (1 # 30)) by field.
    set (sales := inject_Z stock / 30) in *. lra.
  - unfold Dates.minus_days. fold cutoff. lia.
Qed.

(** X11: every inventory record belongs to a store of the table and has
    a stock level and a stockout count in the ranges of that store's
    tier, a reorder point strictly between zero and the current stock, a
    positive average of daily sales, and a restock date 1 to 29 days
    before the cutoff. *)
Theorem inventory_records_sound (rng : nat -> nat -> draws)
    (stores : list Stores.store) (products : list product) :
  (forall a b, admissible (rng a b)) ->
  Forall (inventory_record_sound stores)
    (inventory_data rng stores products).
Proof.
  intros Hrng. apply Forall_forall. intros r.
  rewrite inventory_data_closed.
  intros Hr. apply elem_of_lookup_imap_1 in Hr as (k & [s x] & -> & Hk).
  assert (Hin : (s, x) ∈ kept_pairs rng stores products)
    by (apply list_elem_of_lookup; eauto).
  apply kept_pairs_elem in Hin as (Hs & _ & _).
  cbn [fst snd].
  destruct (make_record_sound (1 + k) s x
              (rng (Stores.store_id s) (product_key x)) (Hrng _ _))
    as (Hstock & Hrest).
  unfold inventory_record_sound. split; [ | exact Hrest ].
  exists s. split; [ exact Hs | split; [ | exact Hstock ] ].
  apply make_record_ids.
Qed.

Lemma inventory_records_sound_witness :
  Forall (inventory_record_sound sample_stores)
    (inventory_data (fun _ _ => sample_inventory_draws) sample_stores
       [sample_product]).
Proof.
  apply (inventory_records_sound (fun _ _ => sample_inventory_draws)
           sample_stores [sample_product]).
  intros _ _. unfold admissible, Np.unit_sample. simpl.
  repeat split; unfold Qle, Qlt; simpl; lia.
Defined.

End InventoryGenerator.

(** ** Regional aggregation and insights *)

Section Insights.
Import Analysis.

Lemma count_positive {A : Type} (xs : list A) :
  xs <> [] -> 0 < inject_Z (Z.of_nat (length xs)).
Proof.
  intros Hne. change 0 with (inject_Z 0). rewrite <- Zlt_Qlt.
  destruct xs; [ congruence | simpl; lia ].
Qed.

Lemma total_lower (xs : list Q) (a : Q) :
  Forall (fun x => a <= x) xs ->
  inject_Z (Z.of_nat (length xs)) * a <= total xs.
Proof.
  induction 1 as [| x xs Hx _ IH].
  - cbn [total foldr length]. change (inject_Z (Z.of_nat 0)) with 0. lra.
  - cbn [total foldr length]. fold (total xs).
    rewrite Nat2Z.inj_succ. unfold Z.succ. rewrite inject_Z_plus.
    change (inject_Z 1) with 1. lra.
Qed.

Lemma total_upper (xs : list Q) (b : Q) :
  Forall (fun x => x <= b) xs ->
  total xs <= inject_Z (Z.of_nat (length xs)) * b.
Proof.
  induction 1 as [| x xs Hx _ IH].
  - cbn [total foldr length]. change (inject_Z (Z.of_nat 0)) with 0. lra.
  - cbn [total foldr length]. fold (total xs).
    rewrite Nat2Z.inj_succ. unfold Z.succ. rewrite inject_Z_plus.
    change (inject_Z 1) with 1. lra.
Qed.

(** The rounded mean of a group stays within a half hundredth of any
    bound its values obey. *)
Lemma rounded_mean_lower (xs : list Q) (a : Q) :
  xs <> [] -> Forall (fun x => a <= x) xs ->
  a - (1 # 200) <= Py.round2 (mean xs).
Proof.
  intros Hne Hall. pose proof (total_lower xs a Hall) as Ht.
  pose proof (count_positive xs Hne) as Hn.
  assert (Hm : a <= mean xs).
  { unfold mean. apply Qle_shift_div_l; [ exact Hn | lra ]. }
  destruct (round2_close (mean xs)) as [R _]. lra.
Qed.

Lemma rounded_mean_upper (xs : list Q) (b : Q) :
  xs <> [] -> Forall (fun x => x <= b) xs ->
  Py.round2 (mean xs) <= b + (1 # 200).
Proof.
  intros Hne Hall. pose proof (total_upper xs b Hall) as Ht.
  pose proof (count_positive xs Hne) as Hn.
  assert (Hm : mean xs <= b).
  { unfold mean. apply Qle_shift_div_r; [ exact Hn | lra ]. }
  destruct (round2_close (mean xs)) as [_ R]. lra.
Qed.

Lemma mean_of_zeros (xs : list Q) :
  xs <> [] -> Forall (fun x => x = 0) xs -> Py.round2 (mean xs) = 0.
Proof.
  intros Hne Hall.
  assert (Hlo : Forall (fun x => 0 <= x) xs)
    by (eapply Forall_impl; [ exact Hall | intros x ->; lra ]).
  assert (Hup : Forall (fun x => x <= 0) xs)
    by (eapply Forall_impl; [ exact Hall | intros x ->; lra ]).
  pose proof (total_lower xs 0 Hlo) as T1.
  pose proof (total_upper xs 0 Hup) as T2.
  pose proof (count_positive xs Hne) as Hn.
  assert (E : mean xs == 0).
  { unfold mean. apply Qle_antisym.
    - apply Qle_shift_div_r; [ exact Hn | lra ].
    - apply Qle_shift_div_l; [ exact Hn | lra ]. }
  rewrite (round2_comp _ 0 E). reflexivity.
Qed.

Lemma column_nonempty (f : Transactions.transaction -> Q)
    (g : list TransactionLoop.record) :
  g <> [] -> column f g <> [].
Proof. destruct g; [ congruence | discriminate ]. Qed.

Lemma column_forall (f : Transactions.transaction -> Q) (P : Q -> Prop)
    (g : list TransactionLoop.record) :
  Forall (fun r => P (f (TransactionLoop.row r))) g -> Forall P (column f g).
Proof. intros H. unfold column. apply Forall_fmap. exact H. Qed.

Lemma regional_perf_some (txns : list TransactionLoop.record) (t : tier) :
  group txns t <> [] -> exists m, regional_perf txns t = Some m /\
    avg_delivery_time m
      = Py.round2 (mean (column Transactions.delivery_time_hours
                           (group txns t))) /\
    avg_logistics_cost m
      = Py.round2 (mean (column Transactions.logistics_cost (group txns t))) /\
    avg_spoilage_cost m
      = Py.round2 (mean (column Transactions.spoilage_cost (group txns t))).
Proof.
  intros Hne. unfold regional_perf.
  destruct (decide (group txns t = [])) as [E | _]; [ contradiction | ].
  eexists. split; [ reflexivity | ]. auto.
Qed.

Lemma characteristics_delivery (t : tier) (d : Transactions.draws)
    (q disc : Z) (dt dd : Q) (pm : string) :
  Transactions.characteristics t d = Some (q, disc, dt, dd, pm) ->
  match t with
  | Metro => dt = Np.uniform 0.5 3 (Transactions.d_delivery_time d) /\
             dd = Np.uniform 1 15 (Transactions.d_delivery_distance d)
  | Tier2 => dt = Np.uniform 2 8 (Transactions.d_delivery_time d) /\
             dd = Np.uniform 3 30 (Transactions.d_delivery_distance d)
  | Tier3 => dt = Np.uniform 4 16 (Transactions.d_delivery_time d) /\
             dd = Np.uniform 5 60 (Transactions.d_delivery_distance d)
  end.
Proof.
  unfold Transactions.characteristics. destruct t;
    (destruct (Np.choice _ _ (Transactions.d_discount d)) as [x |];
       cbn [mbind option_bind]; [ | discriminate ]);
    (destruct (Np.choice _ _ (Transactions.d_payment d)) as [y |];
       cbn [mbind option_bind]; [ | discriminate ]);
    intros H; injection H as <- <- <- <- <-; auto.
Qed.

(** What generation fixes of a stored row, tier by tier. *)
Lemma generated_record_facts (r : TransactionLoop.record) :
  generated_record r ->
  let x := TransactionLoop.row r in
  (Transactions.region_tier x = Metro ->
     Transactions.spoilage_cost x = 0 /\
     (17 # 1) <= Transactions.logistics_cost x /\
     Transactions.logistics_cost x <= 53 /\
     Transactions.delivery_time_hours x <= 3 + (1 # 200)) /\
  (Transactions.region_tier x = Tier3 ->
     57 <= Transactions.logistics_cost x /\
     4 - (1 # 200) <= Transactions.delivery_time_hours x).
Proof.
  intros (t & prod & d & Hadm & Hrow). cbn zeta.
  destruct (transaction_row_inv _ _ _ _ Hrow) as (l & Hl & ->).
  destruct (derive_inv _ _ _ _ Hl)
    as [(q & dt & Hc & _ & Hdt) _ _ _ Hlog Hsp _ _ _].
  pose proof (characteristics_delivery _ _ _ _ _ _ _ Hc) as Hdel.
  destruct Hadm as (_ & _ & Htime & Hdist & _).
  cbn [Transactions.store_row Transactions.region_tier
       Transactions.spoilage_cost Transactions.logistics_cost
       Transactions.delivery_time_hours].
  rewrite Hlog, Hsp, Hdt.
  split; intros ->.
  - destruct Hdel as [-> ->].
    destruct (uniform_range 0.5 3 _ ltac:(reflexivity) Htime) as [T1 T2].
    destruct (uniform_range 1 15 _ ltac:(reflexivity) Hdist) as [D1 D2].
    unfold Transactions.spoilage, Transactions.logistics.
    destruct (round2_close
                (Np.uniform 1 15 (Transactions.d_delivery_distance d) * 2.5
                 + 15)) as [L1 L2].
    destruct (round2_close
                (Np.uniform 0.5 3 (Transactions.d_delivery_time d)))
      as [_ R2].
    split; [ destruct (is_perishable prod); reflexivity | ].
    repeat split; lra.
  - destruct Hdel as [-> ->].
    destruct (uniform_range 4 16 _ ltac:(reflexivity) Htime) as [T1 T2].
    destruct (uniform_range 5 60 _ ltac:(reflexivity) Hdist) as [D1 D2].
    unfold Transactions.logistics.
    destruct (round2_close
                (Np.uniform 5 60 (Transactions.d_delivery_distance d) * 4.5
                 + 35)) as [L1 L2].
    destruct (round2_close
                (Np.uniform 4 16 (Transactions.d_delivery_time d)))
      as [R1 _].
    split; lra.
Qed.

Lemma group_forall (txns : list TransactionLoop.record) (t : tier)
    (P : TransactionLoop.record -> Prop) :
  Forall generated_record txns ->
  (forall r, generated_record r ->
     Transactions.region_tier (TransactionLoop.row r) = t -> P r) ->
  Forall P (group txns t).
Proof.
  intros Hall HP. apply Forall_forall. intros r Hr.
  unfold group in Hr. apply list_elem_of_filter in Hr as [Ht Hin].
  rewrite Forall_forall in Hall. auto.
Qed.

Lemma sample_transactions_generated :
  Forall generated_record sample_transactions.
Proof.
  unfold sample_transactions. repeat apply Forall_cons_2; [ | | constructor ].
  - exists Metro, sample_product, sample_txn_draws. split.
    + unfold Transactions.admissible, Np.unit_sample. simpl.
      repeat split; unfold Qle, Qlt; simpl; lia.
    + vm_compute. reflexivity.
  - exists Tier3, milk, sample_txn_draws. split.
    + unfold Transactions.admissible, Np.unit_sample. simpl.
      repeat split; unfold Qle, Qlt; simpl; lia.
    + vm_compute. reflexivity.
Qed.

(** X12: the spoilage insight always reports a ratio of zero.  Metro
    rows never carry a spoilage cost, so the Metro average is 0, the test
    [metro_spoilage > 0] fails and the ratio takes its default, for every
    table of generated rows with a Metro and a Tier 3 row. *)
Theorem spoilage_ratio_always_zero (txns : list TransactionLoop.record) :
  Forall generated_record txns ->
  group txns Metro <> [] -> group txns Tier3 <> [] ->
  (exists metro, regional_perf txns Metro = Some metro /\
                 avg_spoilage_cost metro = 0) /\
  spoilage_ratio txns = Some 0.
Proof.
  intros Hall Hm H3.
  destruct (regional_perf_some txns Metro Hm) as (m & Rm & _ & _ & Sm).
  destruct (regional_perf_some txns Tier3 H3) as (t3 & R3 & _).
  assert (Hzero : avg_spoilage_cost m = 0).
  { rewrite Sm. apply mean_of_zeros; [ apply column_nonempty, Hm | ].
    apply column_forall. apply group_forall; [ exact Hall | ].
    intros r Hr Ht. destruct (generated_record_facts r Hr) as [Hmetro _].
    destruct (Hmetro Ht) as [E _]. exact E. }
  split; [ exists m; auto | ].
  unfold spoilage_ratio. rewrite R3, Rm. cbn [mbind option_bind].
  rewrite Hzero.
  destruct (Qlt_le_dec 0 0) as [Hlt | _]; [ lra | reflexivity ].
Qed.

Lemma spoilage_ratio_always_zero_witness :
  (exists metro, regional_perf sample_transactions Metro = Some metro /\
                 avg_spoilage_cost metro = 0) /\
  spoilage_ratio sample_transactions = Some 0.
Proof.
  apply (spoilage_ratio_always_zero sample_transactions).
  - exact sample_transactions_generated.
  - discriminate.
  - discriminate.
Defined.

(** X13: for every table of generated rows with a Metro and a Tier 3
    row, the logistics insight divides by a non-zero Metro average and
    reports a positive increase, and the delivery insight reports a
    positive delay: the ranges the generator draws from do not overlap. *)
Theorem tier3_reported_worse (txns : list TransactionLoop.record) :
  Forall generated_record txns ->
  group txns Metro <> [] -> group txns Tier3 <> [] ->
  exists increase delay,
    logistics_increase txns = Some increase /\ 0 < increase /\
    time_increase txns = Some delay /\ 0 < delay.
Proof.
  intros Hall Hm H3.
  destruct (regional_perf_some txns Metro Hm) as (m & Rm & Tm & Lm & _).
  destruct (regional_perf_some txns Tier3 H3) as (t3 & R3 & T3 & L3 & _).
  assert (HLm : 17 - (1 # 200) <= avg_logistics_cost m).
  { rewrite Lm. apply rounded_mean_lower; [ apply column_nonempty, Hm | ].
    apply column_forall. apply group_forall; [ exact Hall | ].
    intros r Hr Ht. destruct (generated_record_facts r Hr) as [Hmetro _].
    destruct (Hmetro Ht) as (_ & A & _). exact A. }
  assert (HLm' : avg_logistics_cost m <= 53 + (1 # 200)).
  { rewrite Lm. apply rounded_mean_upper; [ apply column_nonempty, Hm | ].
    apply column_forall. apply group_forall; [ exact Hall | ].
    intros r Hr Ht. destruct (generated_record_facts r Hr) as [Hmetro _].
    destruct (Hmetro Ht) as (_ & _ & A & _). exact A. }
  assert (HL3 : 57 - (1 # 200) <= avg_logistics_cost t3).
  { rewrite L3. apply rounded_mean_lower; [ apply column_nonempty, H3 | ].
    apply column_forall. apply group_forall; [ exact Hall | ].
    intros r Hr Ht. destruct (generated_record_facts r Hr) as [_ Htier3].
    destruct (Htier3 Ht) as (A & _). exact A. }
  assert (HTm : avg_delivery_time m <= 3 + (1 # 200) + (1 # 200)).
  { rewrite Tm. apply rounded_mean_upper; [ apply column_nonempty, Hm | ].
    apply column_forall. apply group_forall; [ exact Hall | ].
    intros r Hr Ht. destruct (generated_record_facts r Hr) as [Hmetro _].
    destruct (Hmetro Ht) as (_ & _ & _ & A). exact A. }
  assert (HT3 : 4 - (1 # 200) - (1 # 200) <= avg_delivery_time t3).
  { rewrite T3. apply rounded_mean_lower; [ apply column_nonempty, H3 | ].
    apply column_forall. apply group_forall; [ exact Hall | ].
    intros r Hr Ht. destruct (generated_record_facts r Hr) as [_ Htier3].
    destruct (Htier3 Ht) as (_ & A). exact A. }
  unfold logistics_increase, time_increase. rewrite Rm, R3.
  cbn [mbind option_bind]. unfold float_div.
  destruct (Qeq_dec (avg_logistics_cost m) 0) as [E | _];
    [ rewrite E in HLm; lra | ].
  cbn [mbind option_bind].
  eexists; eexists. split; [ reflexivity | ].
  split; [ | split; [ reflexivity | lra ] ].
  apply Qmult_lt_0_compat; [ | reflexivity ].
  apply Qlt_shift_div_l; lra.
Qed.

Lemma tier3_reported_worse_witness :
  exists increase delay,
    logistics_increase sample_transactions = Some increase /\ 0 < increase /\
    time_increase sample_transactions = Some delay /\ 0 < delay.
Proof.
  apply (tier3_reported_worse sample_transactions).
  - exact sample_transactions_generated.
  - discriminate.
  - discriminate.
Defined.

End Insights.

(** ** The repeat-purchase rate *)

Section RepeatRate.
Import Behavior.

Lemma round2_mono (x y : Q) : x <= y -> Py.round2 x <= Py.round2 y.
Proof.
  intros Hxy. destruct (Qeq_dec x y) as [E | Hne].
  - rewrite (round2_comp x y E). apply Qle_refl.
  - assert (Hlt : x < y).
    { apply Qnot_le_lt. intros Hyx. apply Hne. apply Qle_antisym; assumption. }
    rewrite !round2_cents.
    destruct (round_half_even_close (x * 100)) as [_ Hx].
    destruct (round_half_even_close (y * 100)) as [Hy _].
    set (kx := Py.round_half_even (x * 100)) in *.
    set (ky := Py.round_half_even (y * 100)) in *.
    assert (Hk : (kx - ky < 1)%Z).
    { rewrite Zlt_Qlt. unfold Zminus.
      rewrite inject_Z_plus, inject_Z_opp. change (inject_Z 1) with 1. lra. }
    assert (Hle : inject_Z kx <= inject_Z ky) by (rewrite <- Zle_Qle; lia).
    apply Qle_shift_div_l; [ reflexivity | ].
    assert (E : inject_Z kx / 100 * 100 == inject_Z kx) by field.
    rewrite E. exact Hle.
Qed.

Lemma filter_length_zero {A : Type} (P : A -> Prop)
    `{!forall x, Decision (P x)} (l : list A) :
  length (filter P l) = 0%nat <-> forall x, x ∈ l -> ~ P x.
Proof.
  split.
  - intros Hlen x Hx HP.
    assert (Hin : x ∈ filter P l) by (apply list_elem_of_filter; auto).
    destruct (filter P l); [ | discriminate ].
    apply elem_of_nil in Hin. exact Hin.
  - intros Hall. destruct (filter P l) as [| y k] eqn:E; [ reflexivity | ].
    assert (Hy : y ∈ filter P l) by (rewrite E; left).
    apply list_elem_of_filter in Hy as [HP Hy]. exfalso. exact (Hall y Hy HP).
Qed.

Lemma group_keys_elem (txns : list TransactionLoop.record) (k : nat * tier) :
  k ∈ group_keys txns <-> exists r, r ∈ txns /\ key r = k.
Proof.
  unfold group_keys. rewrite merge_sort_Permutation, elem_of_remove_dups.
  rewrite list_elem_of_fmap. split; intros (r & H1 & H2); eauto.
Qed.

Lemma purchases_nonempty (txns : list TransactionLoop.record)
    (k : nat * tier) :
  purchases txns k <> [] <-> k ∈ group_keys txns.
Proof.
  rewrite group_keys_elem. unfold purchases. split.
  - intros Hne. destruct (filter _ txns) as [| r l] eqn:E; [ congruence | ].
    assert (Hr : r ∈ filter (fun r => key r = k) txns) by (rewrite E; left).
    apply list_elem_of_filter in Hr as [Hk Hr]. eauto.
  - intros (r & Hr & Hk) E.
    assert (Hin : r ∈ filter (fun r => key r = k) txns)
      by (apply list_elem_of_filter; auto).
    rewrite E in Hin. apply elem_of_nil in Hin. exact Hin.
Qed.

Lemma customer_behavior_elem (txns : list TransactionLoop.record)
    (b : behavior_row) :
  b ∈ customer_behavior txns ->
  (customer_id b, region_tier b) ∈ group_keys txns /\
  purchase_count b
    = length (purchases txns (customer_id b, region_tier b)).
Proof.
  unfold customer_behavior. intros Hb.
  apply list_elem_of_fmap in Hb as ([c t] & -> & Hk).
  cbn [customer_id region_tier purchase_count fst snd]. auto.
Qed.

Lemma customer_behavior_row (txns : list TransactionLoop.record)
    (c : nat) (t : tier) :
  (c, t) ∈ group_keys txns ->
  exists b, b ∈ customer_behavior txns /\ customer_id b = c /\
            region_tier b = t /\
            purchase_count b = length (purchases txns (c, t)).
Proof.
  intros Hk. unfold customer_behavior.
  eexists. split; [ apply list_elem_of_fmap; eexists; split;
                      [ reflexivity | exact Hk ] | ].
  cbn [customer_id region_tier purchase_count fst snd]. auto.
Qed.

Lemma total_customers_none (txns : list TransactionLoop.record) (t : tier) :
  total_customers txns t = None <-> Analysis.group txns t = [].
Proof.
  unfold total_customers, size_by_tier.
  destruct (decide (length _ = 0%nat)) as [Hz | Hnz].
  - split; [ intros _ | reflexivity ].
    rewrite filter_length_zero in Hz.
    unfold Analysis.group.
    destruct (filter _ txns) as [| r l] eqn:E; [ reflexivity | exfalso ].
    assert (Hr : r ∈ filter
              (fun r => Transactions.region_tier (TransactionLoop.row r) = t)
              txns) by (rewrite E; left).
    apply list_elem_of_filter in Hr as [Ht Hr].
    destruct (customer_behavior_row txns (TransactionLoop.customer_id r) t)
      as (b & Hb & _ & Hbt & _).
    { apply group_keys_elem. exists r. split; [ exact Hr | ].
      unfold key. rewrite Ht. reflexivity. }
    exact (Hz b Hb Hbt).
  - split; [ discriminate | intros Hg; exfalso; apply Hnz ].
    apply filter_length_zero. intros b Hb Hbt.
    apply customer_behavior_elem in Hb as [Hk _].
    apply group_keys_elem in Hk as (r & Hr & Hkey).
    assert (Hin : r ∈ Analysis.group txns t).
    { unfold Analysis.group. apply list_elem_of_filter. split; [ | exact Hr ].
      unfold key in Hkey. injection Hkey as _ E. congruence. }
    rewrite Hg in Hin. apply elem_of_nil in Hin. exact Hin.
Qed.

Lemma repeat_customers_none (txns : list TransactionLoop.record) (t : tier) :
  repeat_customers txns t = None <->
  forall c, (length (purchases txns (c, t)) < 3)%nat.
Proof.
  unfold repeat_customers, size_by_tier.
  destruct (decide (length _ = 0%nat)) as [Hz | Hnz].
  - split; [ intros _ | reflexivity ].
    rewrite filter_length_zero in Hz. intros c.
    destruct (decide (purchases txns (c, t) = [])) as [-> | Hne];
      [ simpl; lia | ].
    apply purchases_nonempty in Hne.
    destruct (customer_behavior_row txns c t Hne) as (b & Hb & _ & Hbt & Hcnt).
    destruct (decide (3 <= purchase_count b)%nat) as [H3 | H3]; [ | lia ].
    exfalso. apply (Hz b); [ | exact Hbt ].
    apply list_elem_of_filter. auto.
  - split; [ discriminate | intros Hall; exfalso; apply Hnz ].
    apply filter_length_zero. intros b Hb Hbt.
    apply list_elem_of_filter in Hb as [H3 Hb].
    apply customer_behavior_elem in Hb as [_ Hcnt].
    specialize (Hall (customer_id b)). rewrite Hbt in Hcnt. lia.
Qed.

Lemma repeat_not_above_total (txns : list TransactionLoop.record) (t : tier)
    (x y : nat) :
  repeat_customers txns t = Some x -> total_customers txns t = Some y ->
  (0 < x <= y)%nat.
Proof.
  unfold repeat_customers, total_customers, size_by_tier.
  destruct (decide _) as [| Hx]; [ discriminate | ].
  destruct (decide _) as [| Hy]; [ discriminate | ].
  intros E1 E2. injection E1 as <-. injection E2 as <-.
  split; [ lia | ].
  rewrite list_filter_filter. 
  set (P := fun b => region_tier b = t).
  set (l := customer_behavior txns).
  clear. induction l as [| b l IH]; [ simpl; lia | ].
  rewrite !filter_cons.
  repeat case_decide; cbn [length]; try lia; tauto.
Qed.

(** The cell of the column in the three cases of the two series. *)
Lemma repeat_rate_cases (txns : list TransactionLoop.record) (t : tier) :
  (total_customers txns t = None /\ repeat_rate txns t = None) \/
  (exists y, total_customers txns t = Some y /\
             repeat_customers txns t = None /\
             repeat_rate txns t = Some None) \/
  (exists x y, total_customers txns t = Some y /\
               repeat_customers txns t = Some x /\
               (0 < x <= y)%nat /\
               repeat_rate txns t
                 = Some (Some (Py.round2 (inject_Z (Z.of_nat x)
                                          / inject_Z (Z.of_nat y) * 100)))).
Proof.
  unfold repeat_rate, percent_series.
  destruct (total_customers txns t) as [y |] eqn:Ht; [ | left; auto ].
  right. destruct (repeat_customers txns t) as [x |] eqn:Hr.
  - right. exists x, y.
    pose proof (repeat_not_above_total txns t x y Hr Ht) as Hxy.
    split; [ reflexivity | split; [ reflexivity | split; [ exact Hxy | ] ] ].
    unfold Analysis.float_div.
    destruct (Qeq_dec (inject_Z (Z.of_nat y)) 0) as [E | _]; [ | reflexivity ].
    exfalso. assert (H0 : 0 < inject_Z (Z.of_nat y)).
    { change 0 with (inject_Z 0). rewrite <- Zlt_Qlt. lia. }
    rewrite E in H0. lra.
  - left. exists y. auto.
Qed.

(** X15: the repeat-rate column has no cell for a tier without
    transactions; for a tier with transactions whose customers all have
    fewer than three purchases the cell is NaN, not zero; any other cell
    lies between 0 and 100.  A NaN Metro cell makes the retention gap
    NaN. *)
Theorem repeat_rate_edges (txns : list TransactionLoop.record) (t : tier) :
  (repeat_rate txns t = None <-> Analysis.group txns t = []) /\
  (repeat_rate txns t = Some None <->
     Analysis.group txns t <> [] /\
     forall c, (length (purchases txns (c, t)) < 3)%nat) /\
  (forall v, repeat_rate txns t = Some (Some v) -> 0 <= v /\ v <= 100) /\
  (repeat_rate txns Metro = Some None ->
     forall cell, repeat_rate txns Tier3 = Some cell ->
     retention_gap txns = Some None).
Proof.
  pose proof (total_customers_none txns t) as Htot.
  pose proof (repeat_customers_none txns t) as Hrep.
  split; [ | split; [ | split ] ].
  - destruct (repeat_rate_cases txns t)
      as [[Ht ->] | [(y & Ht & _ & ->) | (x & y & Ht & _ & _ & ->)]].
    + split; [ intros _; apply Htot; exact Ht | reflexivity ].
    + split; [ discriminate | ].
      intros Hg. apply Htot in Hg. congruence.
    + split; [ discriminate | ].
      intros Hg. apply Htot in Hg. congruence.
  - destruct (repeat_rate_cases txns t)
      as [[Ht ->] | [(y & Ht & Hr & ->) | (x & y & Ht & Hr & _ & ->)]].
    + split; [ discriminate | ].
      intros [Hg _]. exfalso. apply Hg. apply Htot. exact Ht.
    + split; [ intros _ | reflexivity ]. split.
      * intros Hg. apply Htot in Hg. congruence.
      * apply Hrep. exact Hr.
    + split; [ discriminate | ].
      intros [_ Hall]. apply Hrep in Hall. congruence.
  - intros v Hv.
    destruct (repeat_rate_cases txns t)
      as [[_ E] | [(y & _ & _ & E) | (x & y & _ & _ & Hxy & E)]];
      rewrite E in Hv; try discriminate.
    injection Hv as <-.
    assert (Hy : 0 < inject_Z (Z.of_nat y)).
    { change 0 with (inject_Z 0). rewrite <- Zlt_Qlt. lia. }
    assert (Hx : 0 <= inject_Z (Z.of_nat x) /\
                 inject_Z (Z.of_nat x) <= inject_Z (Z.of_nat y)).
    { change 0 with (inject_Z 0). rewrite <- !Zle_Qle. lia. }
    set (q := inject_Z (Z.of_nat x) / inject_Z (Z.of_nat y)).
    assert (Hq : 0 <= q /\ q <= 1).
    { unfold q. split.
      - apply Qle_shift_div_l; [ exact Hy | lra ].
      - apply Qle_shift_div_r; [ exact Hy | lra ]. }
    pose proof (round2_mono 0 (q * 100) ltac:(lra)) as Hlo.
    pose proof (round2_mono (q * 100) 100 ltac:(lra)) as Hhi.
    change (Py.round2 0) with 0 in Hlo.
    change (Py.round2 100) with 100 in Hhi.
    split; assumption.
  - intros Hm cell H3. unfold retention_gap. rewrite Hm, H3. reflexivity.
Qed.

End RepeatRate.

(** ** Cluster naming: which clusters get a name *)

Section ClusterCoverage.
Import Segments.

Lemma final_names_check (a b c : nat) :
  (a < 4)%nat -> (b < 4)%nat -> (c < 4)%nat ->
  (names_cover (final_names a b c) <-> a <> b /\ a <> c /\ b <> c) /\
  names_in_range (final_names a b c).
Proof.
  intros Ha Hb Hc.
  destruct a as [| [| [| [| a]]]]; try lia;
  destruct b as [| [| [| [| b]]]]; try lia;
  destruct c as [| [| [| [| c]]]]; try lia;
  unfold names_cover, names_in_range, optimal_k;
  apply (bool_decide_unpack _); vm_compute; exact I.
Qed.

Lemma first_best_in_range (better : Q -> Q -> Prop) (col : list Q) (i : nat) :
  first_best better col i -> (i < length col)%nat.
Proof. intros (x & Hx & _). exact (lookup_lt_Some _ _ _ Hx). Qed.

(** X14: with four cluster profiles, all four clusters receive a name
    exactly when the maximum-revenue, maximum-purchase and
    minimum-revenue clusters are three different clusters; otherwise at
    least one cluster is left without a name.  No label outside
    [range(optimal_k)] is ever named. *)
Theorem every_cluster_named_iff_extremes_differ
    (cluster_profiles : list profile) :
  length cluster_profiles = optimal_k ->
  exists hi_rev hi_pur lo_rev names,
    idxmax (revenue_column cluster_profiles) = Some hi_rev /\
    idxmax (purchases_column cluster_profiles) = Some hi_pur /\
    idxmin (revenue_column cluster_profiles) = Some lo_rev /\
    cluster_names cluster_profiles = Some names /\
    ((forall c, (c < optimal_k)%nat -> is_Some (cluster_name names c)) <->
       hi_rev <> hi_pur /\ hi_rev <> lo_rev /\ hi_pur <> lo_rev) /\
    (forall c, is_Some (cluster_name names c) -> (c < optimal_k)%nat).
Proof.
  intros Hlen.
  assert (Hne : forall f : profile -> Q, f <$> cluster_profiles <> []).
  { intros f E. apply (f_equal length) in E. rewrite length_fmap in E.
    rewrite Hlen in E. discriminate E. }
  destruct (idxmax_first_max _ (Hne avg_revenue)) as (hi_rev & Hhr & Mhr).
  destruct (idxmax_first_max _ (Hne avg_purchases)) as (hi_pur & Hhp & Mhp).
  destruct (idxmin_first_min _ (Hne avg_revenue)) as (lo_rev & Hlr & Mlr).
  apply first_best_in_range in Mhr, Mhp, Mlr.
  rewrite length_fmap, Hlen in Mhr, Mhp, Mlr. unfold optimal_k in Mhr, Mhp, Mlr.
  destruct (final_names_check hi_rev hi_pur lo_rev Mhr Mhp Mlr)
    as [Hcover Hrange].
  exists hi_rev, hi_pur, lo_rev, (final_names hi_rev hi_pur lo_rev).
  unfold revenue_column, purchases_column.
  do 3 (split; [ assumption | ]).
  split; [ unfold cluster_names; rewrite Hhr, Hhp, Hlr; reflexivity | ].
  unfold cluster_name. split.
  - rewrite <- Hcover. unfold names_cover. rewrite Forall_forall.
    split; intros H c Hc.
    + apply H. apply elem_of_seq in Hc. lia.
    + apply H. apply elem_of_seq. lia.
  - intros c [v Hv]. exact (Hrange c v Hv).
Qed.

Lemma every_cluster_named_iff_extremes_differ_witness :
  exists hi_rev hi_pur lo_rev names,
    idxmax (revenue_column top_cluster_profiles) = Some hi_rev /\
    idxmax (purchases_column top_cluster_profiles) = Some hi_pur /\
    idxmin (revenue_column top_cluster_profiles) = Some lo_rev /\
    cluster_names top_cluster_profiles = Some names /\
    ((forall c, (c < optimal_k)%nat -> is_Some (cluster_name names c)) <->
       hi_rev <> hi_pur /\ hi_rev <> lo_rev /\ hi_pur <> lo_rev) /\
    (forall c, is_Some (cluster_name names c) -> (c < optimal_k)%nat).
Proof.
  apply (every_cluster_named_iff_extremes_differ top_cluster_profiles).
  reflexivity.
Defined.

End ClusterCoverage.
